(** * Canvas annotation surface of the P&ID digitizer: coordinate transforms,
      draw gestures, zoom controls, connection rendering and the page-level
      annotation handlers.

    The development embeds [CanvasViewer] (frontend/src/components) and the
    mutation handlers of [Annotator] (frontend/src/pages) and states the
    properties of the annotation surface over that embedding. *)

From Stdlib Require Import QArith Qabs Qminmax Qround Qpower Lqa ZArith List
  Bool Lia String.
Import ListNotations.

Open Scope Q_scope.

(* ================================================================== *)
(** ** JavaScript numbers *)
(* ================================================================== *)

(** A JavaScript number is modelled as an exact rational or one of the three
    special values of IEEE-754.  Rounding is not modelled here (the section
    on rounded arithmetic bounds its effect on the coordinate transforms)
    and the two signed zeros are identified (a division by zero behaves as
    a division by [+0]).
    Every arithmetic operator follows the IEEE-754 table for the special
    values, so a division by zero yields an infinity or [NaN] as in the
    browser instead of an arbitrary finite value. *)
Module JsNum.

Inductive num : Type :=
| Fin (q : Q)
| PInf
| NInf
| NaN.

Definition is_finite (a : num) : bool :=
  match a with Fin _ => true | _ => false end.

(** Equality of values: rationals up to [Qeq], special values by name.  (This
    is the mathematical identity of values, not the [===] operator.) *)
Definition eqv (a b : num) : Prop :=
  match a, b with
  | Fin x, Fin y => x == y
  | PInf, PInf | NInf, NInf | NaN, NaN => True
  | _, _ => False
  end.

Definition neg (a : num) : num :=
  match a with
  | Fin q => Fin (- q)
  | PInf => NInf
  | NInf => PInf
  | NaN => NaN
  end.

Definition add (a b : num) : num :=
  match a, b with
  | NaN, _ | _, NaN => NaN
  | Fin x, Fin y => Fin (x + y)
  | PInf, NInf | NInf, PInf => NaN
  | PInf, _ | _, PInf => PInf
  | NInf, _ | _, NInf => NInf
  end.

Definition sub (a b : num) : num := add a (neg b).

(** Sign-directed infinity: the result of [q * Infinity] and of [q / 0]. *)
Definition signed_inf (q : Q) : num :=
  match q ?= 0 with
  | Gt => PInf
  | Lt => NInf
  | Eq => NaN
  end.

Definition mul (a b : num) : num :=
  match a, b with
  | NaN, _ | _, NaN => NaN
  | Fin x, Fin y => Fin (x * y)
  | Fin x, PInf | PInf, Fin x => signed_inf x
  | Fin x, NInf | NInf, Fin x => signed_inf (- x)
  | PInf, PInf | NInf, NInf => PInf
  | PInf, NInf | NInf, PInf => NInf
  end.

Definition div (a b : num) : num :=
  match a, b with
  | NaN, _ | _, NaN => NaN
  | Fin x, Fin y => if Qeq_bool y 0 then signed_inf x else Fin (x / y)
  | Fin _, PInf | Fin _, NInf => Fin 0
  | PInf, Fin y => match y ?= 0 with Lt => NInf | _ => PInf end
  | NInf, Fin y => match y ?= 0 with Lt => PInf | _ => NInf end
  | PInf, PInf | PInf, NInf | NInf, PInf | NInf, NInf => NaN
  end.

(** [a < b] and [a > b]: every comparison with [NaN] is false. *)
Definition ltb (a b : num) : bool :=
  match a, b with
  | NaN, _ | _, NaN => false
  | Fin x, Fin y => match x ?= y with Lt => true | _ => false end
  | NInf, NInf | PInf, _ | _, NInf => false
  | NInf, _ | _, PInf => true
  end.

Definition gtb (a b : num) : bool := ltb b a.

(** [Math.abs]. *)
Definition Math_abs (a : num) : num :=
  match a with
  | Fin q => Fin (Qabs q)
  | PInf | NInf => PInf
  | NaN => NaN
  end.

Definition min2 (a b : num) : num :=
  match a, b with
  | NaN, _ | _, NaN => NaN
  | _, _ => if ltb b a then b else a
  end.

Definition max2 (a b : num) : num :=
  match a, b with
  | NaN, _ | _, NaN => NaN
  | _, _ => if ltb a b then b else a
  end.

(** [Math.min(...)] and [Math.max(...)] are variadic: [NaN] if any argument
    is, and the identity of the operation on no argument. *)
Definition Math_min (l : list num) : num := fold_right min2 PInf l.
Definition Math_max (l : list num) : num := fold_right max2 NInf l.

(** Truthiness of a number: [0] and [NaN] are falsy. *)
Definition truthy (a : num) : bool :=
  match a with
  | Fin q => negb (Qeq_bool q 0)
  | PInf | NInf => true
  | NaN => false
  end.

(** [a === b] on numbers: false as soon as an operand is [NaN]; the two
    zeros are equal. *)
Definition strict_eq (a b : num) : bool :=
  match a, b with
  | Fin x, Fin y => Qeq_bool x y
  | PInf, PInf | NInf, NInf => true
  | _, _ => false
  end.

End JsNum.

Import JsNum.

Declare Scope num_scope.
Delimit Scope num_scope with num.
Bind Scope num_scope with num.
Infix "+" := add : num_scope.
Infix "-" := sub : num_scope.
Infix "*" := mul : num_scope.
Infix "/" := div : num_scope.
Infix "==" := eqv (at level 70, no associativity) : num_scope.
Infix ">?" := gtb (at level 70, no associativity) : num_scope.
Infix "<?" := ltb (at level 70, no associativity) : num_scope.

Coercion Fin : Q >-> num.

Open Scope num_scope.

(* ================================================================== *)
(** ** Data model *)
(* ================================================================== *)

(** The annotation and connection records the backend returns; only the
    fields the canvas reads are kept (colour and label text are styling). *)
Record Annotation : Type := mkAnnotation {
  ann_id : Z;
  ann_x : num;
  ann_y : num;
  ann_width : num;
  ann_height : num;
  ann_symbol_id : option Z;
  ann_is_yolo : bool          (* [ann.source === 'yolo'] *)
}.

Record Connection : Type := mkConnection {
  conn_id : Z;
  from_annotation_id : Z;
  to_annotation_id : Z;
  conn_is_signal : bool       (* [conn.line_type === 'signal'] *)
}.

(** The argument of [onAnnotationCreate]: [{ x, y, width, height }]. *)
Record Box : Type := mkBox {
  box_x : num;
  box_y : num;
  box_width : num;
  box_height : num
}.

Record Point : Type := mkPoint { pt_x : num; pt_y : num }.

Inductive Tool : Type := ToolSelect | ToolRectangle | ToolLine.

Definition tool_eqb (a b : Tool) : bool :=
  match a, b with
  | ToolSelect, ToolSelect | ToolRectangle, ToolRectangle
  | ToolLine, ToolLine => true
  | _, _ => false
  end.

(* ================================================================== *)
(** ** The drawing surface *)
(* ================================================================== *)

(** The objects [CanvasViewer] puts on the canvas, one constructor per [name]
    it gives them: ['backgroundImage'], [annotation-<id>],
    [annotation-<id>-label], [connection-<id>] and ['temp-rect']. *)
Record ImageObj : Type := mkImageObj {
  img_width : num;            (* natural size of the page image *)
  img_height : num;
  img_left : num;
  img_top : num;
  img_scaleX : num;
  img_scaleY : num
}.

Record RectObj : Type := mkRectObj {
  rect_left : num;
  rect_top : num;
  rect_width : num;
  rect_height : num
}.

Record AnnRectObj : Type := mkAnnRectObj {
  ar_annotationId : Z;
  ar_geom : RectObj;
  ar_strokeWidth : Z;
  ar_dashed : bool;
  ar_selectable : bool
}.

Record LabelObj : Type := mkLabelObj {
  lb_annotationId : Z;
  lb_left : num;
  lb_top : num
}.

Record LineObj : Type := mkLineObj {
  ln_connectionId : Z;
  ln_x1 : num;
  ln_y1 : num;
  ln_x2 : num;
  ln_y2 : num;
  ln_dashed : bool
}.

Inductive FabricObject : Type :=
| ObjBackgroundImage (img : ImageObj)
| ObjAnnotation (r : AnnRectObj)
| ObjAnnotationLabel (l : LabelObj)
| ObjConnection (l : LineObj)
| ObjTempRect.
(** The geometry of the rectangle being drawn is kept once, in the
    [tempRect] state variable that references it; [ObjTempRect] marks its
    place in the canvas's object list. *)

Definition is_backgroundImage (o : FabricObject) : bool :=
  match o with ObjBackgroundImage _ => true | _ => false end.

(** [obj.name?.startsWith('annotation-') || obj.name?.startsWith('connection-')] *)
Definition is_overlay (o : FabricObject) : bool :=
  match o with
  | ObjAnnotation _ | ObjAnnotationLabel _ | ObjConnection _ => true
  | _ => false
  end.

Definition is_tempRect (o : FabricObject) : bool :=
  match o with ObjTempRect => true | _ => false end.

(** The canvas's [viewportTransform] is the array [[a, b, c, d, e, f]].  Every
    write this component makes keeps [b = c = 0] and [a = d] (a zoom and a
    translation), so three numbers are kept: [vpt[0]] (= [vpt[3]]),
    [vpt[4]] and [vpt[5]]. *)
Record Vpt : Type := mkVpt {
  vpt0 : num;
  vpt4 : num;
  vpt5 : num
}.

Definition vpt_identity : Vpt := mkVpt 1 0 0.     (* [1, 0, 0, 1, 0, 0] *)

Record Canvas : Type := mkCanvas {
  viewportTransform : Vpt;
  objects : list FabricObject
}.

(** *** The canvas library

    The canvas is an object of the fabric library, which is a dependency of
    the repository, not part of it.  The operations [CanvasViewer] calls are
    modelled by their documented meaning on the viewport transform and the
    object list. *)
Module fabric.

(** [fabric.util.transformPoint(p, vpt)]: scene to viewport. *)
Definition transformPoint (p : Point) (t : Vpt) : Point :=
  mkPoint (vpt0 t * pt_x p + vpt4 t) (vpt0 t * pt_y p + vpt5 t).

(** [canvas.restorePointerVpt(p)]: viewport to scene, that is
    [transformPoint(p, invertTransform(vpt))].  For the array
    [t = [z, 0, 0, z, tx, ty]], [invertTransform] computes
    [a = 1 / (t[0] * t[3] - t[1] * t[2])], [r = [a * t[3], -a * t[1],
    -a * t[2], a * t[0]]] and the offset [-(r applied to (t[4], t[5]))].
    With a zoom of [0] every entry of the inverse is [NaN]. *)
Definition restorePointerVpt (c : Canvas) (p : Point) : Point :=
  let t := viewportTransform c in
  let a := 1 / (vpt0 t * vpt0 t - Fin 0 * Fin 0) in
  let r0 := a * vpt0 t in
  let r1 := neg a * Fin 0 in
  let r2 := neg a * Fin 0 in
  let r3 := a * vpt0 t in
  let r4 := neg (r0 * vpt4 t + r2 * vpt5 t) in
  let r5 := neg (r1 * vpt4 t + r3 * vpt5 t) in
  mkPoint (r0 * pt_x p + r2 * pt_y p + r4)
          (r1 * pt_x p + r3 * pt_y p + r5).

Definition getZoom (c : Canvas) : num := vpt0 (viewportTransform c).

Definition setViewportTransform (c : Canvas) (t : Vpt) : Canvas :=
  mkCanvas t (objects c).

(** [canvas.zoomToPoint(point, value)]: sets the zoom to [value] and
    shifts the translation by the displacement of [point], which is taken
    in viewport coordinates. *)
Definition zoomToPoint (c : Canvas) (point : Point) (value : num) : Canvas :=
  let before := point in
  let t := viewportTransform c in
  let p := restorePointerVpt c point in
  let t1 := mkVpt value (vpt4 t) (vpt5 t) in
  let after := transformPoint p t1 in
  setViewportTransform c
    (mkVpt value
           (vpt4 t + (pt_x before - pt_x after))
           (vpt5 t + (pt_y before - pt_y after))).

(** [canvas.setZoom(value)] is [zoomToPoint] about the viewport origin. *)
Definition setZoom (c : Canvas) (value : num) : Canvas :=
  zoomToPoint c (mkPoint 0 0) value.

(** [object.minScaleLimit], which [CanvasViewer] leaves at its default. *)
Definition minScaleLimit : num := 0.

(** [object._constrainScale(value)]: [object.set] passes the values of the
    keys [scaleX] and [scaleY] through it, so that an object never stores
    a scale of [0]. *)
Definition constrainScale (value : num) : num :=
  if Math_abs value <? minScaleLimit then
    if value <? 0 then neg minScaleLimit else minScaleLimit
  else if strict_eq value 0 then 0.0001
  else value.

(** [canvas.add(o)] appends to the object list. *)
Definition add (c : Canvas) (o : FabricObject) : Canvas :=
  mkCanvas (viewportTransform c) (objects c ++ [o]).

(** [canvas.add(o); canvas.sendToBack(o)]: the new object ends first. *)
Definition add_sendToBack (c : Canvas) (o : FabricObject) : Canvas :=
  mkCanvas (viewportTransform c) (o :: objects c).

Fixpoint remove_first (f : FabricObject -> bool) (l : list FabricObject)
  : list FabricObject :=
  match l with
  | [] => []
  | o :: l' => if f o then l' else o :: remove_first f l'
  end.

(** [canvas.remove(objects.find(f))]. *)
Definition remove_found (c : Canvas) (f : FabricObject -> bool) : Canvas :=
  mkCanvas (viewportTransform c) (remove_first f (objects c)).

(** [canvas.sendToBack(objects.find(f))]. *)
Definition sendToBack_found (c : Canvas) (f : FabricObject -> bool) : Canvas :=
  match find f (objects c) with
  | Some o => mkCanvas (viewportTransform c) (o :: remove_first f (objects c))
  | None => c
  end.

End fabric.

(** The pointer of a mouse event, as the handlers read it. *)
Record MouseEvent : Type := mkMouseEvent {
  ev_pointer : Point;         (* position inside the canvas element *)
  ev_clientX : num;
  ev_clientY : num;
  ev_button : Z;
  ev_altKey : bool;
  ev_spaceKey : bool;
  ev_deltaY : num
}.

(** [canvas.getPointer(e)]: the pointer in scene coordinates, that is with
    the viewport transform undone. *)
Definition getPointer (c : Canvas) (e : MouseEvent) : Point :=
  fabric.restorePointerVpt c (ev_pointer e).

(* ================================================================== *)
(** ** [CanvasViewer] *)
(* ================================================================== *)

(** The component's state: the fabric canvas behind [fabricRef], the React
    state variables, and the three variables of the pointer effect's closure
    ([panning], [lastPosX], [lastPosY]). *)
Record ViewerState : Type := mkViewer {
  canvas : Canvas;
  zoom : num;
  isDrawing : bool;
  drawStart : option Point;
  tempRect : option RectObj;
  panning : bool;
  lastPosX : num;
  lastPosY : num
}.

Definition initialViewer : ViewerState :=
  mkViewer (mkCanvas vpt_identity []) 1 false None None false 0 0.

Definition with_zoom (st : ViewerState) (c : Canvas) (z : num) : ViewerState :=
  mkViewer c z (isDrawing st) (drawStart st) (tempRect st)
           (panning st) (lastPosX st) (lastPosY st).

(** What a handler asks of its parent through the callback props. *)
Inductive Callback : Type :=
| OnAnnotationCreate (b : Box).

(** *** Mouse wheel zoom *)
Definition handleMouseWheel (st : ViewerState) (e : MouseEvent) : ViewerState :=
  let c := canvas st in
  let delta := ev_deltaY e in
  let newZoom := fabric.getZoom c * (if delta >? 0 then 0.9 else 1.1) in
  let newZoom := Math_min [Math_max [newZoom; Fin 0.1]; Fin 5] in
  let pointer := getPointer c e in
  with_zoom st (fabric.zoomToPoint c (mkPoint (pt_x pointer) (pt_y pointer)) newZoom)
            newZoom.

(** *** Load background image: the callback of [fabric.Image.fromURL]

    [clientWidth] and [clientHeight] are the container's; [w] and [h] the
    natural size of the loaded image. *)
Definition fitScale (clientWidth clientHeight w h : num) : num :=
  let scaleX := clientWidth / w in
  let scaleY := clientHeight / h in
  Math_min [scaleX; scaleY; Fin 1] * 0.9.

(** [img.set({ left, top, scaleX: scale, scaleY: scale, ... })]: the
    position is stored as computed, the two scales as the canvas library
    constrains them. *)
Definition fitImage (clientWidth clientHeight w h : num) : ImageObj :=
  let scale := fitScale clientWidth clientHeight w h in
  mkImageObj w h
             ((clientWidth - w * scale) / 2)
             ((clientHeight - h * scale) / 2)
             (fabric.constrainScale scale) (fabric.constrainScale scale).

Definition onImageLoaded (clientWidth clientHeight w h : num) (st : ViewerState)
  : ViewerState :=
  if negb (truthy w) then st
  else
    let scale := fitScale clientWidth clientHeight w h in
    let img := fitImage clientWidth clientHeight w h in
    (* remove old background *)
    let c1 := fabric.remove_found (canvas st) is_backgroundImage in
    let c2 := fabric.add_sendToBack c1 (ObjBackgroundImage img) in
    (* [setZoom(scale)] *)
    with_zoom st c2 scale.

(** [canvas.getObjects().find(o => o.name === 'backgroundImage')] *)
Fixpoint find_backgroundImage (l : list FabricObject) : option ImageObj :=
  match l with
  | [] => None
  | ObjBackgroundImage img :: _ => Some img
  | _ :: l' => find_backgroundImage l'
  end.

(** *** Render annotations *)
Definition selected_is (selectedAnnotation : option Annotation) (ann : Annotation)
  : bool :=
  match selectedAnnotation with
  | Some s => (ann_id s =? ann_id ann)%Z
  | None => false
  end.

Definition annotationRect (bgImage : ImageObj)
           (selectedAnnotation : option Annotation) (tool : Tool)
           (ann : Annotation) : AnnRectObj :=
  let scale := img_scaleX bgImage in
  let offsetX := img_left bgImage in
  let offsetY := img_top bgImage in
  mkAnnRectObj (ann_id ann)
    (mkRectObj (offsetX + ann_x ann * scale)
               (offsetY + ann_y ann * scale)
               (ann_width ann * scale)
               (ann_height ann * scale))
    (if selected_is selectedAnnotation ann then 3 else 2)%Z
    (ann_is_yolo ann)
    (tool_eqb tool ToolSelect).

Definition annotationLabel (bgImage : ImageObj) (ann : Annotation) : LabelObj :=
  let scale := img_scaleX bgImage in
  let offsetX := img_left bgImage in
  let offsetY := img_top bgImage in
  mkLabelObj (ann_id ann)
             (offsetX + ann_x ann * scale)
             (offsetY + ann_y ann * scale - 18).

Definition find_annotation (annotations : list Annotation) (id : Z)
  : option Annotation :=
  find (fun a => (ann_id a =? id)%Z) annotations.

(** The body of [connections.forEach]: [None] is the early [return]. *)
Definition connectionLine (bgImage : ImageObj) (annotations : list Annotation)
           (conn : Connection) : option LineObj :=
  let scale := img_scaleX bgImage in
  let offsetX := img_left bgImage in
  let offsetY := img_top bgImage in
  match find_annotation annotations (from_annotation_id conn),
        find_annotation annotations (to_annotation_id conn) with
  | Some fromAnn, Some toAnn =>
      let fromX := offsetX + (ann_x fromAnn + ann_width fromAnn / 2) * scale in
      let fromY := offsetY + (ann_y fromAnn + ann_height fromAnn / 2) * scale in
      let toX := offsetX + (ann_x toAnn + ann_width toAnn / 2) * scale in
      let toY := offsetY + (ann_y toAnn + ann_height toAnn / 2) * scale in
      Some (mkLineObj (conn_id conn) fromX fromY toX toY (conn_is_signal conn))
  | _, _ => None
  end.

Definition drawAnnotation (bgImage : ImageObj)
           (selectedAnnotation : option Annotation) (tool : Tool)
           (c : Canvas) (ann : Annotation) : Canvas :=
  let rect := annotationRect bgImage selectedAnnotation tool ann in
  let label := annotationLabel bgImage ann in
  fabric.add (fabric.add c (ObjAnnotation rect)) (ObjAnnotationLabel label).

Definition drawConnection (bgImage : ImageObj) (annotations : list Annotation)
           (c : Canvas) (conn : Connection) : Canvas :=
  match connectionLine bgImage annotations conn with
  | Some line => fabric.add_sendToBack c (ObjConnection line)
  | None => c
  end.

Definition renderAnnotations (annotations : list Annotation)
           (connections : list Connection)
           (selectedAnnotation : option Annotation) (tool : Tool)
           (c : Canvas) : Canvas :=
  let objs := objects c in
  (* remove existing annotation objects *)
  let c1 := mkCanvas (viewportTransform c)
                     (filter (fun o => negb (is_overlay o)) objs) in
  match find_backgroundImage objs with
  | None => c1
  | Some bgImage =>
      let c2 := fold_left (drawAnnotation bgImage selectedAnnotation tool)
                          annotations c1 in
      let c3 := fold_left (drawConnection bgImage annotations) connections c2 in
      (* keep background at back *)
      fabric.sendToBack_found c3 is_backgroundImage
  end.

(** The lines a render leaves on the canvas. *)
Definition lines_of (objs : list FabricObject) : list LineObj :=
  flat_map (fun o => match o with ObjConnection l => [l] | _ => [] end) objs.

Definition canvas_lines (c : Canvas) : list LineObj := lines_of (objects c).

(** *** Drawing tool and panning *)
Definition handleMouseDown (tool : Tool) (st : ViewerState) (e : MouseEvent)
  : ViewerState :=
  (* pan with middle mouse button, space key, or alt key *)
  if (ev_button e =? 1)%Z || ev_altKey e || ev_spaceKey e then
    mkViewer (canvas st) (zoom st) (isDrawing st) (drawStart st) (tempRect st)
             true (ev_clientX e) (ev_clientY e)
  else if negb (tool_eqb tool ToolRectangle) then st
  else
    let pointer := getPointer (canvas st) e in
    let rect := mkRectObj (pt_x pointer) (pt_y pointer) 0 0 in
    mkViewer (fabric.add (canvas st) ObjTempRect) (zoom st)
             true (Some (mkPoint (pt_x pointer) (pt_y pointer))) (Some rect)
             (panning st) (lastPosX st) (lastPosY st).

Definition handleMouseMove (st : ViewerState) (e : MouseEvent) : ViewerState :=
  if panning st then
    let c := canvas st in
    let vpt := viewportTransform c in
    let vpt' := mkVpt (vpt0 vpt)
                      (vpt4 vpt + (ev_clientX e - lastPosX st))
                      (vpt5 vpt + (ev_clientY e - lastPosY st)) in
    mkViewer (mkCanvas vpt' (objects c)) (zoom st)
             (isDrawing st) (drawStart st) (tempRect st)
             true (ev_clientX e) (ev_clientY e)
  else
    match isDrawing st, tempRect st, drawStart st with
    | true, Some _, Some start =>
        let pointer := getPointer (canvas st) e in
        let width := pt_x pointer - pt_x start in
        let height := pt_y pointer - pt_y start in
        let rect :=
          mkRectObj (if width >? 0 then pt_x start else pt_x pointer)
                    (if height >? 0 then pt_y start else pt_y pointer)
                    (Math_abs width)
                    (Math_abs height) in
        mkViewer (canvas st) (zoom st) (isDrawing st) (drawStart st) (Some rect)
                 (panning st) (lastPosX st) (lastPosY st)
    | _, _, _ => st
    end.

(** The conversion of the drawn rectangle from canvas to image coordinates. *)
Definition imageCoords (bgImage : ImageObj) (r : RectObj) : Box :=
  let scale := img_scaleX bgImage in
  let offsetX := img_left bgImage in
  let offsetY := img_top bgImage in
  mkBox ((rect_left r - offsetX) / scale)
        ((rect_top r - offsetY) / scale)
        (rect_width r / scale)
        (rect_height r / scale).

Definition handleMouseUp (st : ViewerState) : ViewerState * list Callback :=
  if panning st then
    (mkViewer (canvas st) (zoom st) (isDrawing st) (drawStart st) (tempRect st)
              false (lastPosX st) (lastPosY st), [])
  else
    match isDrawing st, tempRect st, drawStart st with
    | true, Some r, Some _ =>
        match find_backgroundImage (objects (canvas st)) with
        | None => (st, [])
        | Some bgImage =>
            let b := imageCoords bgImage r in
            (* remove temp rect *)
            let st' := mkViewer (fabric.remove_found (canvas st) is_tempRect)
                                (zoom st) false None None
                                (panning st) (lastPosX st) (lastPosY st) in
            (* create annotation if big enough *)
            if (box_width b >? 10) && (box_height b >? 10)
            then (st', [OnAnnotationCreate b])
            else (st', [])
        end
    | _, _, _ => (st, [])
    end.

(** *** Zoom controls *)
Definition handleZoomIn (st : ViewerState) : ViewerState :=
  let newZoom := Math_min [zoom st * 1.2; Fin 5] in
  with_zoom st (fabric.setZoom (canvas st) newZoom) newZoom.

Definition handleZoomOut (st : ViewerState) : ViewerState :=
  let newZoom := Math_max [zoom st / 1.2; Fin 0.1] in
  with_zoom st (fabric.setZoom (canvas st) newZoom) newZoom.

Definition handleResetZoom (st : ViewerState) : ViewerState :=
  let c := fabric.setZoom (canvas st) 1 in
  with_zoom st (fabric.setViewportTransform c vpt_identity) 1.

(** *** Runs of the component *)

(** The events that change the scale: the wheel, the three buttons of the
    zoom controls, and the arrival of a page image. *)
Inductive ZoomEvent : Type :=
| EvWheel (e : MouseEvent)
| EvZoomIn
| EvZoomOut
| EvResetZoom
| EvImageLoaded (clientWidth clientHeight w h : num).

Definition zoomStep (st : ViewerState) (ev : ZoomEvent) : ViewerState :=
  match ev with
  | EvWheel e => handleMouseWheel st e
  | EvZoomIn => handleZoomIn st
  | EvZoomOut => handleZoomOut st
  | EvResetZoom => handleResetZoom st
  | EvImageLoaded cw ch w h => onImageLoaded cw ch w h st
  end.

Definition is_zoom_operation (ev : ZoomEvent) : bool :=
  match ev with EvImageLoaded _ _ _ _ => false | _ => true end.

Definition runZoom (st : ViewerState) (evs : list ZoomEvent) : ViewerState :=
  fold_left zoomStep evs st.

(** A complete draw gesture with the rectangle tool: press, moves, release. *)
Definition drawGesture (st : ViewerState) (down : MouseEvent)
           (moves : list MouseEvent) : ViewerState * list Callback :=
  handleMouseUp (fold_left handleMouseMove moves
                           (handleMouseDown ToolRectangle st down)).

(** The scale range of the wheel handler. *)
Definition in_zoom_range (z : num) : Prop :=
  (z <? 0.1) = false /\ (5 <? z) = false /\ is_finite z = true.

(* ================================================================== *)
(** ** [Annotator]: the handlers behind the canvas callbacks *)
(* ================================================================== *)

Record Page : Type := mkPage { page_id : Z; page_number : Z }.

Record UpdateData : Type := mkUpdateData {
  upd_tag_id : option string;
  upd_symbol_id : option Z
}.

Record AnnotatorState : Type := mkAnnotator {
  pages : list Page;
  currentPage : Z;
  annotations : list Annotation;
  connections : list Connection;
  selectedSymbol : option Z;            (* [selectedSymbol?.id] *)
  selectedAnnotation : option Annotation
}.

(** The requests of [annotationsApi] and [exportApi] the handlers issue. *)
Inductive ApiRequest : Type :=
| ApiCreate (page : Z) (symbol : option Z) (annotationData : Box)
| ApiUpdate (annotationId : Z) (updateData : UpdateData)
| ApiDelete (annotationId : Z)
| ApiCreateConnection (page fromId toId : Z) (waypoints : list Point)
| ApiDownloadXml.

(** How an awaited request settles: the promise resolves with a value or
    rejects with an error. *)
Inductive Settled (A : Type) : Type :=
| Resolved (a : A)
| Rejected (err : string).
Arguments Resolved {A} a.
Arguments Rejected {A} err.

(** What the user or the developer gets to see. *)
Inductive Effect : Type :=
| ConsoleError (msg err : string)       (* [console.error(msg, err)] *)
| Alert (msg : string).                 (* [alert(msg)]: a dialog *)

Definition is_visible (e : Effect) : bool :=
  match e with Alert _ => true | ConsoleError _ _ => false end.

(** An [async] handler up to and after its single [await].  [whilePending]
    is the component state once the synchronous part has run and the request
    is in flight.  [settle] is the rest of the handler: it receives how the
    request settled and the component state of that moment, and closes over
    the state the handler was created with. *)
Record Suspended (A : Type) : Type := mkSuspended {
  request : ApiRequest;
  whilePending : AnnotatorState;
  settle : Settled A -> AnnotatorState -> AnnotatorState * list Effect
}.
Arguments mkSuspended {A} _ _ _.
Arguments request {A} _.
Arguments whilePending {A} _.
Arguments settle {A} _ _ _.

Definition find_page (st : AnnotatorState) : option Page :=
  find (fun p => (page_number p =? currentPage st)%Z) (pages st).

Definition setAnnotations (st : AnnotatorState) (l : list Annotation)
           (sel : option Annotation) : AnnotatorState :=
  mkAnnotator (pages st) (currentPage st) l (connections st)
              (selectedSymbol st) sel.

Definition setConnections (st : AnnotatorState) (l : list Connection)
  : AnnotatorState :=
  mkAnnotator (pages st) (currentPage st) (annotations st) l
              (selectedSymbol st) (selectedAnnotation st).

(** [None] is the early [return] when the current page is unknown. *)
Definition handleAnnotationCreate (st : AnnotatorState) (annotationData : Box)
  : option (Suspended Annotation) :=
  match find_page st with
  | None => None
  | Some page =>
      Some (mkSuspended
        (ApiCreate (page_id page) (selectedSymbol st) annotationData)
        st
        (fun r cur =>
           match r with
           | Resolved newAnnotation =>
               (setAnnotations cur (annotations st ++ [newAnnotation])
                               (Some newAnnotation), [])
           | Rejected err =>
               (cur, [ConsoleError "Error creating annotation:" err])
           end))
  end.

Definition handleAnnotationUpdate (st : AnnotatorState) (annotationId : Z)
           (updateData : UpdateData) : Suspended Annotation :=
  mkSuspended
    (ApiUpdate annotationId updateData)
    st
    (fun r cur =>
       match r with
       | Resolved updated =>
           (setAnnotations cur
              (map (fun a => if (ann_id a =? annotationId)%Z then updated else a)
                   (annotations st))
              (Some updated), [])
       | Rejected err =>
           (cur, [ConsoleError "Error updating annotation:" err])
       end).

Definition handleAnnotationDelete (st : AnnotatorState) (annotationId : Z)
  : Suspended unit :=
  mkSuspended
    (ApiDelete annotationId)
    st
    (fun r cur =>
       match r with
       | Resolved _ =>
           (setAnnotations cur
              (filter (fun a => negb (ann_id a =? annotationId)%Z)
                      (annotations st))
              None, [])
       | Rejected err =>
           (cur, [ConsoleError "Error deleting annotation:" err])
       end).

Definition handleConnectionCreate (st : AnnotatorState) (fromId toId : Z)
           (waypoints : list Point) : option (Suspended Connection) :=
  match find_page st with
  | None => None
  | Some page =>
      Some (mkSuspended
        (ApiCreateConnection (page_id page) fromId toId waypoints)
        st
        (fun r cur =>
           match r with
           | Resolved newConnection =>
               (setConnections cur (connections st ++ [newConnection]), [])
           | Rejected err =>
               (cur, [ConsoleError "Error creating connection:" err])
           end))
  end.

(** The one handler of the page that tells the user of a failure. *)
Definition handleExportXml (st : AnnotatorState) : Suspended unit :=
  mkSuspended
    ApiDownloadXml
    st
    (fun r cur =>
       match r with
       | Resolved _ => (cur, [])
       | Rejected err => (cur, [Alert ("Export failed: " ++ err)])
       end).

(** The four domain mutations of the page, each with its arguments. *)
Inductive Mutation : Type :=
| MCreate (annotationData : Box)
| MUpdate (annotationId : Z) (updateData : UpdateData)
| MDelete (annotationId : Z)
| MConnect (fromId toId : Z) (waypoints : list Point).

(** State while the request of a mutation is in flight, and state and
    effects once it has failed with [err] (the state of that moment being
    the pending one).  [None]: no request was made. *)
Definition mutationPending (st : AnnotatorState) (m : Mutation)
  : option AnnotatorState :=
  match m with
  | MCreate d => option_map whilePending (handleAnnotationCreate st d)
  | MUpdate i u => Some (whilePending (handleAnnotationUpdate st i u))
  | MDelete i => Some (whilePending (handleAnnotationDelete st i))
  | MConnect f t w => option_map whilePending (handleConnectionCreate st f t w)
  end.

Definition mutationFailed (st : AnnotatorState) (m : Mutation) (err : string)
  : option (AnnotatorState * list Effect) :=
  match m with
  | MCreate d =>
      option_map (fun s => settle s (Rejected err) (whilePending s))
                 (handleAnnotationCreate st d)
  | MUpdate i u =>
      let s := handleAnnotationUpdate st i u in
      Some (settle s (Rejected err) (whilePending s))
  | MDelete i =>
      let s := handleAnnotationDelete st i in
      Some (settle s (Rejected err) (whilePending s))
  | MConnect f t w =>
      option_map (fun s => settle s (Rejected err) (whilePending s))
                 (handleConnectionCreate st f t w)
  end.

(* ================================================================== *)
(** ** The transform contract, as the specification words it *)
(* ================================================================== *)

Module Spec.

(** Scale [s] and view-space origin offset [(ox, oy)]. *)
Record Transform : Type := mkTransform { s : num; ox : num; oy : num }.

(** [toView(px, py) = (ox + px*s, oy + py*s)] *)
Definition toView (t : Transform) (p : Point) : Point :=
  mkPoint (ox t + pt_x p * s t) (oy t + pt_y p * s t).

(** [toPage(vx, vy) = ((vx-ox)/s, (vy-oy)/s)] *)
Definition toPage (t : Transform) (v : Point) : Point :=
  mkPoint ((pt_x v - ox t) / s t) ((pt_y v - oy t) / s t).

End Spec.

(** The transform between page pixels and canvas coordinates is carried by
    the background image: its scale and its position. *)
Definition imageTransform (bgImage : ImageObj) : Spec.Transform :=
  Spec.mkTransform (img_scaleX bgImage) (img_left bgImage) (img_top bgImage).

(** The transform between canvas coordinates and the screen is the canvas's
    viewport transform. *)
Definition viewportOf (c : Canvas) : Spec.Transform :=
  let t := viewportTransform c in
  Spec.mkTransform (vpt0 t) (vpt4 t) (vpt5 t).

Definition point_eqv (p q : Point) : Prop :=
  pt_x p == pt_x q /\ pt_y p == pt_y q.

Definition box_eqv (a b : Box) : Prop :=
  box_x a == box_x b /\ box_y a == box_y b /\
  box_width a == box_width b /\ box_height a == box_height b.

Definition annotationBox (ann : Annotation) : Box :=
  mkBox (ann_x ann) (ann_y ann) (ann_width ann) (ann_height ann).

Definition rectBox (r : RectObj) : Box :=
  mkBox (rect_left r) (rect_top r) (rect_width r) (rect_height r).

(* ================================================================== *)
(** ** Rounded arithmetic *)
(* ================================================================== *)

(** The numbers of this development compute exactly; the browser's are
    binary64.  A binary64 operation returns its exact result rounded to the
    nearest representable number, which is within a relative error of the
    unit roundoff [2^-53] of it as long as it neither overflows nor
    underflows.  [rounds u exact result]: [result] is within the relative
    error [u] of [exact]. *)
Definition rounds (u exact result : Q) : Prop :=
  (Qabs (result - exact) <= u * Qabs exact)%Q.

(** The unit roundoff of binary64. *)
Definition unit_roundoff : Q := 1 # 9007199254740992.

(** [o + p * s], the expression of [toView] and of the render
    ([offsetX + ann.x * scale]), with each of its two operations rounded:
    [v] is a value it may return. *)
Definition toView_rounded (u s o p v : Q) : Prop :=
  exists m : Q, rounds u (p * s)%Q m /\ rounds u (o + m)%Q v.

(** [(v - o) / s], the expression of [toPage] and of the release
    ([(tempRect.left - offsetX) / scale]), with each of its two operations
    rounded: [p] is a value it may return. *)
Definition toPage_rounded (u s o v p : Q) : Prop :=
  exists d : Q, rounds u (v - o)%Q d /\ rounds u (d / s)%Q p.

(** Binary64 itself, for numbers within its exponent range.  A positive
    binary64 number is [k * 2^e] with a significand [2^52 <= k < 2^53]; an
    operation returns the number of this form nearest to its exact result,
    and of two equally near the one with the even significand. *)

(** The integer nearest to [y], the even one of two equally near. *)
Definition nearest_even (y : Q) : Z :=
  let k := Qfloor y in
  match Qcompare (y - inject_Z k)%Q (1 # 2)%Q with
  | Lt => k
  | Gt => (k + 1)%Z
  | Eq => if Z.even k then k else (k + 1)%Z
  end.

(** The exponent [e] of the last place of the significand of [x]:
    [2^52 <= |x| / 2^e < 2^53]. *)
Definition ulp_exponent (x : Q) : Z :=
  let e0 := (Z.log2 (Z.abs (Qnum x)) - Z.log2 (Zpos (Qden x)) - 52)%Z in
  if Qle_bool (2 ^ 52)%Q (Qabs x / 2 ^ e0)%Q then e0 else (e0 - 1)%Z.

(** The binary64 number an operation returns whose exact result is [x]. *)
Definition round64 (x : Q) : Q :=
  if Qeq_bool x 0%Q then 0%Q
  else
    let e := ulp_exponent x in
    let k := nearest_even (Qabs x / 2 ^ e)%Q in
    ((if Qle_bool 0 x then 1 else - (1)) * inject_Z k * 2 ^ e)%Q.

(** [offsetX + ann.x * scale] as binary64 evaluates it. *)
Definition toView64 (s o p : Q) : Q := round64 (o + round64 (p * s))%Q.

(** [(tempRect.left - offsetX) / scale] as binary64 evaluates it. *)
Definition toPage64 (s o v : Q) : Q := round64 (round64 (v - o) / s)%Q.

(* ================================================================== *)
(** ** Scenarios *)
(* ================================================================== *)

(** The state after a 1600x1200 page image has loaded in a 800x600
    viewport: scale 0.45, image at (40, 30). *)
Definition loadedViewer : ViewerState :=
  onImageLoaded 800 600 1600 1200 initialViewer.

Definition mouseAt (x y : Q) : MouseEvent :=
  mkMouseEvent (mkPoint x y) x y 0 false false 0.

(** The pointer pressed at [(x0, y0)] and dragged to [(x1, y1)] with the
    rectangle tool, up to the release. *)
Definition dragged (st : ViewerState) (x0 y0 x1 y1 : Q) : ViewerState :=
  handleMouseMove (handleMouseDown ToolRectangle st (mouseAt x0 y0))
                  (mouseAt x1 y1).

(** The state after a page image has loaded while the container was
    collapsed to zero width: the fit scale is 0, which is what [zoom]
    holds; the image stores the scale 0.0001. *)
Definition collapsedViewer : ViewerState :=
  onImageLoaded 0 600 1600 1200 initialViewer.

(** The drawn rectangle never has a negative side. *)
Definition normalized (r : RectObj) : Prop :=
  (rect_width r <? 0) = false /\ (rect_height r <? 0) = false.

(** A rectangle without extent in one direction. *)
Definition degenerate (r : RectObj) : Prop :=
  rect_width r == 0 \/ rect_height r == 0.

(** The centre of a rectangle on the canvas. *)
Definition rectCenter (r : RectObj) : Point :=
  mkPoint (rect_left r + rect_width r / 2) (rect_top r + rect_height r / 2).

Definition finite_annotation (a : Annotation) : Prop :=
  is_finite (ann_x a) = true /\ is_finite (ann_y a) = true /\
  is_finite (ann_width a) = true /\ is_finite (ann_height a) = true.

Definition finite_image (bgImage : ImageObj) : Prop :=
  is_finite (img_scaleX bgImage) = true /\
  is_finite (img_left bgImage) = true /\ is_finite (img_top bgImage) = true.

(** The lines of the connections that are drawn, in the order of the
    connection list. *)
Definition drawnLines (bgImage : ImageObj) (annotations : list Annotation)
           (connections : list Connection) : list LineObj :=
  flat_map (fun conn => match connectionLine bgImage annotations conn with
                        | Some l => [l]
                        | None => []
                        end) connections.

(** Two annotations joined by one connection, and a second connection whose
    target (id 3) is no longer in the list. *)
Definition twoAnnotations : list Annotation :=
  [mkAnnotation 1 100 100 40 20 None false;
   mkAnnotation 2 300 200 60 40 None true].

Definition twoConnections : list Connection :=
  [mkConnection 10 1 2 false; mkConnection 11 1 3 true].

(** The page component showing page 1 (id 5) with no annotation yet. *)
Definition emptyPage : AnnotatorState :=
  mkAnnotator [mkPage 5 1] 1 [] [] None None.

(** The state after a 16000x12000 page image has loaded in a 800x600
    viewport: the fit scale is 0.045. *)
Definition largePageViewer : ViewerState :=
  onImageLoaded 800 600 16000 12000 initialViewer.

Definition altMouseAt (x y : Q) : MouseEvent :=
  mkMouseEvent (mkPoint x y) x y 0 true false 0.

Definition wheelAt (x y deltaY : Q) : MouseEvent :=
  mkMouseEvent (mkPoint x y) x y 0 false false deltaY.

(** [loadedViewer] after a pan by (100, 50): alt-press at (200, 200),
    move to (300, 250), release. *)
Definition pannedViewer : ViewerState :=
  fst (handleMouseUp
         (handleMouseMove
            (handleMouseDown ToolSelect loadedViewer (altMouseAt 200 200))
            (altMouseAt 300 250))).

(* ================================================================== *)
(** ** Gestures and canvas contents *)
(* ================================================================== *)

(** The test [handleMouseDown] makes first: middle button, alt or space. *)
Definition is_pan_press (e : MouseEvent) : bool :=
  (ev_button e =? 1)%Z || ev_altKey e || ev_spaceKey e.

(** A press, the moves that follow and the release, with any tool. *)
Definition gesture (tool : Tool) (st : ViewerState) (down : MouseEvent)
           (moves : list MouseEvent) : ViewerState * list Callback :=
  handleMouseUp (fold_left handleMouseMove moves (handleMouseDown tool st down)).

Definition finite_client (e : MouseEvent) : bool :=
  is_finite (ev_clientX e) && is_finite (ev_clientY e).

Definition count_tempRect (objs : list FabricObject) : nat :=
  List.length (filter is_tempRect objs).

Definition count_backgroundImage (objs : list FabricObject) : nat :=
  List.length (filter is_backgroundImage objs).

Definition rects_of (objs : list FabricObject) : list AnnRectObj :=
  flat_map (fun o => match o with ObjAnnotation r => [r] | _ => [] end) objs.

Definition labels_of (objs : list FabricObject) : list LabelObj :=
  flat_map (fun o => match o with ObjAnnotationLabel l => [l] | _ => [] end)
           objs.

(** The objects a render neither removes nor adds. *)
Definition kept_objects (objs : list FabricObject) : list FabricObject :=
  filter (fun o => negb (is_overlay o)) objs.

(** The rectangle [handleMouseMove] gives the temp rect, from the start of
    the drag and the current pointer. *)
Definition dragRect (start pointer : Point) : RectObj :=
  let width := pt_x pointer - pt_x start in
  let height := pt_y pointer - pt_y start in
  mkRectObj (if width >? 0 then pt_x start else pt_x pointer)
            (if height >? 0 then pt_y start else pt_y pointer)
            (Math_abs width)
            (Math_abs height).

(** The rectangle and label a render adds for each annotation, in order. *)
Definition annotationObjects (bgImage : ImageObj)
           (selectedAnnotation : option Annotation) (tool : Tool)
           (annotations : list Annotation) : list FabricObject :=
  flat_map (fun ann =>
              [ObjAnnotation (annotationRect bgImage selectedAnnotation tool ann);
               ObjAnnotationLabel (annotationLabel bgImage ann)])
           annotations.

(** The render effect on the component: it redraws the canvas behind
    [fabricRef] and touches no state variable. *)
Definition renderEffect (annotations : list Annotation)
           (connections : list Connection)
           (selectedAnnotation : option Annotation) (tool : Tool)
           (st : ViewerState) : ViewerState :=
  mkViewer (renderAnnotations annotations connections selectedAnnotation tool
                              (canvas st))
           (zoom st) (isDrawing st) (drawStart st) (tempRect st)
           (panning st) (lastPosX st) (lastPosY st).

(** *** Runs of the whole component *)

(** The pointer effect runs again when one of its dependencies ([tool],
    [isDrawing], [tempRect], [drawStart]) has changed: its handlers are
    registered anew and its three local variables start afresh. *)
Definition pointerEffect (st : ViewerState) : ViewerState :=
  mkViewer (canvas st) (zoom st) (isDrawing st) (drawStart st) (tempRect st)
           false 0 0.

(** The events [CanvasViewer] handles: those that change the scale, the
    three mouse handlers under the tool of the moment, the render effect
    under the props of the moment, and a new run of the pointer effect. *)
Inductive ViewerEvent : Type :=
| EvZoom (ev : ZoomEvent)
| EvMouseDown (tool : Tool) (e : MouseEvent)
| EvMouseMove (e : MouseEvent)
| EvMouseUp
| EvRender (annotations : list Annotation) (connections : list Connection)
           (selectedAnnotation : option Annotation) (tool : Tool)
| EvPointerEffect.

Definition viewerStep (st : ViewerState) (ev : ViewerEvent) : ViewerState :=
  match ev with
  | EvZoom z => zoomStep st z
  | EvMouseDown tool e => handleMouseDown tool st e
  | EvMouseMove e => handleMouseMove st e
  | EvMouseUp => fst (handleMouseUp st)
  | EvRender anns conns sel tool => renderEffect anns conns sel tool st
  | EvPointerEffect => pointerEffect st
  end.

Definition runViewer (st : ViewerState) (evs : list ViewerEvent) : ViewerState :=
  fold_left viewerStep evs st.

(** The position a mouse event reports is finite. *)
Definition finite_pointer (e : MouseEvent) : bool :=
  is_finite (pt_x (ev_pointer e)) && is_finite (pt_y (ev_pointer e)).

Definition finite_box (b : Box) : bool :=
  is_finite (box_x b) && is_finite (box_y b)
  && is_finite (box_width b) && is_finite (box_height b).

(** The image an image load of finite sizes puts on the canvas. *)
Definition fitted (bgImage : ImageObj) : Prop :=
  exists cw ch w h : Q, bgImage = fitImage cw ch w h.

(** Neither [Infinity] nor [-Infinity]. *)
Definition not_infinite (a : num) : bool :=
  match a with PInf | NInf => false | _ => true end.

(** A size the browser reports ([clientWidth], [clientHeight], [img.width],
    [img.height]): finite and not negative. *)
Definition is_size (a : num) : bool :=
  match a with Fin q => Qle_bool 0 q | _ => false end.

(** The events as the browser delivers them: sizes are sizes, and the
    positions of mouse events are finite. *)
Definition well_formed (ev : ViewerEvent) : bool :=
  match ev with
  | EvZoom (EvImageLoaded cw ch w h) =>
      is_size cw && is_size ch && is_size w && is_size h
  | EvZoom (EvWheel e) => finite_pointer e
  | EvMouseDown _ e => finite_pointer e && finite_client e
  | EvMouseMove e => finite_pointer e && finite_client e
  | _ => true
  end.

(** What holds of the rectangle being drawn: no negative side, no infinite
    side, and a finite corner in each direction in which it has an
    extent. *)
Definition rect_ok (r : RectObj) : Prop :=
  normalized r
  /\ not_infinite (rect_width r) = true
  /\ not_infinite (rect_height r) = true
  /\ ((0 <? rect_width r) = true -> is_finite (rect_left r) = true)
  /\ ((0 <? rect_height r) = true -> is_finite (rect_top r) = true).

(** What holds of the component through every run. *)
Definition steady (st : ViewerState) : Prop :=
  (forall bg, find_backgroundImage (objects (canvas st)) = Some bg ->
              fitted bg)
  /\ not_infinite (vpt4 (viewportTransform (canvas st))) = true
  /\ not_infinite (vpt5 (viewportTransform (canvas st))) = true
  /\ not_infinite (zoom st) = true
  /\ not_infinite (lastPosX st) = true
  /\ not_infinite (lastPosY st) = true
  /\ (forall p, drawStart st = Some p ->
                not_infinite (pt_x p) = true /\ not_infinite (pt_y p) = true)
  /\ (forall r, tempRect st = Some r -> rect_ok r).
(* ================================================================== *)
(** ** [Annotator]: page navigation and model switching *)
(* ================================================================== *)

Definition setCurrentPage (st : AnnotatorState) (p : Z) : AnnotatorState :=
  mkAnnotator (pages st) p (annotations st) (connections st)
              (selectedSymbol st) (selectedAnnotation st).

(** The two page buttons.  They are rendered when there is more than one
    page, and a disabled button receives no click:
    [disabled={currentPage <= 1}] and
    [disabled={currentPage >= pages.length}]. *)
Definition clickPreviousPage (st : AnnotatorState) : AnnotatorState :=
  if (Z.of_nat (List.length (pages st)) >? 1)%Z
  then if (currentPage st <=? 1)%Z then st
       else setCurrentPage st (currentPage st - 1)%Z
  else st.

Definition clickNextPage (st : AnnotatorState) : AnnotatorState :=
  if (Z.of_nat (List.length (pages st)) >? 1)%Z
  then if (currentPage st >=? Z.of_nat (List.length (pages st)))%Z then st
       else setCurrentPage st (currentPage st + 1)%Z
  else st.

Inductive PageClick : Type := ClickPrevious | ClickNext.

Definition pageClick (st : AnnotatorState) (c : PageClick) : AnnotatorState :=
  match c with
  | ClickPrevious => clickPreviousPage st
  | ClickNext => clickNextPage st
  end.

(** Pages numbered 1, 2, ... in the order of the list, as the backend
    creates them. *)
Fixpoint numbered_from (n : Z) (l : list Page) : Prop :=
  match l with
  | [] => True
  | p :: l' => page_number p = n /\ numbered_from (n + 1) l'
  end.

(** A detection model of the model selector; its id is a string, as the
    value of the selector that is compared with it. *)
Record Model : Type := mkModel {
  model_id : string;
  model_active : bool
}.

Record ModelState : Type := mkModelState {
  models : list Model;
  activeModelId : string
}.

(** [handleModelChange] after its [await modelsApi.activate(newModelId)]:
    [ms] is the state the handler was created with, [cur] the state when
    the request settles. *)
Definition handleModelChange (ms : ModelState) (newModelId : string)
           (r : Settled unit) (cur : ModelState) : ModelState * list Effect :=
  match r with
  | Resolved _ =>
      (mkModelState
         (map (fun m => mkModel (model_id m)
                                (String.eqb (model_id m) newModelId))
              (models ms))
         newModelId,
       [Alert ("Switched to model: " ++ newModelId)])
  | Rejected err => (cur, [Alert ("Failed to switch model: " ++ err)])
  end.

(** [loadPageAnnotations] up to and after its
    [await Promise.all([listForPage(page.id), listConnectionsForPage(page.id)])]:
    the page id the two requests are made for, the state while they are in
    flight, and the rest of the handler, which receives both lists or the
    error of the request that failed and the state of that moment.  [None]
    is the early [return] when the current page is unknown. *)
Record PageLoad : Type := mkPageLoad {
  load_page : Z;
  load_pending : AnnotatorState;
  load_settle : Settled (list Annotation * list Connection) ->
                AnnotatorState -> AnnotatorState * list Effect
}.

Definition loadPageAnnotations (st : AnnotatorState) : option PageLoad :=
  match find_page st with
  | None => None
  | Some page =>
      Some (mkPageLoad
        (page_id page)
        st
        (fun r cur =>
           match r with
           | Resolved (anns, conns) =>
               (mkAnnotator (pages cur) (currentPage cur) anns conns
                            (selectedSymbol cur) (selectedAnnotation cur), [])
           | Rejected err =>
               (cur, [ConsoleError "Error loading annotations:" err])
           end))
  end.

(* ================================================================== *)
(** ** [AnnotationPanel]: attribute rows and symbol groups *)
(* ================================================================== *)

(** A plain object built by assignments, as the list of its own properties.
    Only what a key holds is modelled: the order in which the engine
    enumerates the keys is not. *)
Definition JsObject (V : Type) : Type := list (string * V).

Fixpoint obj_get {V : Type} (o : JsObject V) (k : string) : option V :=
  match o with
  | [] => None
  | (k', v) :: o' => if String.eqb k' k then Some v else obj_get o' k
  end.

(** Defines or overwrites the own property [k]. *)
Fixpoint obj_put {V : Type} (o : JsObject V) (k : string) (v : V)
  : JsObject V :=
  match o with
  | [] => [(k, v)]
  | (k', v') :: o' =>
      if String.eqb k' k then (k', v) :: o' else (k', v') :: obj_put o' k v
  end.

(** [o[k] = v] for a string [v]: the key ["__proto__"] is the prototype
    accessor, whose setter ignores a value that is not an object, so the
    assignment leaves the object as it is. *)
Definition obj_assign_string (o : JsObject string) (k v : string)
  : JsObject string :=
  if String.eqb k "__proto__" then o else obj_put o k v.

(** The rows of the attribute editor: [[key, value]] pairs of strings, as
    the input fields hold them. *)
Definition AttributeRows : Type := list (string * string).

(** The object [handleSave] builds from the rows and sends as
    [attributes]: [if (key) attrObj[key] = value]. *)
Definition savedAttributes (attributes : AttributeRows) : JsObject string :=
  fold_left (fun attrObj row =>
               if String.eqb (fst row) "" then attrObj
               else obj_assign_string attrObj (fst row) (snd row))
            attributes [].

Record AttributeEditor : Type := mkAttributeEditor {
  attributes : AttributeRows;
  newAttrKey : string;
  newAttrValue : string
}.

Definition handleAddAttribute (ed : AttributeEditor) : AttributeEditor :=
  if String.eqb (newAttrKey ed) "" then ed
  else mkAttributeEditor
         (attributes ed ++ [(newAttrKey ed, newAttrValue ed)]) "" "".

(** [attributes.filter((_, i) => i !== index)], with [i] counted from
    [from]. *)
Fixpoint filter_not_index {A : Type} (from index : nat) (l : list A)
  : list A :=
  match l with
  | [] => []
  | x :: l' =>
      if Nat.eqb from index then filter_not_index (S from) index l'
      else x :: filter_not_index (S from) index l'
  end.

Definition handleRemoveAttribute (ed : AttributeEditor) (index : nat)
  : AttributeEditor :=
  mkAttributeEditor (filter_not_index 0 index (attributes ed))
                    (newAttrKey ed) (newAttrValue ed).

(** The value the rows give a key: that of the last row with the key. *)
Definition last_row (rows : AttributeRows) (k : string) : option string :=
  option_map snd (find (fun row => String.eqb (fst row) k) (rev rows)).

(** A symbol of the catalogue; [sym_category] is [None] for a missing or
    [null] category. *)
Record Symbol : Type := mkSymbol {
  sym_id : Z;
  sym_category : option string
}.

(** [sym.category || 'Other'] *)
Definition categoryOf (sym : Symbol) : string :=
  match sym_category sym with
  | Some c => if String.eqb c "" then "Other" else c
  | None => "Other"
  end.

(** The names a fresh object inherits from [Object.prototype]. *)
Definition objectPrototypeNames : list string :=
  ["constructor"; "__defineGetter__"; "__defineSetter__"; "hasOwnProperty";
   "__lookupGetter__"; "__lookupSetter__"; "isPrototypeOf";
   "propertyIsEnumerable"; "toString"; "valueOf"; "__proto__";
   "toLocaleString"]%string.

Definition inheritedName (k : string) : bool :=
  existsb (String.eqb k) objectPrototypeNames.

(** One step of the grouping, on the accumulator object:
    [if (!acc[cat]) acc[cat] = []; acc[cat].push(sym)].
    For an inherited name that is not an own property, [acc[cat]] is the
    inherited value, which is truthy and has no [push]: the call throws a
    [TypeError] ([None]). *)
Definition groupStep (acc : option (JsObject (list Symbol))) (sym : Symbol)
  : option (JsObject (list Symbol)) :=
  match acc with
  | None => None
  | Some o =>
      let cat := categoryOf sym in
      match obj_get o cat with
      | Some syms => Some (obj_put o cat (syms ++ [sym]))
      | None => if inheritedName cat then None
                else Some (obj_put o cat [sym])
      end
  end.

(** [symbols.reduce((acc, sym) => ..., {})] of the panel, and the same loop
    of the palette. *)
Definition groupedSymbols (symbols : list Symbol)
  : option (JsObject (list Symbol)) :=
  fold_left groupStep symbols (Some []).

(** The symbols of one category, in the order of the catalogue. *)
Definition symbolsOf (cat : string) (symbols : list Symbol) : list Symbol :=
  filter (fun sym => String.eqb (categoryOf sym) cat) symbols.

(* ================================================================== *)
(** ** Arithmetic of finite numbers *)
(* ================================================================== *)

Lemma div_fin (x y : Q) : ~ (y == 0)%Q -> Fin x / Fin y = Fin (x / y)%Q.
Proof.
  intro Hy. unfold div.
  destruct (Qeq_bool y 0) eqn:E; [|reflexivity].
  apply Qeq_bool_iff in E. contradiction.
Qed.

Lemma ltb_fin (x y : Q) : (Fin x <? Fin y) = true <-> (x < y)%Q.
Proof.
  unfold ltb. rewrite Qlt_alt.
  destruct (x ?= y)%Q; split; congruence.
Qed.

Lemma gtb_fin_iff (x y : Q) : (Fin x >? Fin y) = true <-> (y < x)%Q.
Proof. unfold gtb. apply ltb_fin. Qed.

Lemma ltb_fin_false (x y : Q) : (Fin x <? Fin y) = false <-> (y <= x)%Q.
Proof.
  split; intro H.
  - apply Qnot_lt_le. intro L. apply ltb_fin in L. congruence.
  - destruct (Fin x <? Fin y) eqn:E; [|reflexivity].
    apply ltb_fin in E. lra.
Qed.

Lemma min2_fin (x y : Q) : min2 (Fin x) (Fin y) = Fin (Qmin x y).
Proof.
  unfold min2, ltb, Qmin, GenericMinMax.gmin.
  rewrite <- (Qcompare_antisym x y).
  destruct (x ?= y)%Q; reflexivity.
Qed.

Lemma Math_min3_fin (x y z : Q) :
  Math_min [Fin x; Fin y; Fin z] = Fin (Qmin x (Qmin y z)).
Proof.
  unfold Math_min; cbn [fold_right].
  change (min2 (Fin z) PInf) with (Fin z).
  rewrite !min2_fin. reflexivity.
Qed.

Lemma finite_inv (a : num) : is_finite a = true -> exists q, a = Fin q.
Proof. destruct a; simpl; try discriminate. eauto. Qed.

Lemma Math_abs_not_negative (a : num) : (Math_abs a <? 0) = false.
Proof.
  destruct a as [q| | |]; simpl; try reflexivity.
  destruct (Qabs q ?= 0)%Q eqn:E; try reflexivity.
  apply Qlt_alt in E. pose proof (Qabs_nonneg q). lra.
Qed.

(** The scale an object stores is the scale it is given, except that [0]
    is stored as [0.0001]. *)
Lemma constrainScale_value (v : num) :
  fabric.constrainScale v = if strict_eq v 0 then Fin 0.0001 else v.
Proof.
  unfold fabric.constrainScale, fabric.minScaleLimit.
  rewrite Math_abs_not_negative. reflexivity.
Qed.

Lemma constrainScale_fin (q : Q) :
  ~ (q == 0)%Q -> fabric.constrainScale (Fin q) = Fin q.
Proof.
  intro Hq. rewrite constrainScale_value. simpl.
  destruct (Qeq_bool q 0) eqn:E; [|reflexivity].
  apply Qeq_bool_iff in E. contradiction.
Qed.

(** Reduces the arithmetic of finite numbers to the arithmetic of [Q]; the
    divisors must be provably nonzero by linear reasoning. *)
Ltac fin_arith :=
  repeat (progress
            (cbn [add sub neg mul eqv
                  pt_x pt_y box_x box_y box_width box_height
                  rect_left rect_top rect_width rect_height
                  img_left img_top img_scaleX img_scaleY img_width img_height
                  ann_x ann_y ann_width ann_height ar_geom
                  vpt0 vpt4 vpt5 viewportTransform
                  Spec.s Spec.ox Spec.oy])
          || rewrite div_fin by lra).

(* ================================================================== *)
(** ** The draw gesture *)
(* ================================================================== *)

(** When, and with what, the release of the mouse calls
    [onAnnotationCreate]. *)
Lemma handleMouseUp_emits (st : ViewerState) (b : Box) :
  In (OnAnnotationCreate b) (snd (handleMouseUp st)) ->
  exists bgImage r,
    find_backgroundImage (objects (canvas st)) = Some bgImage /\
    tempRect st = Some r /\
    isDrawing st = true /\ panning st = false /\
    b = imageCoords bgImage r /\
    (box_width b >? 10) = true /\ (box_height b >? 10) = true.
Proof.
  unfold handleMouseUp.
  destruct (panning st) eqn:Hp; [simpl; tauto|].
  destruct (isDrawing st) eqn:Hd; [|simpl; tauto].
  destruct (tempRect st) as [r|] eqn:Hr; [|simpl; tauto].
  destruct (drawStart st) as [d|] eqn:Hs; [|simpl; tauto].
  destruct (find_backgroundImage (objects (canvas st))) as [bg|] eqn:Hb;
    [|simpl; tauto].
  destruct ((box_width (imageCoords bg r) >? 10)
            && (box_height (imageCoords bg r) >? 10)) eqn:Hsz;
    [|simpl; tauto].
  apply andb_true_iff in Hsz. destruct Hsz as [Hw Hh].
  simpl. intros [E|[]]. inversion E; subst b.
  exists bg, r. repeat split; auto.
Qed.

(* ================================================================== *)
(** ** C2: fit to viewport *)
(* ================================================================== *)

Lemma fitScale_fin (cw ch w h : Q) :
  (0 < w)%Q -> (0 < h)%Q ->
  fitScale cw ch w h = Fin (Qmin (cw / w) (Qmin (ch / h) 1) * 0.9)%Q.
Proof.
  intros Hw Hh. unfold fitScale.
  rewrite !div_fin by lra. rewrite Math_min3_fin. reflexivity.
Qed.

Lemma Qdiv_pos (a b : Q) : (0 < a)%Q -> (0 < b)%Q -> (0 < a / b)%Q.
Proof.
  intros Ha Hb. unfold Qdiv. apply Qmult_lt_0_compat; [exact Ha|].
  apply Qinv_lt_0_compat. exact Hb.
Qed.

Lemma Qmul_div_le (w m c : Q) : (0 < w)%Q -> (m <= c / w)%Q -> (w * m <= c)%Q.
Proof.
  intros Hw Hm.
  assert (E : (w * (c / w) == c)%Q) by (field; lra).
  rewrite <- E. apply Qmult_le_l; assumption.
Qed.

(** A load replaces the background image by the fitted one and stores the
    fit scale in [zoom]. *)
Lemma onImageLoaded_background (cw ch w h : num) (st : ViewerState) :
  truthy w = true ->
  let st' := onImageLoaded cw ch w h st in
  find_backgroundImage (objects (canvas st')) = Some (fitImage cw ch w h)
  /\ zoom st' = fitScale cw ch w h.
Proof.
  intro Hw. unfold onImageLoaded. rewrite Hw. simpl. split; reflexivity.
Qed.

(** C2 (as amended).  For a viewport and a page image of finite positive
    sizes, the image put on the canvas has scale
    [min(cw/w, ch/h, 1) * 0.9] in both directions, which is positive and at
    most [0.9]; the scaled image fits within 90% of the viewport; and its
    offset centres it.  For a 800x600 viewport and a 1600x1200 image the
    scale is [0.45] and the offset [(40, 30)]. *)
Theorem fit_to_viewport :
  (forall (cw ch w h : Q) (st : ViewerState),
      (0 < cw)%Q -> (0 < ch)%Q -> (0 < w)%Q -> (0 < h)%Q ->
      exists (img : ImageObj) (sc : Q),
        find_backgroundImage (objects (canvas (onImageLoaded cw ch w h st)))
        = Some img
        /\ img_scaleX img = Fin sc /\ img_scaleY img = Fin sc
        /\ (sc == Qmin (cw / w) (Qmin (ch / h) 1) * 0.9)%Q
        /\ (0 < sc <= 0.9)%Q
        /\ (w * sc <= 0.9 * cw)%Q /\ (h * sc <= 0.9 * ch)%Q
        /\ img_left img + (w * sc)%Q / 2 == cw / 2
        /\ img_top img + (h * sc)%Q / 2 == ch / 2)
  /\ fitScale 800 600 1600 1200 == 0.45
  /\ img_left (fitImage 800 600 1600 1200) == 40
  /\ img_top (fitImage 800 600 1600 1200) == 30.
Proof.
  split.
  - intros cw ch w h st Hcw Hch Hw Hh.
    assert (Ht : truthy w = true).
    { simpl. destruct (Qeq_bool w 0) eqn:E; [|reflexivity].
      apply Qeq_bool_iff in E. lra. }
    destruct (onImageLoaded_background cw ch w h st Ht) as [Hbg _].
    set (m := Qmin (cw / w) (Qmin (ch / h) 1)).
    exists (fitImage cw ch w h), (m * 0.9)%Q.
    assert (Hsc : fitScale cw ch w h = Fin (m * 0.9)%Q)
      by (apply fitScale_fin; assumption).
    assert (Hm1 : (m <= cw / w)%Q) by apply Q.le_min_l.
    assert (Hm2 : (m <= ch / h)%Q).
    { unfold m. eapply Qle_trans; [apply Q.le_min_r|apply Q.le_min_l]. }
    assert (Hm3 : (m <= 1)%Q).
    { unfold m. eapply Qle_trans; [apply Q.le_min_r|apply Q.le_min_r]. }
    assert (Hm0 : (0 < m)%Q).
    { unfold m. apply Q.min_glb_lt; [apply Qdiv_pos; assumption|].
      apply Q.min_glb_lt; [apply Qdiv_pos; assumption|lra]. }
    assert (Hwm : (w * m <= cw)%Q) by (apply Qmul_div_le; assumption).
    assert (Hhm : (h * m <= ch)%Q) by (apply Qmul_div_le; assumption).
    split; [exact Hbg|].
    unfold fitImage. rewrite Hsc.
    rewrite constrainScale_fin by lra.
    repeat split; try reflexivity; try lra.
    + fin_arith. field.
    + fin_arith. field.
  - repeat split; vm_compute; reflexivity.
Qed.

Lemma fit_to_viewport_witness :
  (0 < 800)%Q /\ (0 < 600)%Q /\ (0 < 1600)%Q /\ (0 < 1200)%Q /\
  exists (img : ImageObj) (sc : Q),
    find_backgroundImage
      (objects (canvas (onImageLoaded 800 600 1600 1200 initialViewer)))
    = Some img
    /\ img_scaleX img = Fin sc /\ img_scaleY img = Fin sc
    /\ (sc == Qmin (800 / 1600) (Qmin (600 / 1200) 1) * 0.9)%Q
    /\ (0 < sc <= 0.9)%Q
    /\ (1600 * sc <= 0.9 * 800)%Q /\ (1200 * sc <= 0.9 * 600)%Q
    /\ img_left img + (1600 * sc)%Q / 2 == 800 / 2
    /\ img_top img + (1200 * sc)%Q / 2 == 600 / 2.
Proof.
  assert (H1 : (0 < 800)%Q) by lra.
  assert (H2 : (0 < 600)%Q) by lra.
  assert (H3 : (0 < 1600)%Q) by lra.
  assert (H4 : (0 < 1200)%Q) by lra.
  repeat (split; [assumption|]).
  exact (proj1 fit_to_viewport 800 600 1600 1200 initialViewer H1 H2 H3 H4)%Q.
Defined.

(** C2, the scenario as stated: the fit scale of a 1600x1200 image in a
    800x600 viewport is not [0.375]. *)
Lemma fit_scale_scenario_not_0375 :
  ~ (fitScale 800 600 1600 1200 == 0.375).
Proof. vm_compute. discriminate. Qed.

(* ================================================================== *)
(** ** C3, C10: the minimum size of a drawn box *)
(* ================================================================== *)

Lemma ltb_asym (a b : num) : (a <? b) = true -> (b <? a) = false.
Proof.
  destruct a as [x| | |], b as [y| | |]; simpl; try congruence.
  rewrite <- (Qcompare_antisym x y).
  destruct (x ?= y)%Q; simpl; congruence.
Qed.

Lemma ltb_irrefl_eqv (a b : num) : a == b -> (b <? a) = false.
Proof.
  destruct a as [x| | |], b as [y| | |]; simpl; try tauto.
  intro E. symmetry in E. apply Qeq_alt in E. rewrite E. reflexivity.
Qed.

(** A release that fails the size test calls nothing. *)
Lemma handleMouseUp_size_test (st : ViewerState) (bgImage : ImageObj)
      (r : RectObj) :
  find_backgroundImage (objects (canvas st)) = Some bgImage ->
  tempRect st = Some r ->
  (box_width (imageCoords bgImage r) >? 10)
  && (box_height (imageCoords bgImage r) >? 10) = false ->
  snd (handleMouseUp st) = [].
Proof.
  intros Hb Hr Hsz. unfold handleMouseUp.
  destruct (panning st); [reflexivity|].
  destruct (isDrawing st); [|reflexivity].
  rewrite Hr, Hb.
  destruct (drawStart st); [|reflexivity].
  cbv zeta. rewrite Hsz. reflexivity.
Qed.

(** C3.  When the mouse is released over a drawn rectangle whose page-space
    width or height (its canvas size divided by the image scale) is below
    10, [onAnnotationCreate] is not called: the release emits nothing. *)
Theorem minimum_size_suppression :
  forall (st : ViewerState) (bgImage : ImageObj) (r : RectObj),
    find_backgroundImage (objects (canvas st)) = Some bgImage ->
    tempRect st = Some r ->
    (rect_width r / img_scaleX bgImage <? 10) = true
    \/ (rect_height r / img_scaleX bgImage <? 10) = true ->
    snd (handleMouseUp st) = [].
Proof.
  intros st bgImage r Hb Hr Hsmall.
  apply (handleMouseUp_size_test st bgImage r Hb Hr).
  apply andb_false_iff. unfold gtb, imageCoords; cbn [box_width box_height].
  destruct Hsmall as [H|H]; [left|right]; apply ltb_asym; exact H.
Qed.

Lemma minimum_size_suppression_witness :
  let st := dragged loadedViewer 100 100 105 103 in
  let bgImage := fitImage 800 600 1600 1200 in
  let r := mkRectObj (100 / 1) (100 / 1) (Qabs (105 / 1 + - (100 / 1)))
                     (Qabs (103 / 1 + - (100 / 1))) in
  find_backgroundImage (objects (canvas st)) = Some bgImage /\
  tempRect st = Some r /\
  ((rect_width r / img_scaleX bgImage <? 10) = true
   \/ (rect_height r / img_scaleX bgImage <? 10) = true) /\
  snd (handleMouseUp st) = [].
Proof.
  intros st bgImage r.
  assert (Hb : find_backgroundImage (objects (canvas st)) = Some bgImage)
    by reflexivity.
  assert (Hr : tempRect st = Some r) by (vm_compute; reflexivity).
  assert (Hs : (rect_width r / img_scaleX bgImage <? 10) = true
               \/ (rect_height r / img_scaleX bgImage <? 10) = true)
    by (right; vm_compute; reflexivity).
  repeat (split; [assumption|]).
  exact (minimum_size_suppression st bgImage r Hb Hr Hs).
Defined.

(** C10.  [onAnnotationCreate] is called only with a page-space width and
    height both strictly above 10; so a drawn rectangle whose page-space
    width or height is exactly 10 fails the size test too, and the release
    emits nothing. *)
Theorem minimum_size_boundary :
  forall (st : ViewerState) (bgImage : ImageObj) (r : RectObj),
    find_backgroundImage (objects (canvas st)) = Some bgImage ->
    tempRect st = Some r ->
    (rect_width r / img_scaleX bgImage == 10
     \/ rect_height r / img_scaleX bgImage == 10 ->
     snd (handleMouseUp st) = [])
    /\ (forall b,
           In (OnAnnotationCreate b) (snd (handleMouseUp st)) ->
           b = imageCoords bgImage r
           /\ (box_width b >? 10) = true /\ (box_height b >? 10) = true).
Proof.
  intros st bgImage r Hb Hr. split.
  - intro Hten.
    apply (handleMouseUp_size_test st bgImage r Hb Hr).
    apply andb_false_iff. unfold gtb, imageCoords; cbn [box_width box_height].
    destruct Hten as [H|H]; [left|right]; apply ltb_irrefl_eqv; exact H.
  - intros b Hin.
    destruct (handleMouseUp_emits st b Hin)
      as (bg' & r' & Hb' & Hr' & _ & _ & E & Hw & Hh).
    rewrite Hb in Hb'. rewrite Hr in Hr'.
    inversion Hb'; inversion Hr'; subst bg' r'. auto.
Qed.

Lemma minimum_size_boundary_witness :
  let st := dragged loadedViewer 100 100 104.5 200 in
  let bgImage := fitImage 800 600 1600 1200 in
  let r := mkRectObj (100 / 1) (100 / 1) (Qabs (104.5 / 1 + - (100 / 1)))
                     (Qabs (200.0 / 1 + - (100 / 1))) in
  find_backgroundImage (objects (canvas st)) = Some bgImage /\
  tempRect st = Some r /\
  (rect_width r / img_scaleX bgImage == 10
   \/ rect_height r / img_scaleX bgImage == 10) /\
  snd (handleMouseUp st) = [].
Proof.
  intros st bgImage r.
  assert (Hb : find_backgroundImage (objects (canvas st)) = Some bgImage)
    by reflexivity.
  assert (Hr : tempRect st = Some r) by (vm_compute; reflexivity).
  assert (Hs : rect_width r / img_scaleX bgImage == 10
               \/ rect_height r / img_scaleX bgImage == 10)
    by (left; vm_compute; reflexivity).
  repeat (split; [assumption|]).
  exact (proj1 (minimum_size_boundary st bgImage r Hb Hr) Hs).
Defined.

(* ================================================================== *)
(** ** Normalization of the rectangle being drawn *)
(* ================================================================== *)

Lemma handleMouseDown_normalized (tool : Tool) (st : ViewerState)
      (e : MouseEvent) :
  (forall r, tempRect st = Some r -> normalized r) ->
  forall r, tempRect (handleMouseDown tool st e) = Some r -> normalized r.
Proof.
  intros H r. unfold handleMouseDown.
  destruct ((ev_button e =? 1)%Z || ev_altKey e || ev_spaceKey e);
    [apply H|].
  destruct (negb (tool_eqb tool ToolRectangle)); [apply H|].
  cbn [tempRect]. intro E; inversion E; subst r.
  split; reflexivity.
Qed.

Lemma handleMouseMove_normalized (st : ViewerState) (e : MouseEvent) :
  (forall r, tempRect st = Some r -> normalized r) ->
  forall r, tempRect (handleMouseMove st e) = Some r -> normalized r.
Proof.
  intros H r. unfold handleMouseMove.
  destruct (panning st); [apply H|].
  destruct (isDrawing st); [|apply H].
  destruct (tempRect st) as [r0|] eqn:Hr0; [|intro E; congruence].
  destruct (drawStart st) as [d|];
    [|intro E; rewrite Hr0 in E; apply H; exact E].
  cbn [tempRect]. intro E; inversion E; subst r.
  split; apply Math_abs_not_negative.
Qed.

Lemma moves_normalized (moves : list MouseEvent) :
  forall st,
    (forall r, tempRect st = Some r -> normalized r) ->
    forall r, tempRect (fold_left handleMouseMove moves st) = Some r ->
              normalized r.
Proof.
  induction moves as [|e moves IH]; intros st H; simpl.
  - exact H.
  - apply IH. apply handleMouseMove_normalized. exact H.
Qed.

Lemma div_zero_numerator (a b : num) : a == 0 -> (a / b >? 10) = false.
Proof.
  destruct a as [x| | |]; simpl; try tauto.
  intro Hx. destruct b as [y| | |]; try reflexivity.
  unfold div. destruct (Qeq_bool y 0) eqn:E.
  - unfold signed_inf. apply Qeq_alt in Hx. rewrite Hx. reflexivity.
  - apply Qeq_bool_neq in E. apply ltb_fin_false.
    assert (x / y == 0)%Q by (rewrite Hx; field; exact E). lra.
Qed.

(* ================================================================== *)
(** ** C8: the bounding box a gesture creates *)
(* ================================================================== *)

(** C8 (as amended).  Every box handed to [onAnnotationCreate] has a width
    and a height above 10, so strictly positive.  Its corner is the corner
    of the drawn rectangle taken relative to the image and divided by the
    scale, without clamping: for finite values and a positive scale, [x] is
    negative exactly when the rectangle starts left of the image, and [y]
    exactly when it starts above it. *)
Theorem created_box_bounds :
  forall (st : ViewerState) (b : Box),
    In (OnAnnotationCreate b) (snd (handleMouseUp st)) ->
    (10 <? box_width b) = true /\ (0 <? box_width b) = true
    /\ (10 <? box_height b) = true /\ (0 <? box_height b) = true
    /\ exists bgImage r,
        find_backgroundImage (objects (canvas st)) = Some bgImage
        /\ tempRect st = Some r
        /\ b = imageCoords bgImage r
        /\ forall s ox oy l t : Q,
            img_scaleX bgImage = Fin s ->
            img_left bgImage = Fin ox -> img_top bgImage = Fin oy ->
            rect_left r = Fin l -> rect_top r = Fin t ->
            (0 < s)%Q ->
            ((box_x b <? 0) = true <-> (l < ox)%Q)
            /\ ((box_y b <? 0) = true <-> (t < oy)%Q).
Proof.
  intros st b Hin.
  destruct (handleMouseUp_emits st b Hin)
    as (bg & r & Hbg & Hr & _ & _ & Hb & Hw & Hh).
  unfold gtb in Hw, Hh.
  assert (Hpos : forall a, (10 <? a) = true -> (0 <? a) = true).
  { intros [q| | |]; try (simpl; congruence).
    rewrite !ltb_fin. lra. }
  repeat (split; [auto|]).
  exists bg, r. repeat (split; [assumption|]).
  intros s ox oy l t Hs Hox Hoy Hl Ht Hs0.
  subst b. unfold imageCoords. cbn [box_x box_y].
  rewrite Hs, Hox, Hoy, Hl, Ht. fin_arith.
  assert (Hinv : (0 < / s)%Q) by (apply Qinv_lt_0_compat; exact Hs0).
  split; rewrite ltb_fin; unfold Qdiv; split; intro H.
  - assert (K : ((l + - ox) * / s * s == l + - ox)%Q) by (field; lra).
    assert (M : ((l + - ox) * / s * s < 0 * s)%Q)
      by (apply Qmult_lt_compat_r; assumption).
    lra.
  - assert (M : ((l + - ox) * / s < 0 * / s)%Q)
      by (apply Qmult_lt_compat_r; [assumption|lra]).
    lra.
  - assert (K : ((t + - oy) * / s * s == t + - oy)%Q) by (field; lra).
    assert (M : ((t + - oy) * / s * s < 0 * s)%Q)
      by (apply Qmult_lt_compat_r; assumption).
    lra.
  - assert (M : ((t + - oy) * / s < 0 * / s)%Q)
      by (apply Qmult_lt_compat_r; [assumption|lra]).
    lra.
Qed.

Lemma created_box_bounds_witness :
  let st := dragged loadedViewer 10 10 110 110 in
  let b := imageCoords (fitImage 800 600 1600 1200)
                       (mkRectObj 10 10 100 100) in
  In (OnAnnotationCreate b) (snd (handleMouseUp st)) /\
  (10 <? box_width b) = true /\ (10 <? box_height b) = true.
Proof.
  intros st b.
  assert (Hin : In (OnAnnotationCreate b) (snd (handleMouseUp st)))
    by (left; vm_compute; reflexivity).
  split; [exact Hin|].
  destruct (created_box_bounds st b Hin) as (Hw & _ & Hh & _).
  split; assumption.
Defined.

(** C8, as stated: a rectangle drawn from (10, 10), left of and above the
    image at (40, 30), is created with negative [x] and [y]. *)
Lemma created_box_negative_corner :
  exists b : Box,
    snd (drawGesture loadedViewer (mouseAt 10 10) [mouseAt 110 110])
    = [OnAnnotationCreate b]
    /\ (box_x b <? 0) = true /\ (box_y b <? 0) = true.
Proof.
  eexists. split; [vm_compute; reflexivity|].
  split; vm_compute; reflexivity.
Qed.

(* ================================================================== *)
(** ** C6: rendering connections *)
(* ================================================================== *)

Section RenderLines.

Variable bgImage : ImageObj.
Variable anns : list Annotation.

Lemma lines_of_cleared (objs : list FabricObject) :
  lines_of (filter (fun o => negb (is_overlay o)) objs) = [].
Proof.
  induction objs as [|o objs IH]; [reflexivity|].
  destruct o; simpl; auto.
Qed.

Lemma lines_of_app (l1 l2 : list FabricObject) :
  lines_of (l1 ++ l2) = lines_of l1 ++ lines_of l2.
Proof. apply flat_map_app. Qed.

Lemma rects_of_cleared (objs : list FabricObject) :
  rects_of (filter (fun o => negb (is_overlay o)) objs) = [].
Proof.
  induction objs as [|o objs IH]; [reflexivity|].
  destruct o; simpl; auto.
Qed.

Lemma lines_after_annotations (sel : option Annotation) (tool : Tool)
      (l : list Annotation) :
  forall c,
    canvas_lines (fold_left (drawAnnotation bgImage sel tool) l c)
    = canvas_lines c.
Proof.
  induction l as [|a l IH]; intro c; [reflexivity|].
  simpl. rewrite IH. unfold canvas_lines, drawAnnotation, fabric.add.
  cbn [objects]. rewrite !lines_of_app. simpl.
  rewrite !app_nil_r. reflexivity.
Qed.

Lemma lines_after_connections (conns : list Connection) :
  forall c,
    canvas_lines (fold_left (drawConnection bgImage anns) conns c)
    = rev (drawnLines bgImage anns conns) ++ canvas_lines c.
Proof.
  induction conns as [|conn conns IH]; intro c; [reflexivity|].
  cbn [fold_left]. rewrite IH. unfold drawnLines. cbn [flat_map].
  unfold drawConnection.
  destruct (connectionLine bgImage anns conn) as [l|].
  - cbn [app rev]. rewrite <- app_assoc. reflexivity.
  - reflexivity.
Qed.

Lemma lines_of_remove_background (objs : list FabricObject) :
  lines_of (fabric.remove_first is_backgroundImage objs) = lines_of objs.
Proof.
  induction objs as [|o objs IH]; [reflexivity|].
  destruct o; simpl; try reflexivity; rewrite IH; reflexivity.
Qed.

Lemma lines_after_sendToBack (c : Canvas) :
  canvas_lines (fabric.sendToBack_found c is_backgroundImage)
  = canvas_lines c.
Proof.
  unfold fabric.sendToBack_found.
  destruct (find is_backgroundImage (objects c)) as [o|] eqn:E;
    [|reflexivity].
  apply find_some in E. destruct E as [_ Hbg].
  unfold canvas_lines. cbn [objects].
  destruct o; try discriminate Hbg.
  simpl. apply lines_of_remove_background.
Qed.

End RenderLines.

Lemma find_annotation_absent (annotations : list Annotation) (id : Z) :
  ~ In id (map ann_id annotations) -> find_annotation annotations id = None.
Proof.
  induction annotations as [|a l IH]; intro H; [reflexivity|].
  unfold find_annotation in *. simpl in *.
  destruct (ann_id a =? id)%Z eqn:E.
  - apply Z.eqb_eq in E. tauto.
  - apply IH. tauto.
Qed.

Lemma find_annotation_present (annotations : list Annotation) (id : Z) :
  In id (map ann_id annotations) ->
  exists a, find_annotation annotations id = Some a
            /\ ann_id a = id /\ In a annotations.
Proof.
  induction annotations as [|a l IH]; intro H; [contradiction|].
  unfold find_annotation in *. simpl in *.
  destruct (ann_id a =? id)%Z eqn:E.
  - apply Z.eqb_eq in E. exists a. auto.
  - apply Z.eqb_neq in E. destruct H as [H|H]; [contradiction|].
    destruct (IH H) as (a' & F & I & M). exists a'. auto.
Qed.

(** The centre of the rectangle a render draws for a finite annotation is
    the point the render joins connections at. *)
Lemma center_of_annotationRect (bgImage : ImageObj) (a : Annotation)
      (sel : option Annotation) (tool : Tool) :
  finite_image bgImage -> finite_annotation a ->
  let scale := img_scaleX bgImage in
  point_eqv
    (mkPoint (img_left bgImage + (ann_x a + ann_width a / 2) * scale)
             (img_top bgImage + (ann_y a + ann_height a / 2) * scale))
    (rectCenter (ar_geom (annotationRect bgImage sel tool a))).
Proof.
  intros (Hs & Hl & Ht) (Hx & Hy & Hw & Hh).
  destruct bgImage as [iw ih il it sx sy].
  destruct a as [id x y w h sym yolo].
  cbn [img_scaleX img_left img_top ann_x ann_y ann_width ann_height] in *.
  apply finite_inv in Hs, Hl, Ht, Hx, Hy, Hw, Hh.
  destruct Hs as [qs ->], Hl as [ql ->], Ht as [qt ->], Hx as [qx ->],
           Hy as [qy ->], Hw as [qw ->], Hh as [qh ->].
  unfold point_eqv, rectCenter, annotationRect.
  split; fin_arith; field.
Qed.

Lemma drawAnnotation_keeps (bgImage : ImageObj) (sel : option Annotation)
      (tool : Tool) (l : list Annotation) :
  forall c o, In o (objects c) ->
              In o (objects (fold_left (drawAnnotation bgImage sel tool) l c)).
Proof.
  induction l as [|a l IH]; intros c o H; [exact H|].
  simpl. apply IH. unfold drawAnnotation, fabric.add. cbn [objects].
  apply in_or_app. left. apply in_or_app. left. exact H.
Qed.

Lemma drawAnnotation_draws (bgImage : ImageObj) (sel : option Annotation)
      (tool : Tool) (l : list Annotation) :
  forall c a, In a l ->
    In (ObjAnnotation (annotationRect bgImage sel tool a))
       (objects (fold_left (drawAnnotation bgImage sel tool) l c)).
Proof.
  induction l as [|a0 l IH]; intros c a H; [contradiction|].
  simpl. destruct H as [->|H].
  - apply drawAnnotation_keeps. unfold drawAnnotation, fabric.add.
    cbn [objects]. apply in_or_app. left. apply in_or_app. right.
    left. reflexivity.
  - apply IH. exact H.
Qed.

Lemma drawConnection_keeps (bgImage : ImageObj) (anns : list Annotation)
      (l : list Connection) :
  forall c o, In o (objects c) ->
              In o (objects (fold_left (drawConnection bgImage anns) l c)).
Proof.
  induction l as [|conn l IH]; intros c o H; [exact H|].
  simpl. apply IH. unfold drawConnection.
  destruct (connectionLine bgImage anns conn); [|exact H].
  right. exact H.
Qed.

Lemma sendToBack_keeps (c : Canvas) (o : FabricObject) :
  is_backgroundImage o = false -> In o (objects c) ->
  In o (objects (fabric.sendToBack_found c is_backgroundImage)).
Proof.
  intros Ho H. unfold fabric.sendToBack_found.
  destruct (find is_backgroundImage (objects c)); [|exact H].
  cbn [objects]. right.
  induction (objects c) as [|o' l IH]; [contradiction|].
  simpl. destruct H as [->|H].
  - rewrite Ho. left. reflexivity.
  - destruct (is_backgroundImage o'); [exact H|]. right. apply IH. exact H.
Qed.

(** C6 (as amended).  A connection with an absent endpoint is passed over
    and draws nothing, on every canvas (the render is a total function:
    there is no error case).  On a canvas that has a background image, a
    render leaves exactly the lines of the connections whose two endpoint
    ids are both found in the annotation list, and such a connection draws
    one line, named after the connection, between the centres of the
    rectangles the same render draws for its two endpoint annotations (for
    finite coordinates).  On a canvas without a background image the render
    returns before it draws: it leaves no line and no rectangle, whatever
    the connections and annotations. *)
Theorem connection_skip_rule :
  forall (annotations : list Annotation) (connections : list Connection)
         (sel : option Annotation) (tool : Tool) (c : Canvas),
    let c' := renderAnnotations annotations connections sel tool c in
    (forall conn bgImage,
        ~ In (from_annotation_id conn) (map ann_id annotations)
        \/ ~ In (to_annotation_id conn) (map ann_id annotations) ->
        connectionLine bgImage annotations conn = None)
    /\ (forall bgImage,
           find_backgroundImage (objects c) = Some bgImage ->
           canvas_lines c' = rev (drawnLines bgImage annotations connections)
           /\ (forall conn,
                  In (from_annotation_id conn) (map ann_id annotations) ->
                  In (to_annotation_id conn) (map ann_id annotations) ->
                  exists fromAnn toAnn l,
                    find_annotation annotations (from_annotation_id conn)
                    = Some fromAnn
                    /\ find_annotation annotations (to_annotation_id conn)
                       = Some toAnn
                    /\ connectionLine bgImage annotations conn = Some l
                    /\ ln_connectionId l = conn_id conn
                    /\ In (ObjAnnotation
                             (annotationRect bgImage sel tool fromAnn))
                          (objects c')
                    /\ In (ObjAnnotation
                             (annotationRect bgImage sel tool toAnn))
                          (objects c')
                    /\ (finite_image bgImage ->
                        finite_annotation fromAnn ->
                        finite_annotation toAnn ->
                        point_eqv (mkPoint (ln_x1 l) (ln_y1 l))
                                  (rectCenter
                                     (ar_geom (annotationRect bgImage sel tool
                                                              fromAnn)))
                        /\ point_eqv (mkPoint (ln_x2 l) (ln_y2 l))
                                     (rectCenter
                                        (ar_geom (annotationRect bgImage sel
                                                                 tool toAnn))))))
    /\ (find_backgroundImage (objects c) = None ->
        canvas_lines c' = [] /\ rects_of (objects c') = []).
Proof.
  intros annotations connections sel tool c c'.
  split; [|split].
  - intros conn bgImage H. unfold connectionLine.
    destruct H as [H|H]; rewrite (find_annotation_absent _ _ H).
    + reflexivity.
    + destruct (find_annotation annotations (from_annotation_id conn));
        reflexivity.
  - intros bgImage Hbg.
    assert (Hc' : c' = fabric.sendToBack_found
                         (fold_left (drawConnection bgImage annotations)
                            connections
                            (fold_left (drawAnnotation bgImage sel tool)
                               annotations
                               (mkCanvas (viewportTransform c)
                                  (filter (fun o => negb (is_overlay o))
                                          (objects c)))))
                         is_backgroundImage).
    { unfold c', renderAnnotations. rewrite Hbg. reflexivity. }
    split.
    + rewrite Hc', lines_after_sendToBack, lines_after_connections,
        lines_after_annotations.
      unfold canvas_lines. cbn [objects]. rewrite lines_of_cleared.
      apply app_nil_r.
    + intros conn Hf Ht.
      destruct (find_annotation_present _ _ Hf) as (fromAnn & Ff & _ & If).
      destruct (find_annotation_present _ _ Ht) as (toAnn & Ft & _ & It).
      exists fromAnn, toAnn. unfold connectionLine. rewrite Ff, Ft. cbv zeta.
      eexists. split; [reflexivity|]. split; [reflexivity|].
      split; [reflexivity|]. split; [reflexivity|].
      assert (Hdrawn : forall a, In a annotations ->
                In (ObjAnnotation (annotationRect bgImage sel tool a))
                   (objects c')).
      { intros a Ia. rewrite Hc'. apply sendToBack_keeps; [reflexivity|].
        apply drawConnection_keeps. apply drawAnnotation_draws. exact Ia. }
      split; [apply Hdrawn; exact If|]. split; [apply Hdrawn; exact It|].
      intros Hfi Hfa Hta. cbn [ln_x1 ln_y1 ln_x2 ln_y2].
      split; apply center_of_annotationRect; assumption.
  - intro Hbg. unfold c', renderAnnotations. rewrite Hbg.
    unfold canvas_lines. cbn [objects].
    split; [apply lines_of_cleared|apply rects_of_cleared].
Qed.

Lemma connection_skip_rule_witness :
  find_backgroundImage (objects (canvas loadedViewer))
  = Some (fitImage 800 600 1600 1200)
  /\ canvas_lines (renderAnnotations twoAnnotations twoConnections None
                                     ToolSelect (canvas loadedViewer))
     = rev (drawnLines (fitImage 800 600 1600 1200) twoAnnotations
                       twoConnections)
  /\ connectionLine (fitImage 800 600 1600 1200) twoAnnotations
                    (mkConnection 11 1 3 true) = None.
Proof.
  assert (Hbg : find_backgroundImage (objects (canvas loadedViewer))
                = Some (fitImage 800 600 1600 1200)) by reflexivity.
  destruct (connection_skip_rule twoAnnotations twoConnections None ToolSelect
              (canvas loadedViewer))
    as (Hskip & Hdraw & _).
  destruct (Hdraw (fitImage 800 600 1600 1200) Hbg) as (Hlines & _).
  split; [exact Hbg|]. split; [exact Hlines|].
  apply Hskip. right. simpl. intros [H|[H|[]]]; discriminate H.
Defined.

(** C6, as stated: connection 10 joins the annotations 1 and 2, both in the
    list, and a render on the canvas that has not received its page image
    draws no line for it (and no rectangle for its endpoints). *)
Lemma connection_not_drawn_without_image :
  let c' := renderAnnotations twoAnnotations [mkConnection 10 1 2 false]
                              None ToolSelect (canvas initialViewer) in
  In (from_annotation_id (mkConnection 10 1 2 false))
     (map ann_id twoAnnotations)
  /\ In (to_annotation_id (mkConnection 10 1 2 false))
        (map ann_id twoAnnotations)
  /\ canvas_lines c' = []
  /\ objects c' = [].
Proof.
  repeat split; try reflexivity; simpl; auto.
Qed.

(* ================================================================== *)
(** ** C9: domain mutations and the network *)
(* ================================================================== *)

(** C9 (as amended).  For each of the four domain mutations (create, update
    and delete annotation, create connection): while the request is in
    flight the component state is the one before the call; when the request
    fails the state is left as it is and the only effect is one
    [console.error] carrying the error, nothing the user sees; the
    annotation and connection lists change only when the request has
    resolved, from the value it resolved with. *)
Theorem mutations_wait_for_the_response :
  forall (st : AnnotatorState) (m : Mutation),
    (forall p, mutationPending st m = Some p -> p = st)
    /\ (forall err p effs,
           mutationFailed st m err = Some (p, effs) ->
           p = st
           /\ (exists msg, effs = [ConsoleError msg err])
           /\ existsb is_visible effs = false)
    /\ (forall d s a cur,
           handleAnnotationCreate st d = Some s ->
           settle s (Resolved a) cur
           = (setAnnotations cur (annotations st ++ [a]) (Some a), []))
    /\ (forall i u a cur,
           settle (handleAnnotationUpdate st i u) (Resolved a) cur
           = (setAnnotations cur
                (map (fun x => if (ann_id x =? i)%Z then a else x)
                     (annotations st))
                (Some a), []))
    /\ (forall i cur,
           settle (handleAnnotationDelete st i) (Resolved tt) cur
           = (setAnnotations cur
                (filter (fun x => negb (ann_id x =? i)%Z) (annotations st))
                None, []))
    /\ (forall f t w s k cur,
           handleConnectionCreate st f t w = Some s ->
           settle s (Resolved k) cur
           = (setConnections cur (connections st ++ [k]), [])).
Proof.
  intros st m. split; [|split; [|split; [|split; [|split]]]].
  - intros p. destruct m as [d|i u|i|f t w]; simpl;
      unfold handleAnnotationCreate, handleConnectionCreate;
      try destruct (find_page st); simpl; congruence.
  - intros err p effs.
    destruct m as [d|i u|i|f t w]; simpl;
      unfold handleAnnotationCreate, handleConnectionCreate;
      try destruct (find_page st); simpl; try congruence;
      intro E; inversion E; subst; (split; [reflexivity|]);
      (split; [eexists; reflexivity|reflexivity]).
  - intros d s a cur. unfold handleAnnotationCreate.
    destruct (find_page st); [|discriminate].
    intro E; inversion E; subst s. reflexivity.
  - reflexivity.
  - reflexivity.
  - intros f t w s k cur. unfold handleConnectionCreate.
    destruct (find_page st); [|discriminate].
    intro E; inversion E; subst s. reflexivity.
Qed.

Lemma mutations_wait_for_the_response_witness :
  mutationFailed emptyPage (MCreate (mkBox 10 20 30 40)) "Request failed"
  = Some (emptyPage,
          [ConsoleError "Error creating annotation:" "Request failed"])
  /\ (emptyPage = emptyPage
      /\ (exists msg,
             [ConsoleError "Error creating annotation:" "Request failed"]
             = [ConsoleError msg "Request failed"])
      /\ existsb is_visible
           [ConsoleError "Error creating annotation:" "Request failed"]
         = false).
Proof.
  assert (H : mutationFailed emptyPage (MCreate (mkBox 10 20 30 40))
                "Request failed"
              = Some (emptyPage,
                      [ConsoleError "Error creating annotation:"
                                    "Request failed"])) by reflexivity.
  split; [exact H|].
  exact (proj1 (proj2 (mutations_wait_for_the_response emptyPage
                         (MCreate (mkBox 10 20 30 40))))
               "Request failed"%string emptyPage _ H).
Defined.

(** C9, as stated: a create on an empty page does not show the new
    annotation while the request is in flight, and its failure is logged to
    the console, with no message to the user (contrast the failed export,
    which raises a dialog). *)
Lemma create_is_not_optimistic :
  exists s : Suspended Annotation,
    handleAnnotationCreate emptyPage (mkBox 10 20 30 40) = Some s
    /\ annotations (whilePending s) = []
    /\ settle s (Rejected "Request failed") (whilePending s)
       = (emptyPage,
          [ConsoleError "Error creating annotation:" "Request failed"])
    /\ existsb is_visible
         (snd (settle s (Rejected "Request failed") (whilePending s))) = false
    /\ existsb is_visible
         (snd (settle (handleExportXml emptyPage) (Rejected "Request failed")
                      emptyPage)) = true.
Proof.
  eexists. split; [reflexivity|]. repeat split; reflexivity.
Qed.

(* ================================================================== *)
(** ** C4: the range of the zoom *)
(* ================================================================== *)

Lemma max2_fin (x y : Q) : max2 (Fin x) (Fin y) = Fin (Qmax x y).
Proof.
  unfold max2, ltb, Qmax, GenericMinMax.gmax.
  destruct (x ?= y)%Q; reflexivity.
Qed.

Lemma in_zoom_range_fin (z : num) :
  in_zoom_range z <-> exists q : Q, z = Fin q /\ (0.1 <= q <= 5)%Q.
Proof.
  unfold in_zoom_range. split.
  - intros (Hlo & Hhi & Hfin). apply finite_inv in Hfin.
    destruct Hfin as [q ->]. exists q. split; [reflexivity|].
    apply ltb_fin_false in Hlo, Hhi. lra.
  - intros (q & -> & Hq). repeat split; try apply ltb_fin_false; lra.
Qed.

Lemma clamp_fin (q : Q) :
  Math_min [Math_max [Fin q; Fin 0.1]; Fin 5] = Fin (Qmin (Qmax q 0.1) 5).
Proof.
  unfold Math_min, Math_max. cbn [fold_right].
  change (max2 (Fin 0.1) NInf) with (Fin 0.1).
  change (min2 (Fin 5) PInf) with (Fin 5).
  rewrite max2_fin, min2_fin. reflexivity.
Qed.

Lemma clamp_in_range (q : Q) : (0.1 <= Qmin (Qmax q 0.1) 5 <= 5)%Q.
Proof.
  split.
  - apply Q.min_glb; [apply Q.le_max_r|lra].
  - apply Q.le_min_r.
Qed.

(** The zoom the wheel handler computes from a finite canvas zoom is within
    [0.1, 5]. *)
Lemma wheel_zoom_in_range (st : ViewerState) (e : MouseEvent) (g : Q) :
  fabric.getZoom (canvas st) = Fin g ->
  exists v : Q, zoom (handleMouseWheel st e) = Fin v /\ (0.1 <= v <= 5)%Q.
Proof.
  intro Hg. unfold handleMouseWheel, with_zoom. cbn [zoom]. rewrite Hg.
  destruct (ev_deltaY e >? 0); cbn [mul]; rewrite clamp_fin;
    eexists; (split; [reflexivity|apply clamp_in_range]).
Qed.

(** From a state whose [zoom] and canvas zoom are both within [0.1, 5], the
    wheel and the three zoom buttons stay within it. *)
Lemma zoom_operations_keep_range (st : ViewerState) (ev : ZoomEvent) :
  is_zoom_operation ev = true ->
  in_zoom_range (zoom st) -> in_zoom_range (fabric.getZoom (canvas st)) ->
  in_zoom_range (zoom (zoomStep st ev))
  /\ in_zoom_range (fabric.getZoom (canvas (zoomStep st ev))).
Proof.
  intros Hop Hz Hg.
  apply in_zoom_range_fin in Hz, Hg.
  destruct Hz as (z & Hz & Hzr), Hg as (g & Hg & Hgr).
  destruct ev as [e| | | |cw ch w h]; try discriminate Hop; cbn [zoomStep].
  - destruct (wheel_zoom_in_range st e g Hg) as (v & Hv & Hvr).
    assert (Hc : fabric.getZoom (canvas (handleMouseWheel st e))
                 = zoom (handleMouseWheel st e)) by reflexivity.
    rewrite Hc, Hv. split; apply in_zoom_range_fin; eauto.
  - assert (Hc : fabric.getZoom (canvas (handleZoomIn st))
                 = zoom (handleZoomIn st)) by reflexivity.
    rewrite Hc. unfold handleZoomIn, with_zoom. cbn [zoom]. rewrite Hz.
    unfold Math_min. cbn [fold_right mul].
    change (min2 (Fin 5) PInf) with (Fin 5). rewrite min2_fin.
    assert (R : (0.1 <= Qmin (z * 1.2) 5 <= 5)%Q).
    { split; [apply Q.min_glb; lra|apply Q.le_min_r]. }
    split; apply in_zoom_range_fin; eauto.
  - assert (Hc : fabric.getZoom (canvas (handleZoomOut st))
                 = zoom (handleZoomOut st)) by reflexivity.
    rewrite Hc. unfold handleZoomOut, with_zoom. cbn [zoom]. rewrite Hz.
    rewrite div_fin by lra.
    unfold Math_max. cbn [fold_right].
    change (max2 (Fin 0.1) NInf) with (Fin 0.1). rewrite max2_fin.
    assert (D : (z / 1.2 <= 5)%Q).
    { assert (E : (z / 1.2 == z * (10 # 12))%Q) by (field; lra). lra. }
    assert (R : (0.1 <= Qmax (z / 1.2) 0.1 <= 5)%Q).
    { split; [apply Q.le_max_r|apply Q.max_lub; lra]. }
    split; apply in_zoom_range_fin; eauto.
  - split; apply in_zoom_range_fin; exists 1%Q; (split; [reflexivity|lra]).
Qed.

(** So without a page image the zoom never leaves [0.1, 5]. *)
Lemma zoom_range_without_image (evs : list ZoomEvent) :
  forallb is_zoom_operation evs = true ->
  in_zoom_range (zoom (runZoom initialViewer evs))
  /\ in_zoom_range (fabric.getZoom (canvas (runZoom initialViewer evs))).
Proof.
  assert (G : forall st,
             forallb is_zoom_operation evs = true ->
             in_zoom_range (zoom st) ->
             in_zoom_range (fabric.getZoom (canvas st)) ->
             in_zoom_range (zoom (runZoom st evs))
             /\ in_zoom_range (fabric.getZoom (canvas (runZoom st evs)))).
  { induction evs as [|ev evs IH]; intros st Hall Hz Hg.
    - split; assumption.
    - simpl in Hall. apply andb_true_iff in Hall. destruct Hall as [Hev Hall].
      destruct (zoom_operations_keep_range st ev Hev Hz Hg) as [Hz' Hg'].
      unfold runZoom. cbn [fold_left]. apply (IH _ Hall Hz' Hg'). }
  intro Hall. apply (G initialViewer Hall);
    apply in_zoom_range_fin; exists 1%Q; (split; [reflexivity|lra]).
Qed.

(** C4, at the failing input.  Once a 16000x12000 page image has loaded in
    a 800x600 viewport, [zoom] holds the fit scale 0.045, and the zoom-in
    button sets both [zoom] and the canvas zoom to 0.054, below 0.1.  Once
    an image has loaded in a container of width 0, [zoom] holds 0 and the
    zoom-in button sets the canvas zoom to 0. *)
Theorem zoom_in_leaves_range :
  zoom largePageViewer == 0.045
  /\ zoom (handleZoomIn largePageViewer) == 0.054
  /\ fabric.getZoom (canvas (handleZoomIn largePageViewer)) == 0.054
  /\ ~ in_zoom_range (zoom (runZoom largePageViewer [EvZoomIn]))
  /\ ~ in_zoom_range
       (fabric.getZoom (canvas (runZoom largePageViewer [EvZoomIn])))
  /\ zoom (handleZoomIn collapsedViewer) == 0
  /\ fabric.getZoom (canvas (handleZoomIn collapsedViewer)) == 0.
Proof.
  repeat split; try (vm_compute; reflexivity);
    intros (H & _); vm_compute in H; discriminate H.
Qed.

(* ================================================================== *)
(** ** C5: the pivot of a zoom *)
(* ================================================================== *)

(** With a finite nonzero zoom the inverse viewport transform takes a
    finite point to the finite point [((x - tx) / z, (y - ty) / z)]. *)
Lemma restorePointerVpt_fin (c : Canvas) (z tx ty x y : Q) :
  viewportTransform c = mkVpt z tx ty -> ~ (z == 0)%Q ->
  exists X Y : Q,
    fabric.restorePointerVpt c (mkPoint x y) = mkPoint X Y
    /\ (X == (x - tx) / z)%Q /\ (Y == (y - ty) / z)%Q.
Proof.
  intros Hv Hz. unfold fabric.restorePointerVpt. rewrite Hv.
  cbn [vpt0 vpt4 vpt5 pt_x pt_y mul sub add neg].
  assert (Hzz : ~ (z * z + - (0 * 0) == 0)%Q).
  { intro H. apply Hz.
    assert (H' : (z * z == 0)%Q) by lra.
    destruct (Qmult_integral _ _ H'); assumption. }
  rewrite div_fin by exact Hzz.
  cbn [mul add neg].
  eexists. eexists. split; [reflexivity|].
  split; field; exact Hz.
Qed.

Lemma getPointer_fin (c : Canvas) (e : MouseEvent) (z tx ty x y : Q) :
  viewportTransform c = mkVpt z tx ty -> ~ (z == 0)%Q ->
  ev_pointer e = mkPoint x y ->
  exists X Y : Q,
    getPointer c e = mkPoint X Y
    /\ (X == (x - tx) / z)%Q /\ (Y == (y - ty) / z)%Q.
Proof.
  intros Hv Hz He. unfold getPointer. rewrite He.
  apply restorePointerVpt_fin; assumption.
Qed.

(** C5, at the failing input.  The wheel handler hands
    [canvas.getPointer(e)], the pointer in scene coordinates, to
    [zoomToPoint], which takes its point in viewport coordinates.  On the
    untouched viewport the two agree, and the scene point under the pointer
    stays under it.  After a pan by (100, 50) they differ: for a wheel step
    at the view position (300, 300) the point handed over is (200, 250);
    what stays in place is the scene point shown at the view position
    (200, 250), and the scene point under the pointer moves to
    (310, 305).  No pan is needed: after that first wheel step on the
    untouched viewport, a second one at (500, 200) moves the scene point
    under the pointer to (501.8, 199.1). *)
Theorem wheel_zoom_moves_pointed_point :
  let e := wheelAt 300 300 (-100) in
  let pointer := ev_pointer e in
  let shown (st : ViewerState) (p : Point) :=
    Spec.toView (viewportOf (canvas (handleMouseWheel st e)))
                (Spec.toPage (viewportOf (canvas st)) p) in
  point_eqv (getPointer (canvas loadedViewer) e) pointer
  /\ point_eqv (shown loadedViewer pointer) pointer
  /\ point_eqv (getPointer (canvas pannedViewer) e) (mkPoint 200 250)
  /\ canvas (handleMouseWheel pannedViewer e)
     = fabric.zoomToPoint (canvas pannedViewer)
                          (getPointer (canvas pannedViewer) e)
                          (zoom (handleMouseWheel pannedViewer e))
  /\ point_eqv (shown pannedViewer (mkPoint 200 250)) (mkPoint 200 250)
  /\ point_eqv (shown pannedViewer pointer) (mkPoint 310 305)
  /\ ~ point_eqv (shown pannedViewer pointer) pointer
  /\ (let wheeled := handleMouseWheel loadedViewer e in
      let e2 := wheelAt 500 200 (-100) in
      point_eqv
        (Spec.toView (viewportOf (canvas (handleMouseWheel wheeled e2)))
                     (Spec.toPage (viewportOf (canvas wheeled))
                                  (ev_pointer e2)))
        (mkPoint (5520 # 11) (2190 # 11))).
Proof.
  repeat split; try (vm_compute; reflexivity).
  intros (H & _); vm_compute in H; discriminate H.
Qed.

(* ================================================================== *)
(** ** Panning *)
(* ================================================================== *)

Lemma handleMouseDown_pan (tool : Tool) (st : ViewerState) (e : MouseEvent) :
  is_pan_press e = true ->
  handleMouseDown tool st e
  = mkViewer (canvas st) (zoom st) (isDrawing st) (drawStart st) (tempRect st)
             true (ev_clientX e) (ev_clientY e).
Proof.
  unfold is_pan_press, handleMouseDown. intros ->. reflexivity.
Qed.

Lemma last_cons_default (A : Type) (e d : A) (l : list A) :
  last (e :: l) d = last l e.
Proof.
  revert e d. induction l as [|x l IH]; intros e d; [reflexivity|].
  change (last (e :: x :: l) d) with (last (x :: l) d).
  rewrite IH. symmetry. apply IH.
Qed.

(** While panning, the translation of the viewport follows the pointer: it
    moves by as much as the pointer has since the event [d] whose position
    is remembered; nothing else changes. *)
Lemma pan_moves_invariant (moves : list MouseEvent) :
  forall (st : ViewerState) (d : MouseEvent) (a b lx ly : Q),
    panning st = true ->
    vpt4 (viewportTransform (canvas st)) = Fin a ->
    vpt5 (viewportTransform (canvas st)) = Fin b ->
    ev_clientX d = Fin lx -> ev_clientY d = Fin ly ->
    lastPosX st = ev_clientX d -> lastPosY st = ev_clientY d ->
    forallb finite_client moves = true ->
    let st' := fold_left handleMouseMove moves st in
    panning st' = true
    /\ vpt0 (viewportTransform (canvas st')) = vpt0 (viewportTransform (canvas st))
    /\ objects (canvas st') = objects (canvas st)
    /\ zoom st' = zoom st /\ isDrawing st' = isDrawing st
    /\ drawStart st' = drawStart st /\ tempRect st' = tempRect st
    /\ lastPosX st' = ev_clientX (last moves d)
    /\ lastPosY st' = ev_clientY (last moves d)
    /\ exists a' b' lx' ly' : Q,
        vpt4 (viewportTransform (canvas st')) = Fin a'
        /\ vpt5 (viewportTransform (canvas st')) = Fin b'
        /\ ev_clientX (last moves d) = Fin lx'
        /\ ev_clientY (last moves d) = Fin ly'
        /\ (a' == a + (lx' - lx))%Q /\ (b' == b + (ly' - ly))%Q.
Proof.
  induction moves as [|e moves IH];
    intros st d a b lx ly Hp Ha Hb Hdx Hdy Hlx Hly Hfin st'.
  - subst st'. simpl. repeat (split; [auto|]).
    exists a, b, lx, ly. repeat split; auto; lra.
  - simpl in Hfin. apply andb_true_iff in Hfin. destruct Hfin as [He Hfin].
    unfold finite_client in He. apply andb_true_iff in He.
    destruct He as [Hex Hey].
    apply finite_inv in Hex, Hey. destruct Hex as [cx Hcx], Hey as [cy Hcy].
    set (st1 := handleMouseMove st e).
    assert (E1 : st1 = mkViewer
                         (mkCanvas (mkVpt (vpt0 (viewportTransform (canvas st)))
                                          (Fin (a + (cx + - lx)))
                                          (Fin (b + (cy + - ly))))
                                   (objects (canvas st)))
                         (zoom st) (isDrawing st) (drawStart st) (tempRect st)
                         true (ev_clientX e) (ev_clientY e)).
    { unfold st1, handleMouseMove.
      rewrite Hp, Ha, Hb, Hlx, Hly, Hdx, Hdy, Hcx, Hcy. reflexivity. }
    assert (Hst' : st' = fold_left handleMouseMove moves st1) by reflexivity.
    destruct (IH st1 e (a + (cx + - lx))%Q (b + (cy + - ly))%Q cx cy)
      as (P1 & P2 & P3 & P4 & P5 & P6 & P7 & P8 & P9 & a' & b' & lx' & ly'
          & Q1 & Q2 & Q3 & Q4 & Q5 & Q6);
      try (rewrite E1; reflexivity); try assumption.
    rewrite <- Hst' in *. rewrite E1 in P2, P3, P4, P5, P6, P7.
    cbn [canvas viewportTransform vpt0 objects zoom isDrawing drawStart
         tempRect] in P2, P3, P4, P5, P6, P7.
    rewrite last_cons_default.
    repeat (split; [assumption|]).
    exists a', b', lx', ly'. repeat (split; [assumption|]).
    split; lra.
Qed.

Lemma pan_moves_keep_panning (moves : list MouseEvent) :
  forall st : ViewerState,
    panning st = true ->
    let st' := fold_left handleMouseMove moves st in
    panning st' = true /\ isDrawing st' = isDrawing st
    /\ drawStart st' = drawStart st /\ tempRect st' = tempRect st
    /\ objects (canvas st') = objects (canvas st) /\ zoom st' = zoom st.
Proof.
  induction moves as [|e moves IH]; intros st Hp st'.
  - subst st'. simpl. repeat split; auto.
  - subst st'. cbn [fold_left].
    assert (H1 : panning (handleMouseMove st e) = true)
      by (unfold handleMouseMove; rewrite Hp; reflexivity).
    destruct (IH _ H1) as (P1 & P2 & P3 & P4 & P5 & P6).
    rewrite P1, P2, P3, P4, P5, P6.
    unfold handleMouseMove. rewrite Hp. cbn. repeat split; reflexivity.
Qed.



(** X2.  A gesture that starts with the middle button, alt or space never
    calls [onAnnotationCreate], with any tool, from any state and over any
    moves, and leaves the drawing state as it found it. *)
Theorem pan_gesture_creates_nothing :
  forall (tool : Tool) (st : ViewerState) (down : MouseEvent)
         (moves : list MouseEvent),
    is_pan_press down = true ->
    snd (gesture tool st down moves) = []
    /\ isDrawing (fst (gesture tool st down moves)) = isDrawing st
    /\ tempRect (fst (gesture tool st down moves)) = tempRect st
    /\ drawStart (fst (gesture tool st down moves)) = drawStart st
    /\ objects (canvas (fst (gesture tool st down moves)))
       = objects (canvas st).
Proof.
  intros tool st down moves Hpan.
  set (st0 := handleMouseDown tool st down).
  assert (E0 : st0 = mkViewer (canvas st) (zoom st) (isDrawing st)
                             (drawStart st) (tempRect st)
                             true (ev_clientX down) (ev_clientY down))
    by (apply handleMouseDown_pan; exact Hpan).
  assert (Hp0 : panning st0 = true) by (rewrite E0; reflexivity).
  destruct (pan_moves_keep_panning moves st0 Hp0)
    as (P1 & P2 & P3 & P4 & P5 & _).
  unfold gesture. fold st0. unfold handleMouseUp. rewrite P1.
  cbn [fst snd isDrawing tempRect drawStart canvas].
  rewrite P2, P3, P4, P5, E0. cbn. repeat split; reflexivity.
Qed.

Lemma pan_gesture_creates_nothing_witness :
  is_pan_press (altMouseAt 100 100) = true
  /\ snd (gesture ToolRectangle loadedViewer (altMouseAt 100 100)
                  [altMouseAt 400 400]) = [].
Proof.
  assert (Hpan : is_pan_press (altMouseAt 100 100) = true) by reflexivity.
  split; [exact Hpan|].
  exact (proj1 (pan_gesture_creates_nothing ToolRectangle loadedViewer
                  (altMouseAt 100 100) [altMouseAt 400 400] Hpan)).
Defined.

(* ================================================================== *)
(** ** Drawing a rectangle *)
(* ================================================================== *)

Lemma handleMouseDown_draw (st : ViewerState) (e : MouseEvent) :
  is_pan_press e = false ->
  handleMouseDown ToolRectangle st e
  = mkViewer (fabric.add (canvas st) ObjTempRect) (zoom st) true
             (Some (getPointer (canvas st) e))
             (Some (mkRectObj (pt_x (getPointer (canvas st) e))
                              (pt_y (getPointer (canvas st) e)) 0 0))
             (panning st) (lastPosX st) (lastPosY st).
Proof.
  unfold is_pan_press, handleMouseDown. intros ->. cbn [negb tool_eqb].
  destruct (getPointer (canvas st) e). reflexivity.
Qed.

Lemma handleMouseMove_draw (s : ViewerState) (e : MouseEvent)
      (start : Point) (r : RectObj) :
  panning s = false -> isDrawing s = true ->
  tempRect s = Some r -> drawStart s = Some start ->
  handleMouseMove s e
  = mkViewer (canvas s) (zoom s) true (Some start)
             (Some (dragRect start (getPointer (canvas s) e)))
             false (lastPosX s) (lastPosY s).
Proof.
  intros Hp Hd Hr Hs. unfold handleMouseMove. rewrite Hp, Hd, Hr, Hs.
  reflexivity.
Qed.

(** While a rectangle is being drawn, moves change the temp rect only. *)
Lemma drawing_moves (moves : list MouseEvent) :
  forall (s : ViewerState) (start : Point) (r : RectObj),
    panning s = false -> isDrawing s = true ->
    tempRect s = Some r -> drawStart s = Some start ->
    let s' := fold_left handleMouseMove moves s in
    canvas s' = canvas s /\ zoom s' = zoom s
    /\ panning s' = false /\ isDrawing s' = true
    /\ drawStart s' = Some start
    /\ lastPosX s' = lastPosX s /\ lastPosY s' = lastPosY s
    /\ exists r', tempRect s' = Some r'.
Proof.
  induction moves as [|e moves IH]; intros s start r Hp Hd Hr Hs s'.
  - subst s'. simpl. repeat split; auto. eauto.
  - subst s'. cbn [fold_left].
    rewrite (handleMouseMove_draw s e start r Hp Hd Hr Hs).
    edestruct (IH (mkViewer (canvas s) (zoom s) true (Some start)
                            (Some (dragRect start (getPointer (canvas s) e)))
                            false (lastPosX s) (lastPosY s)))
      as (P1 & P2 & P3 & P4 & P5 & P6 & P7 & P8); try reflexivity.
    cbn [canvas zoom lastPosX lastPosY] in P1, P2, P6, P7.
    repeat (split; [assumption|]). exact P8.
Qed.

(** The temp rect is the one of the last move. *)
Lemma drawing_last_move (moves : list MouseEvent) (e : MouseEvent)
      (s : ViewerState) (start : Point) (r : RectObj) :
  panning s = false -> isDrawing s = true ->
  tempRect s = Some r -> drawStart s = Some start ->
  tempRect (fold_left handleMouseMove (moves ++ [e]) s)
  = Some (dragRect start (getPointer (canvas s) e)).
Proof.
  intros Hp Hd Hr Hs. rewrite fold_left_app. cbn [fold_left].
  destruct (drawing_moves moves s start r Hp Hd Hr Hs)
    as (P1 & _ & P3 & P4 & P5 & _ & _ & r' & P8).
  rewrite (handleMouseMove_draw _ e start r' P3 P4 P8 P5).
  cbn [tempRect]. rewrite P1. reflexivity.
Qed.

Lemma dragRect_fin (x0 y0 x1 y1 : Q) :
  box_eqv (rectBox (dragRect (mkPoint x0 y0) (mkPoint x1 y1)))
          (mkBox (Qmin x0 x1) (Qmin y0 y1) (Qabs (x1 - x0)) (Qabs (y1 - y0))).
Proof.
  assert (M : forall a b : Q,
             (if Fin (b + - a) >? Fin 0 then Fin a else Fin b)
             == Fin (Qmin a b)).
  { intros a b. destruct (Fin (b + - a) >? Fin 0) eqn:E.
    - apply gtb_fin_iff in E. cbn [eqv]. symmetry. apply Q.min_l. lra.
    - unfold gtb in E. apply ltb_fin_false in E. cbn [eqv]. symmetry.
      apply Q.min_r. lra. }
  unfold box_eqv, rectBox, dragRect.
  cbn [pt_x pt_y rect_left rect_top rect_width rect_height sub add neg
       Math_abs box_x box_y box_width box_height].
  repeat split; try apply M; cbn [eqv]; reflexivity.
Qed.

(** X3.  With the rectangle tool, after a press that is not a pan and any
    moves, the rectangle being drawn is the one spanned by the press and the
    last move, whatever the moves in between: in scene coordinates its left
    and top are the smaller of the two x and of the two y, its width and
    height the absolute differences (finite positions). *)
Theorem drag_spans_press_and_last_move :
  forall (st : ViewerState) (down e : MouseEvent) (moves : list MouseEvent)
         (x0 y0 x1 y1 : Q),
    is_pan_press down = false -> panning st = false ->
    getPointer (canvas st) down = mkPoint x0 y0 ->
    getPointer (canvas st) e = mkPoint x1 y1 ->
    exists r : RectObj,
      tempRect (fold_left handleMouseMove (moves ++ [e])
                          (handleMouseDown ToolRectangle st down)) = Some r
      /\ box_eqv (rectBox r)
                 (mkBox (Qmin x0 x1) (Qmin y0 y1)
                        (Qabs (x1 - x0)) (Qabs (y1 - y0))).
Proof.
  intros st down e moves x0 y0 x1 y1 Hpan Hp H0 H1.
  rewrite (handleMouseDown_draw st down Hpan).
  eexists. split.
  - eapply drawing_last_move; reflexivity || exact Hp.
  - cbn [canvas].
    change (getPointer (fabric.add (canvas st) ObjTempRect) e)
      with (getPointer (canvas st) e).
    rewrite H0, H1. apply dragRect_fin.
Qed.

Lemma drag_spans_press_and_last_move_witness :
  is_pan_press (mouseAt 300 250) = false
  /\ exists r : RectObj,
      tempRect (fold_left handleMouseMove
                          ([mouseAt 500 500] ++ [mouseAt 100 400])
                          (handleMouseDown ToolRectangle loadedViewer
                                           (mouseAt 300 250))) = Some r
      /\ box_eqv (rectBox r)
                 (mkBox (Qmin (300 / 1) (100 / 1)) (Qmin (250 / 1) (400 / 1))
                        (Qabs (100 / 1 - 300 / 1)) (Qabs (400 / 1 - 250 / 1))).
Proof.
  assert (Hpan : is_pan_press (mouseAt 300 250) = false) by reflexivity.
  split; [exact Hpan|].
  apply (drag_spans_press_and_last_move loadedViewer (mouseAt 300 250)
           (mouseAt 100 400) [mouseAt 500 500]
           (300 / 1) (250 / 1) (100 / 1) (400 / 1) Hpan); reflexivity.
Defined.

Lemma find_backgroundImage_app (l1 l2 : list FabricObject) :
  find_backgroundImage (l1 ++ l2)
  = match find_backgroundImage l1 with
    | Some img => Some img
    | None => find_backgroundImage l2
    end.
Proof.
  induction l1 as [|o l1 IH]; [simpl; destruct (find_backgroundImage l2); auto|].
  destruct o; simpl; auto.
Qed.

Lemma remove_added_tempRect (l : list FabricObject) :
  count_tempRect l = 0%nat ->
  fabric.remove_first is_tempRect (l ++ [ObjTempRect]) = l.
Proof.
  unfold count_tempRect. induction l as [|o l IH]; intro H; [reflexivity|].
  simpl in *. destruct (is_tempRect o); [discriminate H|].
  rewrite IH; auto.
Qed.

Lemma count_tempRect_app (l1 l2 : list FabricObject) :
  count_tempRect (l1 ++ l2) = (count_tempRect l1 + count_tempRect l2)%nat.
Proof. unfold count_tempRect. rewrite filter_app. apply length_app. Qed.

(** The state a rectangle press and its moves lead to, before the release. *)
Lemma drawing_before_release (st : ViewerState) (down : MouseEvent)
      (moves : list MouseEvent) :
  is_pan_press down = false -> panning st = false ->
  let s := fold_left handleMouseMove moves
                     (handleMouseDown ToolRectangle st down) in
  canvas s = fabric.add (canvas st) ObjTempRect /\ zoom s = zoom st
  /\ panning s = false /\ isDrawing s = true
  /\ drawStart s = Some (getPointer (canvas st) down)
  /\ lastPosX s = lastPosX st /\ lastPosY s = lastPosY st
  /\ exists r, tempRect s = Some r.
Proof.
  intros Hpan Hp s. unfold s. rewrite (handleMouseDown_draw st down Hpan).
  edestruct (drawing_moves moves
               (mkViewer (fabric.add (canvas st) ObjTempRect) (zoom st) true
                  (Some (getPointer (canvas st) down))
                  (Some (mkRectObj (pt_x (getPointer (canvas st) down))
                                   (pt_y (getPointer (canvas st) down)) 0 0))
                  (panning st) (lastPosX st) (lastPosY st)))
    as (P1 & P2 & P3 & P4 & P5 & P6 & P7 & P8);
    try reflexivity; try exact Hp.
  cbn [canvas zoom lastPosX lastPosY] in P1, P2, P6, P7.
  repeat (split; [assumption|]). exact P8.
Qed.

(** X4.  On a canvas that has its background image and no stray temp rect,
    a complete draw gesture leaves no trace, whether or not it creates an
    annotation: after the release the canvas (objects and viewport) is as
    before the press and the drawing state is cleared. *)
Theorem draw_gesture_leaves_no_trace :
  forall (st : ViewerState) (down : MouseEvent) (moves : list MouseEvent)
         (bgImage : ImageObj),
    is_pan_press down = false -> panning st = false ->
    find_backgroundImage (objects (canvas st)) = Some bgImage ->
    count_tempRect (objects (canvas st)) = 0%nat ->
    let st' := fst (drawGesture st down moves) in
    canvas st' = canvas st /\ zoom st' = zoom st
    /\ isDrawing st' = false /\ tempRect st' = None /\ drawStart st' = None.
Proof.
  intros st down moves bgImage Hpan Hp Hbg Hcnt st'.
  destruct (drawing_before_release st down moves Hpan Hp)
    as (P1 & P2 & P3 & P4 & P5 & P6 & P7 & r & P8).
  unfold st', drawGesture, handleMouseUp.
  rewrite P3, P4, P8, P5, P1.
  change (objects (fabric.add (canvas st) ObjTempRect))
    with (objects (canvas st) ++ [ObjTempRect]).
  rewrite find_backgroundImage_app, Hbg.
  assert (E : fabric.remove_found (fabric.add (canvas st) ObjTempRect)
                                  is_tempRect = canvas st).
  { unfold fabric.remove_found, fabric.add. cbn [objects viewportTransform].
    rewrite (remove_added_tempRect _ Hcnt). destruct (canvas st); reflexivity. }
  cbv zeta. rewrite E, P2.
  destruct ((box_width (imageCoords bgImage r) >? 10)
            && (box_height (imageCoords bgImage r) >? 10));
    cbn; repeat split; reflexivity.
Qed.

Lemma draw_gesture_leaves_no_trace_witness :
  is_pan_press (mouseAt 100 100) = false
  /\ panning loadedViewer = false
  /\ canvas (fst (drawGesture loadedViewer (mouseAt 100 100)
                              [mouseAt 300 300])) = canvas loadedViewer.
Proof.
  assert (Hpan : is_pan_press (mouseAt 100 100) = false) by reflexivity.
  assert (Hp : panning loadedViewer = false) by reflexivity.
  split; [exact Hpan|]. split; [exact Hp|].
  exact (proj1 (draw_gesture_leaves_no_trace loadedViewer (mouseAt 100 100)
                  [mouseAt 300 300] (fitImage 800 600 1600 1200)
                  Hpan Hp eq_refl eq_refl)).
Defined.

(** X5.  On a canvas without a background image the release returns before
    its clean-up: a draw gesture creates nothing, the component stays in
    drawing mode, and the temp rect stays on the canvas as one more
    object. *)
Theorem draw_gesture_without_image_is_stuck :
  forall (st : ViewerState) (down : MouseEvent) (moves : list MouseEvent),
    is_pan_press down = false -> panning st = false ->
    find_backgroundImage (objects (canvas st)) = None ->
    let st' := fst (drawGesture st down moves) in
    snd (drawGesture st down moves) = []
    /\ isDrawing st' = true
    /\ (exists r, tempRect st' = Some r)
    /\ objects (canvas st') = objects (canvas st) ++ [ObjTempRect]
    /\ count_tempRect (objects (canvas st'))
       = S (count_tempRect (objects (canvas st))).
Proof.
  intros st down moves Hpan Hp Hbg st'.
  destruct (drawing_before_release st down moves Hpan Hp)
    as (P1 & P2 & P3 & P4 & P5 & P6 & P7 & r & P8).
  assert (E : drawGesture st down moves
              = (fold_left handleMouseMove moves
                           (handleMouseDown ToolRectangle st down), [])).
  { unfold drawGesture, handleMouseUp.
    rewrite P3, P4, P8, P5, P1.
    change (objects (fabric.add (canvas st) ObjTempRect))
      with (objects (canvas st) ++ [ObjTempRect]).
    rewrite find_backgroundImage_app, Hbg. reflexivity. }
  unfold st'. rewrite E. cbn [fst snd]. rewrite P1, P4, P8.
  unfold fabric.add. cbn [objects].
  repeat split; eauto.
  rewrite count_tempRect_app. cbn. apply Nat.add_1_r.
Qed.

Lemma draw_gesture_without_image_is_stuck_witness :
  is_pan_press (mouseAt 100 100) = false
  /\ panning initialViewer = false
  /\ snd (drawGesture initialViewer (mouseAt 100 100) [mouseAt 300 300]) = []
  /\ isDrawing (fst (drawGesture initialViewer (mouseAt 100 100)
                                 [mouseAt 300 300])) = true.
Proof.
  assert (Hpan : is_pan_press (mouseAt 100 100) = false) by reflexivity.
  assert (Hp : panning initialViewer = false) by reflexivity.
  split; [exact Hpan|]. split; [exact Hp|].
  destruct (draw_gesture_without_image_is_stuck initialViewer
              (mouseAt 100 100) [mouseAt 300 300] Hpan Hp eq_refl)
    as (H1 & H2 & _).
  split; assumption.
Defined.

(** The callbacks of a release are decided by the size test alone. *)
Lemma handleMouseUp_calls (st : ViewerState) (bgImage : ImageObj)
      (r : RectObj) (start : Point) :
  panning st = false -> isDrawing st = true ->
  tempRect st = Some r -> drawStart st = Some start ->
  find_backgroundImage (objects (canvas st)) = Some bgImage ->
  snd (handleMouseUp st) =
    if (box_width (imageCoords bgImage r) >? 10)
       && (box_height (imageCoords bgImage r) >? 10)
    then [OnAnnotationCreate (imageCoords bgImage r)] else [].
Proof.
  intros Hp Hd Hr Hs Hb. unfold handleMouseUp.
  rewrite Hp, Hd, Hr, Hs, Hb. cbv zeta.
  destruct ((box_width (imageCoords bgImage r) >? 10)
            && (box_height (imageCoords bgImage r) >? 10)); reflexivity.
Qed.

Lemma dragRect_fin_fields (a0 b0 a1 b1 : Q) :
  exists l t : Q,
    dragRect (mkPoint a0 b0) (mkPoint a1 b1)
    = mkRectObj l t (Qabs (a1 - a0)) (Qabs (b1 - b0))
    /\ (l == Qmin a0 a1)%Q /\ (t == Qmin b0 b1)%Q.
Proof.
  pose proof (dragRect_fin a0 b0 a1 b1) as (Hl & Ht & _ & _).
  unfold dragRect, rectBox in *.
  cbn [pt_x pt_y rect_left rect_top box_x box_y sub add neg Math_abs] in *.
  destruct (Fin (a1 + - a0) >? Fin 0), (Fin (b1 + - b0) >? Fin 0);
    cbn [eqv] in Hl, Ht; eexists; eexists;
    (split; [reflexivity|split; assumption]).
Qed.



(* ================================================================== *)
(** ** What a render leaves on the canvas *)
(* ================================================================== *)

Lemma find_app_first (A : Type) (f : A -> bool) (l1 l2 : list A) :
  find f (l1 ++ l2)
  = match find f l1 with Some x => Some x | None => find f l2 end.
Proof.
  induction l1 as [|x l1 IH]; [simpl; destruct (find f l2); reflexivity|].
  simpl. destruct (f x); auto.
Qed.

Lemma remove_first_skip (f : FabricObject -> bool) (l1 l2 : list FabricObject) :
  existsb f l1 = false ->
  fabric.remove_first f (l1 ++ l2) = l1 ++ fabric.remove_first f l2.
Proof.
  induction l1 as [|x l1 IH]; intro H; [reflexivity|].
  simpl in *. apply orb_false_iff in H. destruct H as [Hx H].
  rewrite Hx, IH; auto.
Qed.

Lemma remove_first_found (f : FabricObject -> bool) (l1 l2 : list FabricObject) :
  existsb f l1 = true ->
  fabric.remove_first f (l1 ++ l2) = fabric.remove_first f l1 ++ l2.
Proof.
  induction l1 as [|x l1 IH]; intro H; [discriminate H|].
  simpl in *. destruct (f x); [reflexivity|].
  simpl in H. rewrite IH; auto.
Qed.

Lemma find_is_backgroundImage (l : list FabricObject) :
  find is_backgroundImage l
  = option_map ObjBackgroundImage (find_backgroundImage l).
Proof.
  induction l as [|o l IH]; [reflexivity|]. destruct o; simpl; auto.
Qed.

Lemma find_backgroundImage_exists (l : list FabricObject) (img : ImageObj) :
  find_backgroundImage l = Some img -> existsb is_backgroundImage l = true.
Proof.
  induction l as [|o l IH]; [discriminate|].
  destruct o; simpl; auto.
Qed.

Lemma find_backgroundImage_kept (l : list FabricObject) :
  find_backgroundImage (kept_objects l) = find_backgroundImage l.
Proof.
  unfold kept_objects. induction l as [|o l IH]; [reflexivity|].
  destruct o; simpl; auto.
Qed.

Lemma kept_objects_fixed (l : list FabricObject) :
  existsb is_overlay l = false -> kept_objects l = l.
Proof.
  unfold kept_objects. induction l as [|o l IH]; intro H; [reflexivity|].
  simpl in *. apply orb_false_iff in H. destruct H as [Ho H].
  rewrite Ho. simpl. rewrite IH; auto.
Qed.

Lemma kept_objects_no_overlay (l : list FabricObject) :
  existsb is_overlay (kept_objects l) = false.
Proof.
  unfold kept_objects. induction l as [|o l IH]; [reflexivity|].
  simpl. destruct (is_overlay o) eqn:E; simpl; [exact IH|].
  rewrite E. exact IH.
Qed.

Lemma remove_first_no_overlay (f : FabricObject -> bool)
      (l : list FabricObject) :
  existsb is_overlay l = false ->
  existsb is_overlay (fabric.remove_first f l) = false.
Proof.
  induction l as [|o l IH]; intro H; [reflexivity|].
  simpl in *. apply orb_false_iff in H. destruct H as [Ho H].
  destruct (f o); [exact H|]. simpl. rewrite Ho. auto.
Qed.

Lemma kept_objects_app (l1 l2 : list FabricObject) :
  kept_objects (l1 ++ l2) = kept_objects l1 ++ kept_objects l2.
Proof. apply filter_app. Qed.

Lemma kept_objects_overlays (l : list FabricObject) :
  forallb is_overlay l = true -> kept_objects l = [].
Proof.
  unfold kept_objects. induction l as [|o l IH]; intro H; [reflexivity|].
  simpl in *. apply andb_true_iff in H. destruct H as [Ho H].
  rewrite Ho. simpl. auto.
Qed.

Lemma annotationObjects_overlays (bgImage : ImageObj)
      (sel : option Annotation) (tool : Tool) (anns : list Annotation) :
  forallb is_overlay (annotationObjects bgImage sel tool anns) = true.
Proof. induction anns as [|a l IH]; [reflexivity|]. simpl. exact IH. Qed.

Lemma connections_overlays (ls : list LineObj) :
  forallb is_overlay (map ObjConnection ls) = true.
Proof. induction ls as [|a l IH]; [reflexivity|]. simpl. exact IH. Qed.

Lemma overlays_no_background (l : list FabricObject) :
  forallb is_overlay l = true -> existsb is_backgroundImage l = false.
Proof.
  induction l as [|o l IH]; intro H; [reflexivity|].
  simpl in *. apply andb_true_iff in H. destruct H as [Ho H].
  destruct o; try discriminate Ho; simpl; auto.
Qed.

Lemma drawAnnotations_canvas (bgImage : ImageObj) (sel : option Annotation)
      (tool : Tool) (anns : list Annotation) :
  forall c,
    fold_left (drawAnnotation bgImage sel tool) anns c
    = mkCanvas (viewportTransform c)
               (objects c ++ annotationObjects bgImage sel tool anns).
Proof.
  induction anns as [|a l IH]; intro c.
  - simpl. rewrite app_nil_r. destruct c; reflexivity.
  - cbn [fold_left]. rewrite IH. unfold drawAnnotation, fabric.add.
    cbn [viewportTransform objects annotationObjects flat_map].
    rewrite <- !app_assoc. reflexivity.
Qed.

Lemma drawConnections_canvas (bgImage : ImageObj) (anns : list Annotation)
      (conns : list Connection) :
  forall c,
    fold_left (drawConnection bgImage anns) conns c
    = mkCanvas (viewportTransform c)
               (map ObjConnection (rev (drawnLines bgImage anns conns))
                    ++ objects c).
Proof.
  induction conns as [|conn l IH]; intro c.
  - simpl. destruct c; reflexivity.
  - cbn [fold_left]. rewrite IH. unfold drawnLines. cbn [flat_map].
    unfold drawConnection.
    destruct (connectionLine bgImage anns conn) as [ln|].
    + unfold fabric.add_sendToBack. cbn [viewportTransform objects app rev].
      rewrite map_app, <- app_assoc. reflexivity.
    + reflexivity.
Qed.

(** The canvas a render produces when there is a background image: the
    image first, then the lines of the connections drawn (last drawn
    first), then the objects that were there and are not overlays, then
    the rectangle and label of each annotation. *)
Lemma render_objects (anns : list Annotation) (conns : list Connection)
      (sel : option Annotation) (tool : Tool) (c : Canvas)
      (bgImage : ImageObj) :
  find_backgroundImage (objects c) = Some bgImage ->
  renderAnnotations anns conns sel tool c
  = mkCanvas (viewportTransform c)
      (ObjBackgroundImage bgImage
       :: map ObjConnection (rev (drawnLines bgImage anns conns))
       ++ fabric.remove_first is_backgroundImage (kept_objects (objects c))
       ++ annotationObjects bgImage sel tool anns).
Proof.
  intro Hbg. unfold renderAnnotations. rewrite Hbg.
  rewrite drawAnnotations_canvas, drawConnections_canvas.
  cbn [viewportTransform objects]. fold (kept_objects (objects c)).
  set (L := map ObjConnection (rev (drawnLines bgImage anns conns))).
  set (K := kept_objects (objects c)).
  set (A := annotationObjects bgImage sel tool anns).
  assert (HL : existsb is_backgroundImage L = false)
    by (apply overlays_no_background, connections_overlays).
  assert (HK : find_backgroundImage K = Some bgImage)
    by (unfold K; rewrite find_backgroundImage_kept; exact Hbg).
  assert (HfL : find is_backgroundImage L = None).
  { destruct (find is_backgroundImage L) eqn:E; [|reflexivity].
    apply find_some in E. destruct E as [Hin Hb].
    rewrite <- not_true_iff_false in HL. exfalso. apply HL.
    apply existsb_exists. eauto. }
  unfold fabric.sendToBack_found. cbn [objects viewportTransform].
  rewrite find_app_first, HfL, find_app_first, find_is_backgroundImage, HK.
  cbn [option_map].
  rewrite (remove_first_skip _ _ _ HL).
  rewrite (remove_first_found _ _ _ (find_backgroundImage_exists _ _ HK)).
  reflexivity.
Qed.

(** Without a background image a render only clears the overlays. *)
Lemma render_without_background (anns : list Annotation)
      (conns : list Connection) (sel : option Annotation) (tool : Tool)
      (c : Canvas) :
  find_backgroundImage (objects c) = None ->
  renderAnnotations anns conns sel tool c
  = mkCanvas (viewportTransform c) (kept_objects (objects c)).
Proof. intro Hbg. unfold renderAnnotations. rewrite Hbg. reflexivity. Qed.

Lemma rects_of_app (l1 l2 : list FabricObject) :
  rects_of (l1 ++ l2) = rects_of l1 ++ rects_of l2.
Proof. apply flat_map_app. Qed.

Lemma labels_of_app (l1 l2 : list FabricObject) :
  labels_of (l1 ++ l2) = labels_of l1 ++ labels_of l2.
Proof. apply flat_map_app. Qed.

Lemma no_overlay_no_rects (l : list FabricObject) :
  existsb is_overlay l = false ->
  rects_of l = [] /\ labels_of l = [] /\ lines_of l = [].
Proof.
  induction l as [|o l IH]; intro H; [auto|].
  simpl in H. apply orb_false_iff in H. destruct H as [Ho H].
  destruct (IH H) as (R & B & N).
  destruct o; try discriminate Ho; simpl; auto.
Qed.

Lemma connections_no_rects (ls : list LineObj) :
  rects_of (map ObjConnection ls) = []
  /\ labels_of (map ObjConnection ls) = [].
Proof. induction ls as [|a l IH]; [auto|]. simpl. exact IH. Qed.

Lemma annotationObjects_rects (bgImage : ImageObj) (sel : option Annotation)
      (tool : Tool) (anns : list Annotation) :
  rects_of (annotationObjects bgImage sel tool anns)
  = map (annotationRect bgImage sel tool) anns
  /\ labels_of (annotationObjects bgImage sel tool anns)
     = map (annotationLabel bgImage) anns.
Proof.
  induction anns as [|a l [IH1 IH2]]; [auto|].
  simpl. rewrite IH1, IH2. auto.
Qed.

(** X7.  Rendering is idempotent: a second render with the same
    annotations, connections, selection and tool leaves the canvas exactly
    as the first left it, whatever was on the canvas before. *)
Theorem render_idempotent :
  forall (anns : list Annotation) (conns : list Connection)
         (sel : option Annotation) (tool : Tool) (c : Canvas),
    renderAnnotations anns conns sel tool
                      (renderAnnotations anns conns sel tool c)
    = renderAnnotations anns conns sel tool c.
Proof.
  intros anns conns sel tool c.
  destruct (find_backgroundImage (objects c)) as [bg|] eqn:Hbg.
  - rewrite (render_objects anns conns sel tool c bg Hbg).
    set (L := map ObjConnection (rev (drawnLines bg anns conns))).
    set (X := fabric.remove_first is_backgroundImage
                                  (kept_objects (objects c))).
    set (A := annotationObjects bg sel tool anns).
    rewrite (render_objects anns conns sel tool _ bg) by reflexivity.
    cbn [viewportTransform objects]. fold L A.
    assert (HX : existsb is_overlay X = false)
      by (apply remove_first_no_overlay, kept_objects_no_overlay).
    assert (E : kept_objects (ObjBackgroundImage bg :: L ++ X ++ A)
                = ObjBackgroundImage bg :: X).
    { change (ObjBackgroundImage bg :: L ++ X ++ A)
        with ([ObjBackgroundImage bg] ++ L ++ X ++ A).
      rewrite !kept_objects_app.
      rewrite (kept_objects_overlays L) by apply connections_overlays.
      rewrite (kept_objects_overlays A) by apply annotationObjects_overlays.
      rewrite (kept_objects_fixed X HX), app_nil_r. reflexivity. }
    rewrite E. reflexivity.
  - rewrite (render_without_background anns conns sel tool c Hbg).
    rewrite render_without_background
      by (cbn [objects]; rewrite find_backgroundImage_kept; exact Hbg).
    cbn [viewportTransform objects].
    rewrite (kept_objects_fixed _ (kept_objects_no_overlay (objects c))).
    reflexivity.
Qed.

Lemma render_rects_with_background (anns : list Annotation)
      (conns : list Connection) (sel : option Annotation) (tool : Tool)
      (c : Canvas) (bg : ImageObj) :
  find_backgroundImage (objects c) = Some bg ->
  rects_of (objects (renderAnnotations anns conns sel tool c))
  = map (annotationRect bg sel tool) anns
  /\ labels_of (objects (renderAnnotations anns conns sel tool c))
     = map (annotationLabel bg) anns.
Proof.
  intro Hbg.
  rewrite (render_objects anns conns sel tool c bg Hbg).
  cbn [objects].
  set (L := map ObjConnection (rev (drawnLines bg anns conns))).
  set (X := fabric.remove_first is_backgroundImage
                                (kept_objects (objects c))).
  assert (HX : existsb is_overlay X = false)
    by (apply remove_first_no_overlay, kept_objects_no_overlay).
  destruct (no_overlay_no_rects X HX) as (RX & BX & _).
  destruct (connections_no_rects (rev (drawnLines bg anns conns)))
    as (RL & BL).
  destruct (annotationObjects_rects bg sel tool anns) as (RA & BA).
  change (ObjBackgroundImage bg
          :: L ++ X ++ annotationObjects bg sel tool anns)
    with ([ObjBackgroundImage bg]
            ++ L ++ X ++ annotationObjects bg sel tool anns).
  rewrite !rects_of_app, !labels_of_app. fold L in RL, BL.
  rewrite RX, BX, RL, BL, RA, BA. split; reflexivity.
Qed.

(** X8.  On a canvas with a background image, whatever rectangles, labels
    and lines an earlier render left there, a render leaves exactly one
    rectangle and one label per annotation of the list, in the order of the
    list, and none else.  On a canvas without a background image it leaves
    no rectangle, no label and no line, even when there are annotations. *)
Theorem render_draws_each_annotation_once :
  forall (anns : list Annotation) (conns : list Connection)
         (sel : option Annotation) (tool : Tool) (c : Canvas),
    let c' := renderAnnotations anns conns sel tool c in
    (forall bgImage,
        find_backgroundImage (objects c) = Some bgImage ->
        rects_of (objects c') = map (annotationRect bgImage sel tool) anns
        /\ labels_of (objects c') = map (annotationLabel bgImage) anns)
    /\ (find_backgroundImage (objects c) = None ->
        rects_of (objects c') = [] /\ labels_of (objects c') = []
        /\ canvas_lines c' = []).
Proof.
  intros anns conns sel tool c c'. split.
  - intros bg Hbg. apply render_rects_with_background. exact Hbg.
  - intro Hbg. unfold c'.
    rewrite (render_without_background anns conns sel tool c Hbg).
    unfold canvas_lines. cbn [objects].
    apply no_overlay_no_rects, kept_objects_no_overlay.
Qed.

Lemma render_draws_each_annotation_once_witness :
  find_backgroundImage (objects (canvas loadedViewer))
  = Some (fitImage 800 600 1600 1200)
  /\ rects_of (objects (renderAnnotations twoAnnotations twoConnections None
                          ToolSelect
                          (renderAnnotations twoAnnotations [] None ToolLine
                                             (canvas loadedViewer))))
     = map (annotationRect (fitImage 800 600 1600 1200) None ToolSelect)
           twoAnnotations.
Proof.
  assert (Hbg : find_backgroundImage (objects (canvas loadedViewer))
                = Some (fitImage 800 600 1600 1200)) by reflexivity.
  split; [exact Hbg|].
  apply (proj1 (render_draws_each_annotation_once twoAnnotations
                  twoConnections None ToolSelect
                  (renderAnnotations twoAnnotations [] None ToolLine
                                     (canvas loadedViewer)))).
  reflexivity.
Defined.

Lemma count_tempRect_kept (l : list FabricObject) :
  count_tempRect (kept_objects l) = count_tempRect l.
Proof.
  unfold count_tempRect, kept_objects.
  induction l as [|o l IH]; [reflexivity|].
  destruct o; simpl; auto.
Qed.

Lemma count_tempRect_remove_background (l : list FabricObject) :
  count_tempRect (fabric.remove_first is_backgroundImage l) = count_tempRect l.
Proof.
  unfold count_tempRect. induction l as [|o l IH]; [reflexivity|].
  destruct o; simpl; auto.
Qed.

Lemma count_tempRect_overlays (l : list FabricObject) :
  forallb is_overlay l = true -> count_tempRect l = 0%nat.
Proof.
  unfold count_tempRect. induction l as [|o l IH]; intro H; [reflexivity|].
  simpl in H. apply andb_true_iff in H. destruct H as [Ho H].
  destruct o; try discriminate Ho; simpl; auto.
Qed.

(** X9.  A render never changes the viewport transform, the background
    image the conversions read, or the rectangle being drawn: the canvas
    keeps its pan and zoom, the same image is found on it, and it holds as
    many temp rects as before. *)
Theorem render_keeps_transform_and_gesture :
  forall (anns : list Annotation) (conns : list Connection)
         (sel : option Annotation) (tool : Tool) (c : Canvas),
    let c' := renderAnnotations anns conns sel tool c in
    viewportTransform c' = viewportTransform c
    /\ find_backgroundImage (objects c') = find_backgroundImage (objects c)
    /\ count_tempRect (objects c') = count_tempRect (objects c).
Proof.
  intros anns conns sel tool c c'. unfold c'.
  destruct (find_backgroundImage (objects c)) as [bg|] eqn:Hbg.
  - rewrite (render_objects anns conns sel tool c bg Hbg).
    cbn [viewportTransform objects find_backgroundImage].
    split; [reflexivity|]. split; [reflexivity|].
    change (ObjBackgroundImage bg
            :: map ObjConnection (rev (drawnLines bg anns conns))
            ++ fabric.remove_first is_backgroundImage
                 (kept_objects (objects c))
            ++ annotationObjects bg sel tool anns)
      with ([ObjBackgroundImage bg]
            ++ map ObjConnection (rev (drawnLines bg anns conns))
            ++ fabric.remove_first is_backgroundImage
                 (kept_objects (objects c))
            ++ annotationObjects bg sel tool anns).
    rewrite !count_tempRect_app.
    rewrite (count_tempRect_overlays _ (connections_overlays _)).
    rewrite (count_tempRect_overlays _ (annotationObjects_overlays _ _ _ _)).
    rewrite count_tempRect_remove_background, count_tempRect_kept.
    cbn. rewrite Nat.add_0_r. reflexivity.
  - rewrite (render_without_background anns conns sel tool c Hbg).
    cbn [viewportTransform objects].
    rewrite find_backgroundImage_kept, count_tempRect_kept. auto.
Qed.

(* ================================================================== *)
(** ** Loading the page image *)
(* ================================================================== *)

Lemma count_backgroundImage_remove (l : list FabricObject) :
  count_backgroundImage (fabric.remove_first is_backgroundImage l)
  = pred (count_backgroundImage l).
Proof.
  unfold count_backgroundImage. induction l as [|o l IH]; [reflexivity|].
  destruct o; simpl; auto.
Qed.

Lemma rects_of_remove_background (l : list FabricObject) :
  rects_of (fabric.remove_first is_backgroundImage l) = rects_of l.
Proof.
  induction l as [|o l IH]; [reflexivity|].
  destruct o; simpl; try reflexivity; rewrite IH; reflexivity.
Qed.

Lemma zoomStep_objects (st : ViewerState) (ev : ZoomEvent) :
  is_zoom_operation ev = true ->
  objects (canvas (zoomStep st ev)) = objects (canvas st).
Proof. destruct ev; try discriminate; intros _; reflexivity. Qed.

Lemma onImageLoaded_objects (cw ch w h : num) (st : ViewerState) :
  truthy w = true ->
  canvas (onImageLoaded cw ch w h st)
  = mkCanvas (viewportTransform (canvas st))
             (ObjBackgroundImage (fitImage cw ch w h)
              :: fabric.remove_first is_backgroundImage (objects (canvas st))).
Proof. intro Hw. unfold onImageLoaded. rewrite Hw. reflexivity. Qed.

(** X10.  The canvas never holds two background images: through any run of
    image loads and zoom operations from the initial state there is at most
    one.  A load whose image has width 0 (or NaN) is ignored; any other load
    puts its fitted image at the back in place of the previous one and
    leaves the viewport transform and every other object, stale annotation
    rectangles included, as they were. *)
Theorem image_load_keeps_one_background :
  (forall evs : list ZoomEvent,
      (count_backgroundImage (objects (canvas (runZoom initialViewer evs)))
       <= 1)%nat)
  /\ (forall (cw ch w h : num) (st : ViewerState),
         (truthy w = false -> onImageLoaded cw ch w h st = st)
         /\ (truthy w = true ->
             let st' := onImageLoaded cw ch w h st in
             find_backgroundImage (objects (canvas st'))
             = Some (fitImage cw ch w h)
             /\ viewportTransform (canvas st') = viewportTransform (canvas st)
             /\ kept_objects (objects (canvas st'))
                = ObjBackgroundImage (fitImage cw ch w h)
                  :: fabric.remove_first is_backgroundImage
                       (kept_objects (objects (canvas st)))
             /\ rects_of (objects (canvas st'))
                = rects_of (objects (canvas st)))).
Proof.
  split.
  - assert (G : forall evs st,
               (count_backgroundImage (objects (canvas st)) <= 1)%nat ->
               (count_backgroundImage
                  (objects (canvas (runZoom st evs))) <= 1)%nat).
    { induction evs as [|ev evs IH]; intros st H; [exact H|].
      unfold runZoom. cbn [fold_left]. apply IH.
      destruct (is_zoom_operation ev) eqn:Hop.
      - rewrite zoomStep_objects by exact Hop. exact H.
      - destruct ev; try discriminate Hop. cbn [zoomStep].
        destruct (truthy w) eqn:Hw.
        + rewrite (onImageLoaded_objects _ _ _ _ _ Hw). cbn [objects].
          unfold count_backgroundImage in *. cbn [filter is_backgroundImage].
          cbn [List.length].
          fold (count_backgroundImage
                  (fabric.remove_first is_backgroundImage
                     (objects (canvas st)))).
          rewrite count_backgroundImage_remove.
          unfold count_backgroundImage. lia.
        + unfold onImageLoaded. rewrite Hw. exact H. }
    intro evs. apply G. cbn. lia.
  - intros cw ch w h st. split.
    + intro Hw. unfold onImageLoaded. rewrite Hw. reflexivity.
    + intros Hw st'. unfold st'.
      rewrite (onImageLoaded_objects _ _ _ _ _ Hw).
      cbn [objects viewportTransform find_backgroundImage].
      repeat split.
      * unfold kept_objects. cbn [filter is_overlay negb]. f_equal.
        induction (objects (canvas st)) as [|o l IH]; [reflexivity|].
        destruct o; simpl; try reflexivity; rewrite IH; reflexivity.
      * cbn [rects_of flat_map app].
        apply rects_of_remove_background.
Qed.

Lemma image_load_keeps_one_background_witness :
  truthy 1600 = true
  /\ find_backgroundImage
       (objects (canvas (onImageLoaded 800 600 1600 1200 largePageViewer)))
     = Some (fitImage 800 600 1600 1200)
  /\ le (count_backgroundImage
           (objects (canvas (runZoom initialViewer
                               [EvImageLoaded 800 600 16000 12000; EvZoomIn;
                                EvImageLoaded 800 600 1600 1200]))))
        1.
Proof.
  assert (Hw : truthy 1600 = true) by reflexivity.
  split; [exact Hw|]. split.
  - exact (proj1 (proj2 (proj2 image_load_keeps_one_background
                           800 600 1600 1200 largePageViewer) Hw)).
  - apply (proj1 image_load_keeps_one_background).
Defined.

(** X11.  The render and the arrival of the page image do not commute.  If
    the annotations are rendered while the canvas has no background image
    and the image loads afterwards, the canvas shows the image and no
    annotation rectangle: loading does not render again.  In the other
    order every annotation is drawn, with the transform of the loaded
    image. *)
Theorem render_before_image_shows_nothing :
  forall (anns : list Annotation) (conns : list Connection)
         (sel : option Annotation) (tool : Tool)
         (cw ch w h : num) (st : ViewerState),
    find_backgroundImage (objects (canvas st)) = None ->
    truthy w = true ->
    let early := onImageLoaded cw ch w h (renderEffect anns conns sel tool st) in
    let late := renderEffect anns conns sel tool (onImageLoaded cw ch w h st) in
    rects_of (objects (canvas early)) = []
    /\ canvas_lines (canvas early) = []
    /\ find_backgroundImage (objects (canvas early))
       = Some (fitImage cw ch w h)
    /\ rects_of (objects (canvas late))
       = map (annotationRect (fitImage cw ch w h) sel tool) anns.
Proof.
  intros anns conns sel tool cw ch w h st Hbg Hw early late.
  assert (Hr : canvas (renderEffect anns conns sel tool st)
               = mkCanvas (viewportTransform (canvas st))
                          (kept_objects (objects (canvas st))))
    by (apply render_without_background; exact Hbg).
  assert (Hk : existsb is_overlay (kept_objects (objects (canvas st))) = false)
    by apply kept_objects_no_overlay.
  assert (Hx : existsb is_overlay
                 (fabric.remove_first is_backgroundImage
                    (kept_objects (objects (canvas st)))) = false)
    by (apply remove_first_no_overlay; exact Hk).
  destruct (no_overlay_no_rects _ Hx) as (R & _ & N).
  unfold early. rewrite (onImageLoaded_objects _ _ _ _ _ Hw), Hr.
  unfold canvas_lines. cbn [objects viewportTransform].
  split; [exact R|]. split; [exact N|]. split; [reflexivity|].
  unfold late, renderEffect. cbn [canvas].
  apply (render_rects_with_background anns conns sel tool).
  rewrite (onImageLoaded_objects _ _ _ _ _ Hw). reflexivity.
Qed.

Lemma render_before_image_shows_nothing_witness :
  find_backgroundImage (objects (canvas initialViewer)) = None
  /\ truthy 1600 = true
  /\ rects_of (objects (canvas
       (onImageLoaded 800 600 1600 1200
          (renderEffect twoAnnotations twoConnections None ToolSelect
                        initialViewer)))) = []
  /\ rects_of (objects (canvas
       (renderEffect twoAnnotations twoConnections None ToolSelect
          (onImageLoaded 800 600 1600 1200 initialViewer))))
     = map (annotationRect (fitImage 800 600 1600 1200) None ToolSelect)
           twoAnnotations.
Proof.
  assert (Hbg : find_backgroundImage (objects (canvas initialViewer)) = None)
    by reflexivity.
  assert (Hw : truthy 1600 = true) by reflexivity.
  split; [exact Hbg|]. split; [exact Hw|].
  destruct (render_before_image_shows_nothing twoAnnotations twoConnections
              None ToolSelect 800 600 1600 1200 initialViewer Hbg Hw)
    as (H1 & _ & _ & H4).
  split; assumption.
Defined.

(* ================================================================== *)
(** ** C1: the coordinate transforms *)
(* ================================================================== *)

Lemma abs_bounds (a : Q) : (- Qabs a <= a <= Qabs a)%Q.
Proof. apply Qabs_Qle_condition. apply Qle_refl. Qed.

Lemma mul_le_mono (u a b : Q) : (0 <= u -> a <= b -> u * a <= u * b)%Q.
Proof.
  intros Hu Hab. rewrite (Qmult_comm u a), (Qmult_comm u b).
  apply Qmult_le_compat_r; assumption.
Qed.

Lemma Qabs_scale (a s : Q) : (0 < s -> Qabs (a * s) == Qabs a * s)%Q.
Proof.
  intro Hs. rewrite Qabs_Qmult. rewrite (Qabs_pos s) by lra. reflexivity.
Qed.

(** A relative error on a quotient by [s > 0] is the same relative error
    once both sides are multiplied by [s]. *)
Lemma rounds_quotient (u s d x : Q) :
  (0 < s)%Q -> rounds u (d / s)%Q x -> (Qabs (x * s - d) <= u * Qabs d)%Q.
Proof.
  unfold rounds. intros Hs H.
  assert (E : (x * s - d == (x - d / s) * s)%Q) by (field; lra).
  rewrite E, Qabs_scale by exact Hs.
  assert (E' : (u * Qabs d == u * Qabs (d / s) * s)%Q).
  { assert (K : (d == d / s * s)%Q) by (field; lra).
    rewrite K at 1. rewrite Qabs_scale by exact Hs. ring. }
  rewrite E'. apply Qmult_le_compat_r; [exact H|lra].
Qed.

Lemma abs_unscale (t s B : Q) :
  (0 < s)%Q -> (Qabs (t * s) <= B * s)%Q -> (Qabs t <= B)%Q.
Proof.
  intros Hs H. rewrite Qabs_scale in H by exact Hs.
  apply (Qmult_le_r _ _ s Hs). exact H.
Qed.

Lemma rounds_exact (e r : Q) : rounds 0 e r <-> (r == e)%Q.
Proof.
  unfold rounds. split; intro H.
  - assert (K : (Qabs (r - e) <= 0)%Q) by lra.
    apply Qabs_Qle_condition in K. lra.
  - assert (K : (r - e == 0)%Q) by lra. rewrite K. simpl. lra.
Qed.

(** The error of [toPage] after [toView] in rounded arithmetic. *)
Lemma round_trip_error (u s o p v p' : Q) :
  (0 <= u <= 1 # 4)%Q -> (0 < s)%Q ->
  toView_rounded u s o p v -> toPage_rounded u s o v p' ->
  (Qabs (p' - p) <= u * (6 * Qabs p + 2 * Qabs o / s))%Q.
Proof.
  unfold toView_rounded, toPage_rounded.
  intros [Hu0 Hu1] Hs (m & H1 & H2) (d & H3 & H4).
  apply (rounds_quotient _ _ _ _ Hs) in H4.
  unfold rounds in H1, H2, H3.
  set (P := Qabs (p * s)) in *.
  set (O := Qabs o).
  assert (HP : (0 <= P)%Q) by apply Qabs_nonneg.
  assert (HO : (0 <= O)%Q) by apply Qabs_nonneg.
  pose proof (abs_bounds (p * s)) as Bp. fold P in Bp.
  pose proof (abs_bounds o) as Bo. fold O in Bo.
  assert (S : forall X, (0 <= X -> 0 <= u * X <= (1 # 4) * X)%Q).
  { intros X HX. split; [apply Qmult_le_0_compat; assumption|].
    apply Qmult_le_compat_r; assumption. }
  destruct (S P HP) as [P0 P1].
  destruct (S O HO) as [O0 O1].
  apply Qabs_Qle_condition in H1.
  (* the sum [o + m] *)
  assert (A2 : (Qabs (o + m) <= O + (5 # 4) * P)%Q)
    by (apply Qabs_Qle_condition; lra).
  assert (B2 : (u * Qabs (o + m) <= u * (O + (5 # 4) * P))%Q)
    by (apply mul_le_mono; assumption).
  assert (C2 : (u * (O + (5 # 4) * P) <= (1 # 4) * (O + (5 # 4) * P))%Q)
    by (apply S; lra).
  assert (H2' : (Qabs (v - (o + m)) <= u * (O + (5 # 4) * P))%Q) by lra.
  apply Qabs_Qle_condition in H2'.
  (* the difference [v - o] *)
  assert (A3 : (Qabs (v - o) <= (25 # 16) * P + (1 # 4) * O)%Q)
    by (apply Qabs_Qle_condition; lra).
  assert (B3 : (u * Qabs (v - o) <= u * ((25 # 16) * P + (1 # 4) * O))%Q)
    by (apply mul_le_mono; assumption).
  assert (C3 : (u * ((25 # 16) * P + (1 # 4) * O)
                <= (1 # 4) * ((25 # 16) * P + (1 # 4) * O))%Q)
    by (apply S; lra).
  assert (H3' : (Qabs (d - (v - o))
                 <= u * ((25 # 16) * P + (1 # 4) * O))%Q) by lra.
  apply Qabs_Qle_condition in H3'.
  (* the quotient [d / s] *)
  assert (A4 : (Qabs d <= (125 # 64) * P + (5 # 16) * O)%Q)
    by (apply Qabs_Qle_condition; lra).
  assert (B4 : (u * Qabs d <= u * ((125 # 64) * P + (5 # 16) * O))%Q)
    by (apply mul_le_mono; assumption).
  assert (H4' : (Qabs (p' * s - d)
                 <= u * ((125 # 64) * P + (5 # 16) * O))%Q) by lra.
  apply Qabs_Qle_condition in H4'.
  (* together *)
  apply (abs_unscale _ s _ Hs).
  assert (EP : (P == Qabs p * s)%Q) by (apply Qabs_scale; exact Hs).
  assert (EB : (u * (6 * Qabs p + 2 * O / s) * s
                == u * (6 * (Qabs p * s) + 2 * O))%Q)
    by (field; lra).
  rewrite EB, <- EP.
  apply Qabs_Qle_condition. lra.
Qed.

(** The error of a size through [w * s] and [W / s] in rounded arithmetic. *)
Lemma size_round_trip_error (u s w W w' : Q) :
  (0 <= u <= 1 # 4)%Q -> (0 < s)%Q ->
  rounds u (w * s)%Q W -> rounds u (W / s)%Q w' ->
  (Qabs (w' - w) <= u * (3 * Qabs w))%Q.
Proof.
  intros [Hu0 Hu1] Hs H1 H2.
  apply (rounds_quotient _ _ _ _ Hs) in H2. unfold rounds in H1.
  set (P := Qabs (w * s)) in *.
  assert (HP : (0 <= P)%Q) by apply Qabs_nonneg.
  pose proof (abs_bounds (w * s)) as Bp. fold P in Bp.
  assert (P1 : (0 <= u * P <= (1 # 4) * P)%Q).
  { split; [apply Qmult_le_0_compat; assumption|].
    apply Qmult_le_compat_r; assumption. }
  apply Qabs_Qle_condition in H1.
  assert (A2 : (Qabs W <= (5 # 4) * P)%Q)
    by (apply Qabs_Qle_condition; lra).
  assert (B2 : (u * Qabs W <= u * ((5 # 4) * P))%Q)
    by (apply mul_le_mono; assumption).
  assert (H2' : (Qabs (w' * s - W) <= u * ((5 # 4) * P))%Q) by lra.
  apply Qabs_Qle_condition in H2'.
  apply (abs_unscale _ s _ Hs).
  assert (EP : (P == Qabs w * s)%Q) by (apply Qabs_scale; exact Hs).
  assert (EB : (u * (3 * Qabs w) * s == u * (3 * (Qabs w * s)))%Q) by ring.
  rewrite EB, <- EP.
  apply Qabs_Qle_condition. lra.
Qed.

(** The nearest integer is within a half of the number. *)
Lemma nearest_even_close (y : Q) :
  (Qabs (inject_Z (nearest_even y) - y) <= 1 # 2)%Q.
Proof.
  unfold nearest_even.
  pose proof (Qfloor_le y) as Hlo. pose proof (Qlt_floor y) as Hhi.
  rewrite inject_Z_plus in Hhi. change (inject_Z 1) with 1%Q in Hhi.
  assert (Hone : forall k : Z, (inject_Z (k + 1) == inject_Z k + 1)%Q)
    by (intro k; rewrite inject_Z_plus; reflexivity).
  destruct (Qcompare (y - inject_Z (Qfloor y)) (1 # 2)) eqn:E.
  - apply Qeq_alt in E.
    destruct (Z.even (Qfloor y)); [|rewrite Hone];
      revert Hlo Hhi E; generalize (inject_Z (Qfloor y)); intros K Hlo Hhi E;
      apply Qabs_Qle_condition; split;
      change (- (1 # 2))%Q with (- 1 # 2)%Q; lra.
  - apply Qlt_alt in E.
    revert Hlo Hhi E; generalize (inject_Z (Qfloor y)); intros K Hlo Hhi E.
    apply Qabs_Qle_condition; split;
      change (- (1 # 2))%Q with (- 1 # 2)%Q; lra.
  - apply Qgt_alt in E. rewrite Hone.
    revert Hlo Hhi E; generalize (inject_Z (Qfloor y)); intros K Hlo Hhi E.
    apply Qabs_Qle_condition; split;
      change (- (1 # 2))%Q with (- 1 # 2)%Q; lra.
Qed.

Lemma pow2_pos (e : Z) : (0 < 2 ^ e)%Q.
Proof. apply Qpower_0_lt. reflexivity. Qed.

Lemma pow2_Z (n : Z) : (0 <= n)%Z -> (inject_Z (2 ^ n) == 2 ^ n)%Q.
Proof. intro H. rewrite (Zpower_Qpower 2 n H). reflexivity. Qed.

(** The significand that [ulp_exponent] leaves has at least 53 bits. *)
Lemma significand_lower (x : Q) :
  ~ (x == 0)%Q -> (2 ^ 52 <= Qabs x / 2 ^ ulp_exponent x)%Q.
Proof.
  intro Hx. unfold ulp_exponent.
  set (n := Z.abs (Qnum x)). set (d := Zpos (Qden x)).
  set (e0 := (Z.log2 n - Z.log2 d - 52)%Z).
  destruct (Qle_bool (2 ^ 52) (Qabs x / 2 ^ e0)) eqn:T.
  - apply Qle_bool_iff. exact T.
  - assert (Hn : (0 < n)%Z).
    { unfold n. destruct x as [a b]. cbn [Qnum].
      assert (a <> 0)%Z; [|lia].
      intro Ha. apply Hx. subst a. reflexivity. }
    assert (Hd : (0 < d)%Z) by (unfold d; lia).
    destruct (Z.log2_spec n Hn) as [Ln _].
    destruct (Z.log2_spec d Hd) as [_ Ld].
    pose proof (Z.log2_nonneg n) as Pn. pose proof (Z.log2_nonneg d) as Pd.
    assert (EA : (inject_Z (2 ^ Z.log2 n) == 2 ^ Z.log2 n)%Q)
      by (apply pow2_Z; exact Pn).
    assert (EB : (inject_Z (2 ^ Z.succ (Z.log2 d)) == 2 * 2 ^ Z.log2 d)%Q).
    { rewrite pow2_Z by lia. unfold Z.succ.
      rewrite Qpower_plus by (intro K; discriminate K).
      rewrite Qpower_1_r. ring. }
    assert (LA : (2 ^ Z.log2 n <= inject_Z n)%Q)
      by (rewrite <- EA; rewrite <- Zle_Qle; exact Ln).
    assert (LB : (inject_Z d <= 2 * 2 ^ Z.log2 d)%Q).
    { rewrite <- EB. rewrite <- Zle_Qle. lia. }
    assert (Ex : (Qabs x == inject_Z n / inject_Z d)%Q).
    { unfold n, d. destruct x as [a b]. cbn [Qnum Qden Qabs].
      apply Qmake_Qdiv. }
    assert (Ee : (2 ^ (e0 - 1)
                  == 2 ^ Z.log2 n / (2 ^ Z.log2 d * 2 ^ 53))%Q).
    { replace (e0 - 1)%Z with (Z.log2 n - (Z.log2 d + 53))%Z
        by (unfold e0; lia).
      rewrite Qpower_minus by (intro K; discriminate K).
      rewrite Qpower_plus by (intro K; discriminate K). reflexivity. }
    pose proof (pow2_pos (Z.log2 n)) as PA.
    pose proof (pow2_pos (Z.log2 d)) as PB.
    assert (PD : (0 < inject_Z d)%Q) by (rewrite Zlt_Qlt in Hd; exact Hd).
    assert (PN : (0 < inject_Z n)%Q) by (rewrite Zlt_Qlt in Hn; exact Hn).
    rewrite Ex, Ee.
    set (A := (2 ^ Z.log2 n)%Q) in *. set (B := (2 ^ Z.log2 d)%Q) in *.
    set (N := inject_Z n) in *. set (D := inject_Z d) in *.
    assert (E53 : (2 ^ 53 == 2 * 2 ^ 52)%Q) by reflexivity.
    rewrite E53.
    assert (P52 : (0 < 2 ^ 52)%Q) by apply pow2_pos.
    set (K := (2 ^ 52)%Q) in *.
    assert (G : (N / D / (A / (B * (2 * K)))
                 == K * ((2 * B * N) / (D * A)))%Q)
      by (field; repeat split; lra).
    rewrite G.
    assert (M : (D * A <= 2 * B * N)%Q).
    { apply Qle_trans with (2 * B * A)%Q.
      - apply Qmult_le_compat_r; lra.
      - rewrite (Qmult_comm (2 * B) A), (Qmult_comm (2 * B) N).
        apply Qmult_le_compat_r; lra. }
    assert (PDA : (0 < D * A)%Q) by (apply Qmult_lt_0_compat; assumption).
    assert (R : (1 <= 2 * B * N / (D * A))%Q).
    { apply Qle_shift_div_l; [exact PDA|]. lra. }
    rewrite <- (Qmult_1_r K) at 1.
    rewrite (Qmult_comm K 1), (Qmult_comm K (2 * B * N / (D * A))).
    apply Qmult_le_compat_r; lra.
Qed.

(** Binary64 rounding is within the unit roundoff of the exact result. *)
Lemma round64_rounds (x : Q) : rounds unit_roundoff x (round64 x).
Proof.
  unfold rounds, round64.
  destruct (Qeq_bool x 0) eqn:Z0.
  - apply Qeq_bool_iff in Z0. rewrite Z0. simpl. lra.
  - apply Qeq_bool_neq in Z0.
    pose proof (significand_lower x Z0) as HS.
    set (e := ulp_exponent x) in *.
    pose proof (pow2_pos e) as PE.
    set (E := (2 ^ e)%Q) in *.
    pose proof (nearest_even_close (Qabs x / E)) as HN.
    set (k := inject_Z (nearest_even (Qabs x / E))) in *.
    set (sg := if Qle_bool 0 x then 1%Q else (- (1))%Q).
    assert (Hsg : (Qabs x == sg * x)%Q /\ (sg == 1 \/ sg == - (1))%Q).
    { unfold sg. destruct (Qle_bool 0 x) eqn:S.
      - apply Qle_bool_iff in S. rewrite Qabs_pos by exact S.
        split; [ring|left; reflexivity].
      - assert (x < 0)%Q.
        { apply Qnot_le_lt. intro L. apply Qle_bool_iff in L. congruence. }
        rewrite Qabs_neg by lra. split; [ring|right; reflexivity]. }
    destruct Hsg as [Hab Hs1].
    assert (Hdiff : (sg * k * E - x == sg * ((k - Qabs x / E) * E))%Q).
    { assert (H : (x == sg * Qabs x)%Q).
      { rewrite Hab. destruct Hs1 as [-> | ->]; ring. }
      rewrite H at 1. field. lra. }
    rewrite Hdiff.
    assert (Habs : (Qabs (sg * ((k - Qabs x / E) * E))
                    == Qabs (k - Qabs x / E) * E)%Q).
    { rewrite Qabs_Qmult.
      assert (H : (Qabs sg == 1)%Q)
        by (destruct Hs1 as [-> | ->]; reflexivity).
      rewrite H, Qmult_1_l, Qabs_Qmult, (Qabs_pos E) by lra. reflexivity. }
    rewrite Habs.
    assert (K52 : (2 ^ 52 == 4503599627370496)%Q) by reflexivity.
    rewrite K52 in HS.
    assert (Hy : (4503599627370496 * E <= Qabs x)%Q).
    { apply (Qmult_le_r _ _ (/ E)); [apply Qinv_lt_0_compat; exact PE|].
      assert (G : (4503599627370496 * E * / E == 4503599627370496)%Q)
        by (field; lra).
      rewrite G. exact HS. }
    assert (L : (Qabs (k - Qabs x / E) * E <= (1 # 2) * E)%Q)
      by (apply Qmult_le_compat_r; lra).
    unfold unit_roundoff.
    assert (U : ((1 # 2) * E
                 == (1 # 9007199254740992) * (4503599627370496 * E))%Q)
      by ring.
    eapply Qle_trans; [exact L|]. rewrite U.
    rewrite (Qmult_comm _ (4503599627370496 * E)),
            (Qmult_comm _ (Qabs x)).
    apply Qmult_le_compat_r; [exact Hy|]. discriminate.
Qed.

Lemma toView64_rounded (s o p : Q) :
  toView_rounded unit_roundoff s o p (toView64 s o p).
Proof.
  exists (round64 (p * s)). split; apply round64_rounds.
Qed.

Lemma toPage64_rounded (s o v : Q) :
  toPage_rounded unit_roundoff s o v (toPage64 s o v).
Proof.
  exists (round64 (v - o)). split; apply round64_rounds.
Qed.

Lemma unit_roundoff_small : (0 <= unit_roundoff <= 1 # 4)%Q.
Proof. split; apply Qle_bool_imp_le; vm_compute; reflexivity. Qed.

(** C1.  The render draws, for each annotation of the list, one rectangle
    whose corner is [toView] of the annotation's corner under the transform
    of the background image (and no rectangle when the canvas has no
    image); and the release of a draw gesture calls [onAnnotationCreate],
    when it does, with the box whose corner is [toPage] of the drawn
    rectangle's corner under the same transform, and with nothing else.  As
    maps of exact numbers [toPage] undoes [toView] for every scale [s > 0].
    In rounded arithmetic, where each of the four operations returns its
    exact result within a relative error [u] (for binary64 the unit roundoff
    [2^-53]), a coordinate [p] comes back from [toView] and then [toPage]
    within [u * (6 |p| + 2 |o| / s)] of itself, [o] being the offset, and a
    size [w] within [3 u |w|]; with [u = 0] the rounded evaluations are the
    two formulas themselves.  The two formulas as binary64 evaluates them,
    [toView64] and [toPage64], are such rounded evaluations with
    [u = 2^-53], so they obey the bound for every scale [s > 0]; they do not
    return every coordinate itself: under the binary64 scale nearest 0.45
    and the offset 40, the binary64 number nearest 100.3 is shown at
    85.13499999999999 and comes back as 100.29999999999998. *)
Theorem transforms_are_inverse :
  (forall (anns : list Annotation) (conns : list Connection)
          (sel : option Annotation) (tool : Tool) (c : Canvas)
          (bgImage : ImageObj),
      find_backgroundImage (objects c) = Some bgImage ->
      rects_of (objects (renderAnnotations anns conns sel tool c))
      = map (annotationRect bgImage sel tool) anns
      /\ forall ann,
          let rect := ar_geom (annotationRect bgImage sel tool ann) in
          mkPoint (rect_left rect) (rect_top rect)
          = Spec.toView (imageTransform bgImage)
                        (mkPoint (ann_x ann) (ann_y ann)))
  /\ (forall (anns : list Annotation) (conns : list Connection)
             (sel : option Annotation) (tool : Tool) (c : Canvas),
         find_backgroundImage (objects c) = None ->
         rects_of (objects (renderAnnotations anns conns sel tool c)) = [])
  /\ (forall (st : ViewerState) (b : Box),
         In (OnAnnotationCreate b) (snd (handleMouseUp st)) ->
         exists bgImage r,
           find_backgroundImage (objects (canvas st)) = Some bgImage
           /\ tempRect st = Some r /\ b = imageCoords bgImage r)
  /\ (forall (st : ViewerState) (bgImage : ImageObj) (r : RectObj)
             (start : Point),
         panning st = false -> isDrawing st = true ->
         tempRect st = Some r -> drawStart st = Some start ->
         find_backgroundImage (objects (canvas st)) = Some bgImage ->
         let b := imageCoords bgImage r in
         snd (handleMouseUp st)
         = (if (box_width b >? 10) && (box_height b >? 10)
            then [OnAnnotationCreate b] else [])
         /\ mkPoint (box_x b) (box_y b)
            = Spec.toPage (imageTransform bgImage)
                          (mkPoint (rect_left r) (rect_top r)))
  /\ (forall px py s ox oy : Q,
         (0 < s)%Q ->
         let t := Spec.mkTransform s ox oy in
         point_eqv (Spec.toPage t (Spec.toView t (mkPoint px py)))
                   (mkPoint px py))
  /\ (forall u s o p v p' : Q,
         (0 <= u <= 1 # 4)%Q -> (0 < s)%Q ->
         toView_rounded u s o p v -> toPage_rounded u s o v p' ->
         (Qabs (p' - p) <= u * (6 * Qabs p + 2 * Qabs o / s))%Q)
  /\ (forall u s w W w' : Q,
         (0 <= u <= 1 # 4)%Q -> (0 < s)%Q ->
         rounds u (w * s)%Q W -> rounds u (W / s)%Q w' ->
         (Qabs (w' - w) <= u * (3 * Qabs w))%Q)
  /\ (forall s ox oy px py vx vy : Q,
         toView_rounded 0 s ox px vx -> toView_rounded 0 s oy py vy ->
         point_eqv (Spec.toView (Spec.mkTransform s ox oy) (mkPoint px py))
                   (mkPoint vx vy))
  /\ (forall s ox oy vx vy px py : Q,
         (0 < s)%Q ->
         toPage_rounded 0 s ox vx px -> toPage_rounded 0 s oy vy py ->
         point_eqv (Spec.toPage (Spec.mkTransform s ox oy) (mkPoint vx vy))
                   (mkPoint px py))
  /\ (forall s o p : Q,
         toView_rounded unit_roundoff s o p (toView64 s o p)
         /\ toPage_rounded unit_roundoff s o p (toPage64 s o p))
  /\ (forall s o p : Q,
         (0 < s)%Q ->
         (Qabs (toPage64 s o (toView64 s o p) - p)
          <= unit_roundoff * (6 * Qabs p + 2 * Qabs o / s))%Q)
  /\ (let s := (8106479329266893 # 18014398509481984)%Q in
      let p := (7057985041019699 # 70368744177664)%Q in
      (toView64 s 40 p == 374427689722839 # 4398046511104)%Q
      /\ (toPage64 s 40 (toView64 s 40 p)
          == 3528992520509849 # 35184372088832)%Q
      /\ ~ (toPage64 s 40 (toView64 s 40 p) == p)%Q).
Proof.
  split; [|split; [|split; [|split; [|split; [|split; [|split; [|split;
    [|split; [|split; [|split]]]]]]]]]].
  - intros anns conns sel tool c bgImage Hbg. split.
    + apply (render_rects_with_background anns conns sel tool c bgImage Hbg).
    + intros ann rect. reflexivity.
  - intros anns conns sel tool c Hbg. unfold renderAnnotations. rewrite Hbg.
    cbn [objects]. apply rects_of_cleared.
  - intros st b Hin.
    destruct (handleMouseUp_emits st b Hin)
      as (bg & r & Hbg & Hr & _ & _ & Hb & _).
    exists bg, r. auto.
  - intros st bgImage r start Hp Hd Hr Hs Hbg b. split.
    + apply (handleMouseUp_calls st bgImage r start Hp Hd Hr Hs Hbg).
    + reflexivity.
  - intros px py s ox oy Hs t.
    unfold point_eqv, Spec.toPage, Spec.toView, t.
    split; fin_arith; field; lra.
  - exact round_trip_error.
  - exact size_round_trip_error.
  - intros s ox oy px py vx vy (m & H1 & H2) (n & H3 & H4).
    apply rounds_exact in H1, H2, H3, H4.
    unfold point_eqv, Spec.toView. fin_arith.
    split; [rewrite H2, H1|rewrite H4, H3]; ring.
  - intros s ox oy vx vy px py Hs (m & H1 & H2) (n & H3 & H4).
    apply rounds_exact in H1, H2, H3, H4.
    unfold point_eqv, Spec.toPage. fin_arith.
    split; [rewrite H2, H1|rewrite H4, H3]; field; lra.
  - intros s o p. split; [apply toView64_rounded|apply toPage64_rounded].
  - intros s o p Hs.
    apply (round_trip_error unit_roundoff s o p (toView64 s o p));
      [exact unit_roundoff_small|exact Hs|apply toView64_rounded
      |apply toPage64_rounded].
  - cbv zeta. split; [|split].
    + vm_compute. reflexivity.
    + vm_compute. reflexivity.
    + intro K. vm_compute in K. discriminate K.
Qed.

(** The round trip of the binary64 number nearest 100.3 under the binary64
    scale nearest 0.45 and the offset 40, each step rounded as binary64
    rounds it: the view coordinate is 85.13499999999999 and the page
    coordinate that comes back is 100.29999999999998. *)
Lemma transforms_are_inverse_witness :
  let u := unit_roundoff in
  let s := 8106479329266893 # 18014398509481984 in
  let p := 7057985041019699 # 70368744177664 in
  let v := 374427689722839 # 4398046511104 in
  let p' := 3528992520509849 # 35184372088832 in
  (0 <= u <= 1 # 4)%Q /\ (0 < s)%Q
  /\ toView_rounded u s 40 p v /\ toPage_rounded u s 40 v p'
  /\ ~ (p' == p)%Q
  /\ (Qabs (p' - p) <= u * (6 * Qabs p + 2 * Qabs 40 / s))%Q.
Proof.
  intros u s p v p'.
  assert (Hu : (0 <= u <= 1 # 4)%Q)
    by (split; apply Qle_bool_imp_le; vm_compute; reflexivity).
  assert (Hs : (0 < s)%Q) by reflexivity.
  assert (Hv : toView_rounded u s 40 p v).
  { exists (6352186536917729 # 140737488355328).
    split; apply Qle_bool_imp_le; vm_compute; reflexivity. }
  assert (Hp : toPage_rounded u s 40 v p').
  { exists (198505829278679 # 4398046511104).
    split; apply Qle_bool_imp_le; vm_compute; reflexivity. }
  repeat (split; [assumption|]).
  split; [intro K; vm_compute in K; discriminate K|].
  exact (proj1 (proj2 (proj2 (proj2 (proj2 (proj2 transforms_are_inverse)))))
           u s 40 p v p' Hu Hs Hv Hp).
Defined.

(* ================================================================== *)
(** ** C7: malformed gestures *)
(* ================================================================== *)

Lemma constrainScale_nonzero (v : num) (s : Q) :
  fabric.constrainScale v = Fin s ->
  ~ (s == 0)%Q /\ exists f : Q, v = Fin f.
Proof.
  rewrite constrainScale_value.
  destruct v as [q| | |]; simpl; try discriminate.
  destruct (Qeq_bool q 0) eqn:E; intro H; inversion H; subst s.
  - split; [intro K; discriminate K|eauto].
  - split; [apply Qeq_bool_neq; exact E|eauto].
Qed.

Lemma add_NaN_r (a : num) : a + NaN = NaN.
Proof. destruct a; reflexivity. Qed.

(** The factor [a = 1 / (z * z - 0 * 0)] of [invertTransform] is finite for
    a finite nonzero zoom; for any other zoom the entry [a * z] of the
    inverse is [NaN]. *)
Lemma invertTransform_entry (z : num) :
  let a := 1 / (z * z - Fin 0 * Fin 0) in
  (exists qa qz : Q, a = Fin qa /\ z = Fin qz) \/ a * z = NaN.
Proof.
  destruct z as [q| | |]; cbn [mul sub add neg]; try (right; reflexivity).
  unfold div. destruct (Qeq_bool (q * q + - (0 * 0)) 0) eqn:E.
  - right. apply Qeq_bool_iff in E.
    assert (H : (q * q == 0)%Q) by lra.
    assert (Hq : (q == 0)%Q) by (destruct (Qmult_integral _ _ H); assumption).
    change (signed_inf 1) with PInf. cbn [mul]. unfold signed_inf.
    apply Qeq_alt in Hq. rewrite Hq. reflexivity.
  - left. eauto.
Qed.

Lemma div_NaN_l (b : num) : NaN / b = NaN.
Proof. destruct b; reflexivity. Qed.

Lemma find_backgroundImage_remove_tempRect (l : list FabricObject) :
  find_backgroundImage (fabric.remove_first is_tempRect l)
  = find_backgroundImage l.
Proof.
  induction l as [|o l IH]; [reflexivity|]. destruct o; simpl; auto.
Qed.

Lemma handleMouseDown_background (tool : Tool) (st : ViewerState)
      (e : MouseEvent) :
  find_backgroundImage (objects (canvas (handleMouseDown tool st e)))
  = find_backgroundImage (objects (canvas st)).
Proof.
  unfold handleMouseDown.
  destruct ((ev_button e =? 1)%Z || ev_altKey e || ev_spaceKey e);
    [reflexivity|].
  destruct (negb (tool_eqb tool ToolRectangle)); [reflexivity|].
  cbn [canvas].
  change (objects (fabric.add (canvas st) ObjTempRect))
    with (objects (canvas st) ++ [ObjTempRect]).
  rewrite find_backgroundImage_app.
  destruct (find_backgroundImage (objects (canvas st))); reflexivity.
Qed.

Lemma handleMouseUp_background (st : ViewerState) :
  find_backgroundImage (objects (canvas (fst (handleMouseUp st))))
  = find_backgroundImage (objects (canvas st)).
Proof.
  unfold handleMouseUp. destruct (panning st); [reflexivity|].
  destruct (isDrawing st); [|reflexivity].
  destruct (tempRect st) as [r|]; [|reflexivity].
  destruct (drawStart st); [|reflexivity].
  destruct (find_backgroundImage (objects (canvas st))) as [bg|] eqn:Hbg;
    [|cbn [fst]; exact Hbg].
  destruct ((box_width (imageCoords bg r) >? 10)
            && (box_height (imageCoords bg r) >? 10));
    cbn [fst canvas]; unfold fabric.remove_found; cbn [objects];
    rewrite find_backgroundImage_remove_tempRect; exact Hbg.
Qed.

Lemma render_background (anns : list Annotation) (conns : list Connection)
      (sel : option Annotation) (tool : Tool) (c : Canvas) :
  find_backgroundImage (objects (renderAnnotations anns conns sel tool c))
  = find_backgroundImage (objects c).
Proof.
  destruct (find_backgroundImage (objects c)) as [bg|] eqn:Hbg.
  - rewrite (render_objects anns conns sel tool c bg Hbg). reflexivity.
  - rewrite (render_without_background anns conns sel tool c Hbg).
    cbn [objects]. rewrite find_backgroundImage_kept. exact Hbg.
Qed.

Lemma add_not_infinite (a b : num) :
  not_infinite a = true -> not_infinite b = true -> not_infinite (a + b) = true.
Proof. destruct a, b; simpl; congruence. Qed.

Lemma neg_not_infinite (a : num) :
  not_infinite a = true -> not_infinite (neg a) = true.
Proof. destruct a; simpl; congruence. Qed.

Lemma sub_not_infinite (a b : num) :
  not_infinite a = true -> not_infinite b = true -> not_infinite (a - b) = true.
Proof.
  intros Ha Hb. unfold sub. apply add_not_infinite; [exact Ha|].
  apply neg_not_infinite. exact Hb.
Qed.

Lemma mul_not_infinite (a b : num) :
  not_infinite a = true -> not_infinite b = true -> not_infinite (a * b) = true.
Proof. destruct a, b; simpl; congruence. Qed.

Lemma abs_not_infinite (a : num) :
  not_infinite a = true -> not_infinite (Math_abs a) = true.
Proof. destruct a; simpl; congruence. Qed.

Lemma finite_not_infinite (a : num) :
  is_finite a = true -> not_infinite a = true.
Proof. destruct a; simpl; congruence. Qed.

Lemma mul_NaN_l (a : num) : NaN * a = NaN.
Proof. destruct a; reflexivity. Qed.

Lemma add_NaN_l (a : num) : NaN + a = NaN.
Proof. destruct a; reflexivity. Qed.

Create HintDb noninf.
#[local] Hint Resolve add_not_infinite neg_not_infinite sub_not_infinite
  mul_not_infinite abs_not_infinite finite_not_infinite : noninf.

(** The inverse viewport transform of a point without infinite coordinate,
    under a translation without infinite entry, has no infinite coordinate:
    a singular zoom gives [NaN]. *)
Lemma restorePointerVpt_not_infinite (c : Canvas) (p : Point) :
  not_infinite (vpt4 (viewportTransform c)) = true ->
  not_infinite (vpt5 (viewportTransform c)) = true ->
  not_infinite (pt_x p) = true -> not_infinite (pt_y p) = true ->
  not_infinite (pt_x (fabric.restorePointerVpt c p)) = true
  /\ not_infinite (pt_y (fabric.restorePointerVpt c p)) = true.
Proof.
  unfold fabric.restorePointerVpt.
  destruct (viewportTransform c) as [z tx ty]. destruct p as [x y].
  cbn [vpt0 vpt4 vpt5 pt_x pt_y]. intros Htx Hty Hx Hy.
  destruct (invertTransform_entry z) as [(qa & qz & Ha & Hz)|Hn];
    cbv zeta in *.
  - rewrite Ha, Hz. split; auto 12 with noninf.
  - rewrite Hn.
    repeat ((rewrite mul_NaN_l) || (rewrite add_NaN_l) || (rewrite add_NaN_r)
            || (progress cbn [neg])).
    split; reflexivity.
Qed.

Lemma getPointer_not_infinite (c : Canvas) (e : MouseEvent) :
  not_infinite (vpt4 (viewportTransform c)) = true ->
  not_infinite (vpt5 (viewportTransform c)) = true ->
  finite_pointer e = true ->
  not_infinite (pt_x (getPointer c e)) = true
  /\ not_infinite (pt_y (getPointer c e)) = true.
Proof.
  intros H4 H5 He. unfold finite_pointer in He.
  apply andb_true_iff in He. destruct He as [Hx Hy].
  apply restorePointerVpt_not_infinite; auto with noninf.
Qed.

Lemma zoomToPoint_not_infinite (c : Canvas) (point : Point) (value : num) :
  not_infinite (vpt4 (viewportTransform c)) = true ->
  not_infinite (vpt5 (viewportTransform c)) = true ->
  not_infinite (pt_x point) = true -> not_infinite (pt_y point) = true ->
  not_infinite value = true ->
  let c' := fabric.zoomToPoint c point value in
  not_infinite (vpt4 (viewportTransform c')) = true
  /\ not_infinite (vpt5 (viewportTransform c')) = true
  /\ objects c' = objects c.
Proof.
  intros H4 H5 Hx Hy Hv c'.
  destruct (restorePointerVpt_not_infinite c point H4 H5 Hx Hy) as [Px Py].
  unfold c', fabric.zoomToPoint, fabric.setViewportTransform,
    fabric.transformPoint.
  cbn [viewportTransform vpt0 vpt4 vpt5 pt_x pt_y objects].
  repeat split; auto 10 with noninf.
Qed.

(** The zoom the wheel sets is never infinite, whatever the canvas zoom. *)
Lemma wheel_zoom_not_infinite (g : num) (delta : num) :
  not_infinite
    (Math_min [Math_max [g * (if delta >? 0 then 0.9 else 1.1); Fin 0.1];
               Fin 5]) = true.
Proof.
  destruct (delta >? 0); destruct g as [q| | |];
    try (vm_compute; reflexivity);
    cbn [mul]; rewrite clamp_fin; reflexivity.
Qed.

Lemma zoomIn_not_infinite (z : num) :
  not_infinite z = true -> not_infinite (Math_min [z * 1.2; Fin 5]) = true.
Proof.
  destruct z as [q| | |]; try discriminate; intros _; [|reflexivity].
  unfold Math_min. cbn [fold_right mul].
  change (min2 (Fin 5) PInf) with (Fin 5). rewrite min2_fin. reflexivity.
Qed.

Lemma zoomOut_not_infinite (z : num) :
  not_infinite z = true -> not_infinite (Math_max [z / 1.2; Fin 0.1]) = true.
Proof.
  destruct z as [q| | |]; try discriminate; intros _; [|reflexivity].
  rewrite div_fin by (intro K; discriminate K).
  unfold Math_max. cbn [fold_right].
  change (max2 (Fin 0.1) NInf) with (Fin 0.1). rewrite max2_fin. reflexivity.
Qed.

Lemma is_size_inv (a : num) :
  is_size a = true -> exists q : Q, a = Fin q /\ (0 <= q)%Q.
Proof.
  destruct a as [q| | |]; simpl; try discriminate.
  intro H. apply Qle_bool_iff in H. eauto.
Qed.

(** The fit scale of sizes is a finite number or [NaN] (an image of height
    0 in a container of height 0). *)
Lemma fitScale_not_infinite (cw ch w h : Q) :
  (0 <= ch)%Q -> truthy w = true ->
  not_infinite (fitScale cw ch w h) = true.
Proof.
  intros Hch Hw. unfold fitScale.
  assert (Hw0 : ~ (w == 0)%Q).
  { simpl in Hw. apply negb_true_iff in Hw. apply Qeq_bool_neq. exact Hw. }
  rewrite (div_fin cw w Hw0).
  destruct (Qeq_bool h 0) eqn:Eh.
  - unfold div at 1. rewrite Eh. unfold signed_inf.
    destruct (ch ?= 0)%Q eqn:Ec.
    + reflexivity.
    + apply Qlt_alt in Ec. lra.
    + unfold Math_min. cbn [fold_right].
      change (min2 (Fin 1) PInf) with (Fin 1).
      change (min2 PInf (Fin 1)) with (Fin 1).
      rewrite min2_fin. reflexivity.
  - rewrite (div_fin ch h) by (apply Qeq_bool_neq; exact Eh).
    rewrite Math_min3_fin. reflexivity.
Qed.

Lemma rect_ok_initial (x y : num) : rect_ok (mkRectObj x y 0 0).
Proof.
  unfold rect_ok, normalized. cbn [rect_width rect_height].
  repeat split; try reflexivity; intro H; discriminate H.
Qed.

Lemma rect_ok_dragRect (start pointer : Point) :
  not_infinite (pt_x start) = true -> not_infinite (pt_y start) = true ->
  not_infinite (pt_x pointer) = true -> not_infinite (pt_y pointer) = true ->
  rect_ok (dragRect start pointer).
Proof.
  intros Hsx Hsy Hpx Hpy. unfold rect_ok, normalized, dragRect.
  cbn [rect_left rect_top rect_width rect_height].
  assert (C : forall s p : num,
             not_infinite s = true -> not_infinite p = true ->
             (0 <? Math_abs (p - s)) = true ->
             is_finite (if p - s >? 0 then s else p) = true).
  { intros s p Hs Hp H.
    destruct s as [a| | |], p as [b| | |];
      try discriminate Hs; try discriminate Hp; try discriminate H.
    cbn [sub add neg]. destruct (Fin (b + - a) >? 0); reflexivity. }
  repeat split; auto using Math_abs_not_negative with noninf.
Qed.

Lemma steady_initial : steady initialViewer.
Proof.
  unfold steady. cbn.
  split; [intros bg E; discriminate E|].
  repeat (split; [reflexivity|]).
  split; intros ? E; discriminate E.
Qed.

Lemma steady_with_zoom (st : ViewerState) (c : Canvas) (z : num) :
  steady st ->
  find_backgroundImage (objects c)
  = find_backgroundImage (objects (canvas st)) ->
  not_infinite (vpt4 (viewportTransform c)) = true ->
  not_infinite (vpt5 (viewportTransform c)) = true ->
  not_infinite z = true ->
  steady (with_zoom st c z).
Proof.
  intros (Hfit & _ & _ & _ & Hlx & Hly & Hds & Htr) Hb H4 H5 Hz.
  unfold steady, with_zoom.
  cbn [canvas zoom lastPosX lastPosY drawStart tempRect].
  rewrite Hb. repeat split; assumption || apply Hds || apply Htr; assumption.
Qed.

Lemma steady_zoomStep (st : ViewerState) (z : ZoomEvent) :
  well_formed (EvZoom z) = true -> steady st -> steady (zoomStep st z).
Proof.
  intros Hwf Hst.
  pose proof Hst as (Hfit & H4 & H5 & Hz & Hlx & Hly & Hds & Htr).
  destruct z as [e| | | |cw ch w h]; cbn [zoomStep].
  - cbn [well_formed] in Hwf. unfold handleMouseWheel.
    destruct (getPointer_not_infinite (canvas st) e H4 H5 Hwf) as [Px Py].
    destruct (zoomToPoint_not_infinite (canvas st)
                (mkPoint (pt_x (getPointer (canvas st) e))
                         (pt_y (getPointer (canvas st) e)))
                (Math_min [Math_max [fabric.getZoom (canvas st)
                                     * (if ev_deltaY e >? 0 then 0.9 else 1.1);
                                     Fin 0.1]; Fin 5])
                H4 H5 Px Py (wheel_zoom_not_infinite _ _))
      as (Q4 & Q5 & Qo).
    apply steady_with_zoom; try assumption.
    + rewrite Qo. reflexivity.
    + apply wheel_zoom_not_infinite.
  - unfold handleZoomIn, fabric.setZoom.
    destruct (zoomToPoint_not_infinite (canvas st) (mkPoint 0 0)
                (Math_min [zoom st * 1.2; Fin 5]) H4 H5 eq_refl eq_refl
                (zoomIn_not_infinite _ Hz))
      as (Q4 & Q5 & Qo).
    apply steady_with_zoom; try assumption.
    + rewrite Qo. reflexivity.
    + apply zoomIn_not_infinite. exact Hz.
  - unfold handleZoomOut, fabric.setZoom.
    destruct (zoomToPoint_not_infinite (canvas st) (mkPoint 0 0)
                (Math_max [zoom st / 1.2; Fin 0.1]) H4 H5 eq_refl eq_refl
                (zoomOut_not_infinite _ Hz))
      as (Q4 & Q5 & Qo).
    apply steady_with_zoom; try assumption.
    + rewrite Qo. reflexivity.
    + apply zoomOut_not_infinite. exact Hz.
  - unfold handleResetZoom. apply steady_with_zoom; try assumption;
      reflexivity.
  - unfold onImageLoaded. destruct (truthy w) eqn:Hw; cbn [negb];
      [|exact Hst].
    cbn [well_formed] in Hwf.
    apply andb_true_iff in Hwf. destruct Hwf as [Hwf Hh].
    apply andb_true_iff in Hwf. destruct Hwf as [Hwf Hw'].
    apply andb_true_iff in Hwf. destruct Hwf as [Hcw Hch].
    apply is_size_inv in Hcw, Hch, Hw', Hh.
    destruct Hcw as (a & -> & Ha), Hch as (b & -> & Hb),
             Hw' as (c & -> & Hc), Hh as (d & -> & Hd).
    unfold steady, with_zoom.
    cbn [canvas zoom lastPosX lastPosY drawStart tempRect
         fabric.add_sendToBack fabric.remove_found viewportTransform objects
         find_backgroundImage].
    split; [intros bg E; inversion E; exists a, b, c, d; reflexivity|].
    split; [exact H4|]. split; [exact H5|].
    split; [apply fitScale_not_infinite; assumption|].
    repeat (split; [assumption|]). assumption.
Qed.

Lemma steady_handleMouseDown (tool : Tool) (st : ViewerState) (e : MouseEvent) :
  well_formed (EvMouseDown tool e) = true -> steady st ->
  steady (handleMouseDown tool st e).
Proof.
  intros Hwf Hst.
  pose proof Hst as (Hfit & H4 & H5 & Hz & Hlx & Hly & Hds & Htr).
  cbn [well_formed] in Hwf. apply andb_true_iff in Hwf.
  destruct Hwf as [Hp Hc]. unfold finite_client in Hc.
  apply andb_true_iff in Hc. destruct Hc as [Hcx Hcy].
  pose proof (handleMouseDown_background tool st e) as Hb.
  unfold handleMouseDown in *.
  destruct ((ev_button e =? 1)%Z || ev_altKey e || ev_spaceKey e).
  - unfold steady. cbn [canvas zoom lastPosX lastPosY drawStart tempRect].
    repeat (split; [assumption || (apply finite_not_infinite; assumption)|]).
    assumption.
  - destruct (negb (tool_eqb tool ToolRectangle)); [exact Hst|].
    destruct (getPointer_not_infinite (canvas st) e H4 H5 Hp) as [Px Py].
    unfold steady. cbn [canvas zoom lastPosX lastPosY drawStart tempRect] in *.
    rewrite Hb.
    split; [exact Hfit|]. split; [exact H4|]. split; [exact H5|].
    repeat (split; [assumption|]).
    split.
    + intros p E. inversion E; subst p. split; assumption.
    + intros r E. inversion E; subst r. apply rect_ok_initial.
Qed.

Lemma steady_handleMouseMove (st : ViewerState) (e : MouseEvent) :
  well_formed (EvMouseMove e) = true -> steady st ->
  steady (handleMouseMove st e).
Proof.
  intros Hwf Hst.
  pose proof Hst as (Hfit & H4 & H5 & Hz & Hlx & Hly & Hds & Htr).
  cbn [well_formed] in Hwf. apply andb_true_iff in Hwf.
  destruct Hwf as [Hp Hc]. unfold finite_client in Hc.
  apply andb_true_iff in Hc. destruct Hc as [Hcx Hcy].
  apply finite_not_infinite in Hcx, Hcy.
  unfold handleMouseMove.
  destruct (panning st).
  - unfold steady.
    cbn [canvas zoom lastPosX lastPosY drawStart tempRect viewportTransform
         objects vpt4 vpt5].
    repeat (split; [solve [assumption | auto with noninf]|]). assumption.
  - destruct (isDrawing st) eqn:Hd; [|exact Hst].
    destruct (tempRect st) as [r|] eqn:Hr; [|exact Hst].
    destruct (drawStart st) as [start|] eqn:Hs; [|exact Hst].
    destruct (getPointer_not_infinite (canvas st) e H4 H5 Hp) as [Px Py].
    destruct (Hds start eq_refl) as [Sx Sy].
    unfold steady. cbn [canvas zoom lastPosX lastPosY drawStart tempRect].
    repeat (split; [assumption|]).
    intros r' E. inversion E; subst r'.
    apply (rect_ok_dragRect start (getPointer (canvas st) e)); assumption.
Qed.

Lemma steady_handleMouseUp (st : ViewerState) :
  steady st -> steady (fst (handleMouseUp st)).
Proof.
  intros Hst.
  pose proof Hst as (Hfit & H4 & H5 & Hz & Hlx & Hly & Hds & Htr).
  pose proof (handleMouseUp_background st) as Hb.
  unfold handleMouseUp in *.
  destruct (panning st).
  - unfold steady. cbn [fst canvas zoom lastPosX lastPosY drawStart tempRect].
    repeat (split; [assumption|]). assumption.
  - destruct (isDrawing st); [|exact Hst].
    destruct (tempRect st) as [r|]; [|exact Hst].
    destruct (drawStart st) as [start|]; [|exact Hst].
    destruct (find_backgroundImage (objects (canvas st))) as [bg|] eqn:Hbg;
      [|exact Hst].
    destruct ((box_width (imageCoords bg r) >? 10)
              && (box_height (imageCoords bg r) >? 10));
      unfold steady;
      cbn [fst canvas zoom lastPosX lastPosY drawStart tempRect
           fabric.remove_found viewportTransform] in *;
      rewrite Hb;
      (split; [exact Hfit|]);
      repeat (split; [assumption|]);
      split; intros ? E; discriminate E.
Qed.

Lemma steady_renderEffect (anns : list Annotation) (conns : list Connection)
      (sel : option Annotation) (tool : Tool) (st : ViewerState) :
  steady st -> steady (renderEffect anns conns sel tool st).
Proof.
  intros (Hfit & H4 & H5 & Hz & Hlx & Hly & Hds & Htr).
  assert (Hv : viewportTransform
                 (renderAnnotations anns conns sel tool (canvas st))
               = viewportTransform (canvas st)).
  { destruct (find_backgroundImage (objects (canvas st))) as [bg|] eqn:Hbg.
    - rewrite (render_objects anns conns sel tool _ bg Hbg). reflexivity.
    - rewrite (render_without_background anns conns sel tool _ Hbg).
      reflexivity. }
  unfold steady, renderEffect.
  cbn [canvas zoom lastPosX lastPosY drawStart tempRect].
  rewrite render_background, Hv.
  repeat (split; [assumption|]). assumption.
Qed.

Lemma steady_viewerStep (st : ViewerState) (ev : ViewerEvent) :
  well_formed ev = true -> steady st -> steady (viewerStep st ev).
Proof.
  intros Hwf Hst.
  destruct ev as [z|tool e|e| |anns conns sel tool|]; cbn [viewerStep].
  - apply steady_zoomStep; assumption.
  - apply steady_handleMouseDown; assumption.
  - apply steady_handleMouseMove; assumption.
  - apply steady_handleMouseUp; assumption.
  - apply steady_renderEffect; assumption.
  - destruct Hst as (Hfit & H4 & H5 & Hz & Hlx & Hly & Hds & Htr).
    unfold steady, pointerEffect.
    cbn [canvas zoom lastPosX lastPosY drawStart tempRect].
    repeat (split; [assumption || reflexivity|]). assumption.
Qed.

Lemma steady_runViewer (evs : list ViewerEvent) :
  forallb well_formed evs = true ->
  forall st, steady st -> steady (runViewer st evs).
Proof.
  induction evs as [|ev evs IH]; intros Hwf st Hst; [exact Hst|].
  simpl in Hwf. apply andb_true_iff in Hwf. destruct Hwf as [Hev Hwf].
  unfold runViewer. cbn [fold_left]. apply (IH Hwf).
  apply steady_viewerStep; assumption.
Qed.

(** In a steady state every box the release hands to [onAnnotationCreate]
    has four finite coordinates. *)
Lemma created_box_is_finite (st : ViewerState) (b : Box) :
  steady st ->
  In (OnAnnotationCreate b) (snd (handleMouseUp st)) ->
  finite_box b = true.
Proof.
  intros (Hfit & _ & _ & _ & _ & _ & _ & Htr) Hin.
  destruct (handleMouseUp_emits st b Hin)
    as (bg & r & Hbg & Hr & _ & _ & Hb & Hw & Hh).
  destruct (Hfit bg Hbg) as (cw & ch & w & h & ->).
  destruct (Htr r Hr) as ((Nw & Nh) & Iw & Ih & Lw & Lh).
  subst b. unfold imageCoords, finite_box, fitImage in *.
  cbn [box_x box_y box_width box_height img_scaleX img_left img_top] in *.
  destruct (rect_width r) as [rw| | |] eqn:Ew;
    try discriminate Iw; [|rewrite div_NaN_l in Hw; discriminate Hw].
  destruct (rect_height r) as [rh| | |] eqn:Eh;
    try discriminate Ih; [|rewrite div_NaN_l in Hh; discriminate Hh].
  destruct (fabric.constrainScale (fitScale cw ch w h)) as [s| | |] eqn:Es;
    try (cbn in Hw; discriminate Hw).
  destruct (constrainScale_nonzero _ _ Es) as (Hs & f & Ef).
  rewrite (div_fin _ s Hs) in Hw. rewrite (div_fin _ s Hs) in Hh.
  apply gtb_fin_iff in Hw, Hh. apply ltb_fin_false in Nw, Nh.
  assert (Pw : (0 < rw)%Q).
  { destruct (Qlt_le_dec 0 rw) as [L|L]; [exact L|exfalso].
    assert (E : (rw == 0)%Q) by lra.
    assert (K : (rw / s == 0)%Q) by (rewrite E; field; exact Hs). lra. }
  assert (Ph : (0 < rh)%Q).
  { destruct (Qlt_le_dec 0 rh) as [L|L]; [exact L|exfalso].
    assert (E : (rh == 0)%Q) by lra.
    assert (K : (rh / s == 0)%Q) by (rewrite E; field; exact Hs). lra. }
  apply ltb_fin in Pw, Ph.
  specialize (Lw Pw). specialize (Lh Ph).
  apply finite_inv in Lw, Lh. destruct Lw as [l ->], Lh as [t ->].
  rewrite Ef.
  assert (H2 : ~ (2 == 0)%Q) by (intro K; discriminate K).
  repeat (progress cbn [add sub neg mul]
          || (rewrite (div_fin _ 2) by exact H2)
          || (rewrite (div_fin _ s) by exact Hs)).
  reflexivity.
Qed.

(** A draw gesture is a run: the press, then the moves. *)
Lemma drawGesture_run (st : ViewerState) (down : MouseEvent)
      (moves : list MouseEvent) :
  drawGesture st down moves
  = handleMouseUp (runViewer st (EvMouseDown ToolRectangle down
                                 :: map EvMouseMove moves)).
Proof.
  unfold drawGesture, runViewer. cbn [fold_left viewerStep]. f_equal.
  generalize (handleMouseDown ToolRectangle st down).
  induction moves as [|e moves IH]; intro s; [reflexivity|].
  cbn [map fold_left viewerStep]. apply IH.
Qed.



(** With the page image loaded in a container of width 0 the image stores
    the scale 0.0001, and a drag of 100 by 100 creates a box of finite
    coordinates. *)
Lemma collapsed_image_box :
  img_scaleX (fitImage 0 600 1600 1200) == 0.0001
  /\ exists b : Box,
      snd (drawGesture collapsedViewer (mouseAt 100 100) [mouseAt 200 200])
      = [OnAnnotationCreate b]
      /\ box_eqv b (mkBox 1000000 (-2000000) 1000000 1000000).
Proof.
  split; [vm_compute; reflexivity|].
  eexists. split; [vm_compute; reflexivity|].
  repeat split; vm_compute; reflexivity.
Qed.

(* ================================================================== *)
(** ** The zoom controls *)
(* ================================================================== *)

(** X13.  The wheel zooms by one step in the direction of the scroll and
    saturates at the bounds: from a canvas zoom [g] within [0.1, 5], a
    positive [deltaY] gives [max(0.9 g, 0.1)], never above [g], and any
    other [deltaY], zero and [NaN] included, gives [min(1.1 g, 5)], never
    below [g]; [zoom] and the canvas zoom both take that value. *)
Theorem wheel_steps_and_saturates :
  forall (st : ViewerState) (e : MouseEvent) (g : Q),
    fabric.getZoom (canvas st) = Fin g -> (0.1 <= g <= 5)%Q ->
    exists v : Q,
      zoom (handleMouseWheel st e) = Fin v
      /\ fabric.getZoom (canvas (handleMouseWheel st e)) = Fin v
      /\ ((ev_deltaY e >? 0) = true ->
          (v == Qmax (g * 0.9) 0.1)%Q /\ (v <= g)%Q)
      /\ ((ev_deltaY e >? 0) = false ->
          (v == Qmin (g * 1.1) 5)%Q /\ (g <= v)%Q).
Proof.
  intros st e g Hg Hr.
  assert (Hc : fabric.getZoom (canvas (handleMouseWheel st e))
               = zoom (handleMouseWheel st e)) by reflexivity.
  rewrite Hc. unfold handleMouseWheel, with_zoom. cbn [zoom]. rewrite Hg.
  destruct (ev_deltaY e >? 0); cbn [mul]; rewrite clamp_fin;
    eexists; (split; [reflexivity|]); (split; [reflexivity|]);
    split; intro H; try discriminate H.
  - assert (M : (0.1 <= Qmax (g * 0.9) 0.1 <= 5)%Q)
      by (split; [apply Q.le_max_r|apply Q.max_lub; lra]).
    assert (E : (Qmin (Qmax (g * 0.9) 0.1) 5 == Qmax (g * 0.9) 0.1)%Q)
      by (apply Q.min_l; lra).
    split; [exact E|]. rewrite E. apply Q.max_lub; lra.
  - assert (M : (Qmax (g * 1.1) 0.1 == g * 1.1)%Q) by (apply Q.max_l; lra).
    assert (E : (Qmin (Qmax (g * 1.1) 0.1) 5 == Qmin (g * 1.1) 5)%Q)
      by (rewrite M; reflexivity).
    split; [exact E|]. rewrite E. apply Q.min_glb; lra.
Qed.

Lemma wheel_steps_and_saturates_witness :
  (0.1 <= 1 <= 5)%Q
  /\ exists v : Q,
      zoom (handleMouseWheel initialViewer (wheelAt 100 100 0)) = Fin v
      /\ (v == Qmin (1 * 1.1) 5)%Q /\ (1 <= v)%Q.
Proof.
  assert (Hr : (0.1 <= 1 <= 5)%Q) by lra.
  split; [exact Hr|].
  destruct (wheel_steps_and_saturates initialViewer (wheelAt 100 100 0) 1
              eq_refl Hr) as (v & Hv & _ & _ & Hup).
  exists v. split; [exact Hv|]. apply Hup. reflexivity.
Defined.

(* ================================================================== *)
(** ** [Annotator]: responses and the local lists *)
(* ================================================================== *)

(** X14.  A response rebuilds the annotation list from the list of the moment
    the handler was called, not from the current one.  So when two creates
    are issued before either is answered, the second response drops the
    annotation of the first from the local list; and a create answered
    after a delete that was issued and answered meanwhile puts the
    deleted annotation back. *)
Theorem responses_overwrite_from_call_time :
  forall (st : AnnotatorState) (d1 d2 : Box)
         (s1 s2 : Suspended Annotation) (a1 a2 : Annotation) (i : Z),
    handleAnnotationCreate st d1 = Some s1 ->
    handleAnnotationCreate st d2 = Some s2 ->
    let after1 := fst (settle s1 (Resolved a1) st) in
    let after2 := fst (settle s2 (Resolved a2) after1) in
    let deleted := fst (settle (handleAnnotationDelete st i) (Resolved tt) st) in
    let recreated := fst (settle s1 (Resolved a1) deleted) in
    annotations after1 = annotations st ++ [a1]
    /\ annotations after2 = annotations st ++ [a2]
    /\ (~ In a1 (annotations st) -> a1 <> a2 ->
        ~ In a1 (annotations after2))
    /\ ~ In i (map ann_id (annotations deleted))
    /\ annotations recreated = annotations st ++ [a1].
Proof.
  intros st d1 d2 s1 s2 a1 a2 i H1 H2 after1 after2 deleted recreated.
  unfold handleAnnotationCreate in H1, H2.
  destruct (find_page st) as [pg|]; [|discriminate H1].
  inversion H1; subst s1. inversion H2; subst s2.
  unfold after2, after1, recreated, deleted. cbn.
  repeat split; try reflexivity.
  - intros Hn Hne Hin. apply in_app_or in Hin.
    destruct Hin as [Hin|[Hin|[]]]; [exact (Hn Hin)|]. congruence.
  - intro Hin. apply in_map_iff in Hin. destruct Hin as (a & Ha & Hin).
    apply filter_In in Hin. destruct Hin as [_ Hf].
    rewrite Ha, Z.eqb_refl in Hf. discriminate Hf.
Qed.

Lemma responses_overwrite_from_call_time_witness :
  let a1 := mkAnnotation 1 10 20 30 40 None false in
  let a2 := mkAnnotation 2 50 60 70 80 None false in
  exists s1 s2 : Suspended Annotation,
    handleAnnotationCreate emptyPage (mkBox 10 20 30 40) = Some s1
    /\ handleAnnotationCreate emptyPage (mkBox 50 60 70 80) = Some s2
    /\ annotations (fst (settle s2 (Resolved a2)
                                (fst (settle s1 (Resolved a1) emptyPage))))
       = [] ++ [a2].
Proof.
  intros a1 a2.
  eexists. eexists.
  assert (H1 : handleAnnotationCreate emptyPage (mkBox 10 20 30 40)
               = Some (mkSuspended
                         (ApiCreate 5 None (mkBox 10 20 30 40)) emptyPage
                         (fun r cur =>
                            match r with
                            | Resolved newAnnotation =>
                                (setAnnotations cur
                                   (annotations emptyPage ++ [newAnnotation])
                                   (Some newAnnotation), [])
                            | Rejected err =>
                                (cur, [ConsoleError
                                         "Error creating annotation:" err])
                            end))) by reflexivity.
  assert (H2 : handleAnnotationCreate emptyPage (mkBox 50 60 70 80)
               = Some (mkSuspended
                         (ApiCreate 5 None (mkBox 50 60 70 80)) emptyPage
                         (fun r cur =>
                            match r with
                            | Resolved newAnnotation =>
                                (setAnnotations cur
                                   (annotations emptyPage ++ [newAnnotation])
                                   (Some newAnnotation), [])
                            | Rejected err =>
                                (cur, [ConsoleError
                                         "Error creating annotation:" err])
                            end))) by reflexivity.
  split; [exact H1|]. split; [exact H2|].
  exact (proj1 (proj2 (responses_overwrite_from_call_time emptyPage
                         (mkBox 10 20 30 40) (mkBox 50 60 70 80) _ _
                         a1 a2 0 H1 H2))).
Defined.

(** X15.  Once a delete has been answered, the annotation list holds no
    annotation of that id and every other annotation of the call-time
    list, in order; the connection list is not touched, so connections of
    the deleted annotation stay in it, and the next render draws no line
    for them. *)
Theorem delete_hides_its_connections :
  forall (st cur : AnnotatorState) (i : Z),
    let st' := fst (settle (handleAnnotationDelete st i) (Resolved tt) cur) in
    ~ In i (map ann_id (annotations st'))
    /\ (forall a, In a (annotations st') <->
                  In a (annotations st) /\ ann_id a <> i)
    /\ connections st' = connections cur
    /\ selectedAnnotation st' = None
    /\ (forall bgImage conn,
           from_annotation_id conn = i \/ to_annotation_id conn = i ->
           connectionLine bgImage (annotations st') conn = None).
Proof.
  intros st cur i st'. unfold st'. cbn.
  assert (Hno : ~ In i (map ann_id
                          (filter (fun a => negb (ann_id a =? i)%Z)
                                  (annotations st)))).
  { intro Hin. apply in_map_iff in Hin. destruct Hin as (a & Ha & Hin).
    apply filter_In in Hin. destruct Hin as [_ Hf].
    rewrite Ha, Z.eqb_refl in Hf. discriminate Hf. }
  split; [exact Hno|]. split; [|split; [reflexivity|split; [reflexivity|]]].
  - intro a. rewrite filter_In. rewrite negb_true_iff, Z.eqb_neq. tauto.
  - intros bg conn [H|H]; unfold connectionLine.
    + rewrite H, (find_annotation_absent _ _ Hno). reflexivity.
    + rewrite H, (find_annotation_absent _ _ Hno).
      destruct (find_annotation _ (from_annotation_id conn)); reflexivity.
Qed.

(** X16.  Once an update has been answered, the annotation list has the
    length of the call-time list; every annotation of the updated id is
    replaced by the answer and every other one is kept in place; when no
    annotation has that id the list is unchanged, and the answer still
    becomes the selected annotation. *)
Theorem update_replaces_in_place :
  forall (st cur : AnnotatorState) (i : Z) (u : UpdateData) (a : Annotation),
    let st' := fst (settle (handleAnnotationUpdate st i u) (Resolved a) cur) in
    List.length (annotations st') = List.length (annotations st)
    /\ (forall n x, nth_error (annotations st) n = Some x ->
                    nth_error (annotations st') n
                    = Some (if (ann_id x =? i)%Z then a else x))
    /\ (ann_id a = i ->
        map ann_id (annotations st') = map ann_id (annotations st))
    /\ (~ In i (map ann_id (annotations st)) ->
        annotations st' = annotations st)
    /\ selectedAnnotation st' = Some a.
Proof.
  intros st cur i u a st'. unfold st'. cbn.
  split; [apply length_map|]. split; [|split; [|split; [|reflexivity]]].
  - intros n x Hn. rewrite nth_error_map, Hn. reflexivity.
  - intro Ha. rewrite map_map. apply map_ext. intro x.
    destruct (ann_id x =? i)%Z eqn:E; [|reflexivity].
    apply Z.eqb_eq in E. congruence.
  - intro Hno. induction (annotations st) as [|x l IH]; [reflexivity|].
    simpl in *. destruct (ann_id x =? i)%Z eqn:E.
    + apply Z.eqb_eq in E. tauto.
    + rewrite IH; tauto.
Qed.

Lemma update_replaces_in_place_witness :
  let st := mkAnnotator [mkPage 5 1] 1 twoAnnotations [] None None in
  let a := mkAnnotation 9 1 1 1 1 None false in
  ~ In 7%Z (map ann_id (annotations st))
  /\ annotations (fst (settle (handleAnnotationUpdate st 7
                                  (mkUpdateData None None))
                              (Resolved a) st))
     = annotations st.
Proof.
  intros st a.
  assert (Hno : ~ In 7%Z (map ann_id (annotations st)))
    by (simpl; intros [H|[H|[]]]; discriminate H).
  split; [exact Hno|].
  exact (proj1 (proj2 (proj2 (proj2
           (update_replaces_in_place st st 7 (mkUpdateData None None) a))))
         Hno).
Defined.

Lemma delete_hides_its_connections_witness :
  let st := mkAnnotator [mkPage 5 1] 1 twoAnnotations twoConnections
                        None None in
  let st' := fst (settle (handleAnnotationDelete st 2) (Resolved tt) st) in
  (from_annotation_id (mkConnection 10 1 2 false) = 2%Z
   \/ to_annotation_id (mkConnection 10 1 2 false) = 2%Z)
  /\ connections st' = twoConnections
  /\ connectionLine (fitImage 800 600 1600 1200) (annotations st')
                    (mkConnection 10 1 2 false) = None.
Proof.
  intros st st'.
  assert (H : from_annotation_id (mkConnection 10 1 2 false) = 2%Z
              \/ to_annotation_id (mkConnection 10 1 2 false) = 2%Z)
    by (right; reflexivity).
  split; [exact H|].
  destruct (delete_hides_its_connections st st 2) as (_ & _ & Hc & _ & Hl).
  split; [exact Hc|].
  exact (Hl (fitImage 800 600 1600 1200) (mkConnection 10 1 2 false) H).
Defined.

(* ================================================================== *)
(** ** [Annotator]: page buttons and model selector *)
(* ================================================================== *)

Lemma numbered_find (l : list Page) :
  forall (n k : Z),
    numbered_from n l ->
    (n <= k < n + Z.of_nat (List.length l))%Z ->
    exists p, find (fun p => (page_number p =? k)%Z) l = Some p
              /\ page_number p = k.
Proof.
  induction l as [|p l IH]; intros n k Hnum Hk.
  - simpl in Hk. lia.
  - destruct Hnum as [Hp Hnum]. cbn [find].
    destruct (page_number p =? k)%Z eqn:E.
    + apply Z.eqb_eq in E. eauto.
    + apply Z.eqb_neq in E. apply (IH (n + 1)%Z k Hnum).
      cbn [List.length] in Hk. lia.
Qed.

Lemma pageClick_invariant (st : AnnotatorState) (c : PageClick) :
  (1 <= currentPage st <= Z.of_nat (List.length (pages st)))%Z ->
  pages (pageClick st c) = pages st
  /\ (1 <= currentPage (pageClick st c)
      <= Z.of_nat (List.length (pages st)))%Z
  /\ annotations (pageClick st c) = annotations st.
Proof.
  intro H. destruct c; cbn [pageClick];
    unfold clickPreviousPage, clickNextPage.
  - destruct (Z.of_nat (List.length (pages st)) >? 1)%Z; [|auto].
    destruct (currentPage st <=? 1)%Z eqn:E; [auto|].
    apply Z.leb_gt in E. cbn. repeat split; lia.
  - destruct (Z.of_nat (List.length (pages st)) >? 1)%Z; [|auto].
    destruct (currentPage st >=? Z.of_nat (List.length (pages st)))%Z eqn:E;
      [auto|].
    rewrite Z.geb_leb in E. apply Z.leb_gt in E. cbn. repeat split; lia.
Qed.

(** X17.  The page buttons never leave the document: from a current page
    within [1, pages.length], any sequence of clicks on the previous and
    next buttons keeps the current page within that range (previous on the
    first page and next on the last do nothing), and when the pages are
    numbered 1, 2, ... the page record of the current page is always
    found. *)
Theorem page_buttons_stay_on_a_page :
  forall (st : AnnotatorState) (clicks : list PageClick),
    numbered_from 1 (pages st) ->
    (1 <= currentPage st <= Z.of_nat (List.length (pages st)))%Z ->
    let st' := fold_left pageClick clicks st in
    pages st' = pages st
    /\ (1 <= currentPage st' <= Z.of_nat (List.length (pages st)))%Z
    /\ exists p, find_page st' = Some p /\ page_number p = currentPage st'.
Proof.
  intros st clicks Hnum Hr st'.
  assert (G : pages st' = pages st
              /\ (1 <= currentPage st'
                  <= Z.of_nat (List.length (pages st)))%Z).
  { unfold st'. clear st'. revert st Hnum Hr.
    induction clicks as [|c clicks IH]; intros st Hnum Hr; [auto|].
    cbn [fold_left].
    destruct (pageClick_invariant st c Hr) as (P1 & P2 & _).
    destruct (IH (pageClick st c)) as (Q1 & Q2).
    - rewrite P1. exact Hnum.
    - rewrite P1. exact P2.
    - rewrite P1 in Q1, Q2. auto. }
  destruct G as (G1 & G2). split; [exact G1|]. split; [exact G2|].
  unfold find_page. rewrite G1.
  apply (numbered_find (pages st) 1 (currentPage st') Hnum). lia.
Qed.

Lemma page_buttons_stay_on_a_page_witness :
  let st := mkAnnotator [mkPage 5 1; mkPage 6 2; mkPage 9 3] 1 [] []
                        None None in
  numbered_from 1 (pages st)
  /\ (1 <= currentPage st <= Z.of_nat (List.length (pages st)))%Z
  /\ (1 <= currentPage
             (fold_left pageClick
                        [ClickPrevious; ClickNext; ClickNext; ClickNext;
                         ClickNext] st)
      <= Z.of_nat (List.length (pages st)))%Z.
Proof.
  intro st.
  assert (Hnum : numbered_from 1 (pages st)) by (simpl; auto).
  assert (Hr : (1 <= currentPage st <= Z.of_nat (List.length (pages st)))%Z)
    by (simpl; lia).
  split; [exact Hnum|]. split; [exact Hr|].
  exact (proj1 (proj2 (page_buttons_stay_on_a_page st
                         [ClickPrevious; ClickNext; ClickNext; ClickNext;
                          ClickNext] Hnum Hr))).
Defined.

Lemma activate_single (new : string) (l : list Model) :
  NoDup (map model_id l) ->
  (List.length
     (filter model_active
             (map (fun m => mkModel (model_id m)
                                    (String.eqb (model_id m) new)) l))
   <= 1)%nat
  /\ (~ In new (map model_id l) ->
      filter model_active
             (map (fun m => mkModel (model_id m)
                                    (String.eqb (model_id m) new)) l) = []).
Proof.
  induction l as [|m l IH]; intro Hnd; [simpl; auto|].
  inversion Hnd as [|x xs Hnotin Hnd']; subst.
  destruct (IH Hnd') as [IH1 IH2].
  cbn [map filter model_active].
  destruct (String.eqb (model_id m) new) eqn:E.
  - apply String.eqb_eq in E. subst new.
    rewrite (IH2 Hnotin). split; [simpl; lia|].
    intro H. exfalso. apply H. left. reflexivity.
  - apply String.eqb_neq in E. split; [exact IH1|].
    intro H. apply IH2. intro Hin. apply H. right. exact Hin.
Qed.

(** X18.  When a model switch is answered, exactly the models whose id is
    the new one are marked active and the ids are unchanged; so with
    distinct ids at most one model is active, and if no model has the new
    id none is active although [activeModelId] is set to it.  When the
    switch fails the state is unchanged and the user gets an alert. *)
Theorem model_switch_marks_one_active :
  forall (ms cur : ModelState) (new : string),
    let ms' := fst (handleModelChange ms new (Resolved tt) cur) in
    map model_id (models ms') = map model_id (models ms)
    /\ activeModelId ms' = new
    /\ (forall m, In m (models ms') ->
                  (model_active m = true <-> model_id m = new))
    /\ (NoDup (map model_id (models ms)) ->
        (List.length (filter model_active (models ms')) <= 1)%nat
        /\ (~ In new (map model_id (models ms)) ->
            filter model_active (models ms') = []))
    /\ (forall err,
           fst (handleModelChange ms new (Rejected err) cur) = cur
           /\ existsb is_visible
                (snd (handleModelChange ms new (Rejected err) cur)) = true).
Proof.
  intros ms cur new ms'. unfold ms'. cbn.
  split; [|split; [reflexivity|split; [|split]]].
  - rewrite map_map. reflexivity.
  - intros m Hin. apply in_map_iff in Hin. destruct Hin as (x & <- & _).
    cbn. apply String.eqb_eq.
  - apply activate_single.
  - intro err. split; reflexivity.
Qed.

Lemma model_switch_marks_one_active_witness :
  let ms := mkModelState [mkModel "yolo" true; mkModel "aws" false] "yolo" in
  NoDup (map model_id (models ms))
  /\ (List.length
        (filter model_active
                (models (fst (handleModelChange ms "aws" (Resolved tt) ms))))
      <= 1)%nat.
Proof.
  intro ms.
  assert (Hnd : NoDup (map model_id (models ms))).
  { simpl. constructor.
    - intros [H|[]]. discriminate H.
    - constructor; [intros []|constructor]. }
  split; [exact Hnd|].
  exact (proj1 (proj1 (proj2 (proj2 (proj2
           (model_switch_marks_one_active ms ms "aws")))) Hnd)).
Defined.

(* ================================================================== *)
(** ** [AnnotationPanel]: the attribute editor *)
(* ================================================================== *)

Lemma obj_get_put (V : Type) (o : JsObject V) (k k' : string) (v : V) :
  obj_get (obj_put o k v) k'
  = if String.eqb k k' then Some v else obj_get o k'.
Proof.
  induction o as [|[k0 v0] o IH]; simpl.
  - reflexivity.
  - destruct (String.eqb k0 k) eqn:E; simpl.
    + apply String.eqb_eq in E. subst k0.
      destruct (String.eqb k k'); reflexivity.
    + destruct (String.eqb k0 k') eqn:E'.
      * apply String.eqb_eq in E'. subst k0.
        rewrite String.eqb_sym, E. reflexivity.
      * exact IH.
Qed.

Lemma obj_put_keys (V : Type) (o : JsObject V) (k : string) (v : V) :
  map fst (obj_put o k v)
  = if existsb (String.eqb k) (map fst o) then map fst o
    else map fst o ++ [k].
Proof.
  induction o as [|[k0 v0] o IH]; simpl; [reflexivity|].
  rewrite (String.eqb_sym k k0).
  destruct (String.eqb k0 k); simpl; [reflexivity|].
  rewrite IH. destruct (existsb (String.eqb k) (map fst o)); reflexivity.
Qed.

Lemma obj_put_NoDup (V : Type) (o : JsObject V) (k : string) (v : V) :
  NoDup (map fst o) -> NoDup (map fst (obj_put o k v)).
Proof.
  intro H. rewrite obj_put_keys.
  destruct (existsb (String.eqb k) (map fst o)) eqn:E; [exact H|].
  apply NoDup_app; [exact H|repeat constructor; intros []|].
  intros x Hx [Heq|[]]. subst x.
  rewrite <- not_true_iff_false in E. apply E.
  apply existsb_exists. exists k. split; [exact Hx|apply String.eqb_refl].
Qed.

Lemma obj_get_none (V : Type) (o : JsObject V) (k : string) :
  obj_get o k = None <-> ~ In k (map fst o).
Proof.
  induction o as [|[k0 v0] o IH]; simpl; [tauto|].
  destruct (String.eqb k0 k) eqn:E.
  - apply String.eqb_eq in E. split; [discriminate|]. intro H. tauto.
  - apply String.eqb_neq in E. rewrite IH. tauto.
Qed.

(** What the rows after [o] change of the object. *)
Lemma savedAttributes_from (rows : AttributeRows) :
  forall (o : JsObject string) (k : string),
    obj_get (fold_left (fun attrObj row =>
                          if String.eqb (fst row) "" then attrObj
                          else obj_assign_string attrObj (fst row) (snd row))
                       rows o) k
    = if String.eqb k "" || String.eqb k "__proto__" then obj_get o k
      else match last_row rows k with
           | Some v => Some v
           | None => obj_get o k
           end.
Proof.
  induction rows as [|[k0 v0] rows IH]; intros o k.
  - cbn. destruct (String.eqb k "" || String.eqb k "__proto__"); reflexivity.
  - cbn [fold_left fst snd]. rewrite IH.
    unfold last_row. cbn [rev]. rewrite find_app_first. cbn [find fst].
    destruct (String.eqb k "" || String.eqb k "__proto__") eqn:Ek.
    + (* [k] is never assigned *)
      destruct (String.eqb k0 "") eqn:E0; [reflexivity|].
      unfold obj_assign_string.
      destruct (String.eqb k0 "__proto__") eqn:Ep; [reflexivity|].
      rewrite obj_get_put.
      destruct (String.eqb k0 k) eqn:E; [|reflexivity].
      apply String.eqb_eq in E. subst k0. rewrite E0, Ep in Ek.
      discriminate Ek.
    + apply orb_false_iff in Ek. destruct Ek as [Ek1 Ek2].
      destruct (find (fun row => String.eqb (fst row) k) (rev rows))
        as [[k1 v1]|]; [reflexivity|].
      destruct (String.eqb k0 k) eqn:E.
      * apply String.eqb_eq in E. subst k0. rewrite Ek1.
        unfold obj_assign_string. rewrite Ek2, obj_get_put, String.eqb_refl.
        reflexivity.
      * cbn [option_map].
        destruct (String.eqb k0 "") eqn:E0; [reflexivity|].
        unfold obj_assign_string.
        destruct (String.eqb k0 "__proto__"); [reflexivity|].
        rewrite obj_get_put, E. reflexivity.
Qed.

Lemma savedAttributes_NoDup (rows : AttributeRows) :
  forall o : JsObject string,
    NoDup (map fst o) ->
    NoDup (map fst (fold_left
                      (fun attrObj row =>
                         if String.eqb (fst row) "" then attrObj
                         else obj_assign_string attrObj (fst row) (snd row))
                      rows o)).
Proof.
  induction rows as [|[k0 v0] rows IH]; intros o H; [exact H|].
  cbn [fold_left fst snd]. apply IH.
  destruct (String.eqb k0 ""); [exact H|].
  unfold obj_assign_string.
  destruct (String.eqb k0 "__proto__"); [exact H|].
  apply obj_put_NoDup. exact H.
Qed.

(** X19.  The attribute object a save sends holds, for every key, the value
    of the last row with that key: rows with an empty key are dropped, an
    earlier row with the same key is overwritten, the key ["__proto__"]
    never becomes an attribute, and no key occurs twice. *)
Theorem saved_attributes_last_row_wins :
  forall (rows : AttributeRows) (k : string),
    obj_get (savedAttributes rows) k
    = (if String.eqb k "" || String.eqb k "__proto__" then None
       else last_row rows k)
    /\ NoDup (map fst (savedAttributes rows)).
Proof.
  intros rows k. split.
  - unfold savedAttributes. rewrite savedAttributes_from. cbn [obj_get].
    destruct (String.eqb k "" || String.eqb k "__proto__"); [reflexivity|].
    destruct (last_row rows k); reflexivity.
  - apply savedAttributes_NoDup. constructor.
Qed.

(** X20.  Adding a row and saving: with a key that is neither empty nor
    ["__proto__"], the saved object holds the new value under the key,
    whatever rows already had that key, and every other key holds what it
    held; the two input fields are cleared.  With an empty key the add
    button changes nothing. *)
Theorem added_row_wins_on_save :
  forall ed : AttributeEditor,
    (newAttrKey ed = ""%string -> handleAddAttribute ed = ed)
    /\ (newAttrKey ed <> ""%string -> newAttrKey ed <> "__proto__"%string ->
        let ed' := handleAddAttribute ed in
        obj_get (savedAttributes (attributes ed')) (newAttrKey ed)
        = Some (newAttrValue ed)
        /\ (forall k, k <> newAttrKey ed ->
                      obj_get (savedAttributes (attributes ed')) k
                      = obj_get (savedAttributes (attributes ed)) k)
        /\ newAttrKey ed' = ""%string /\ newAttrValue ed' = ""%string).
Proof.
  intro ed. split.
  - intro H. unfold handleAddAttribute. rewrite H. reflexivity.
  - intros Hne Hnp ed'.
    apply String.eqb_neq in Hne, Hnp.
    assert (E : ed' = mkAttributeEditor
                        (attributes ed ++ [(newAttrKey ed, newAttrValue ed)])
                        "" "")
      by (unfold ed', handleAddAttribute; rewrite Hne; reflexivity).
    rewrite E. cbn [attributes newAttrKey newAttrValue].
    split; [|split; [|split; reflexivity]].
    + unfold savedAttributes. rewrite savedAttributes_from, Hne, Hnp.
      cbn [orb]. unfold last_row. rewrite rev_app_distr. cbn [rev app find fst].
      rewrite String.eqb_refl. reflexivity.
    + intros k Hk. unfold savedAttributes. rewrite !savedAttributes_from.
      destruct (String.eqb k "" || String.eqb k "__proto__"); [reflexivity|].
      unfold last_row. rewrite rev_app_distr. cbn [rev app find fst].
      assert (Hk' : String.eqb (newAttrKey ed) k = false)
        by (apply String.eqb_neq; congruence).
      rewrite Hk'. reflexivity.
Qed.

Lemma added_row_wins_on_save_witness :
  let ed := mkAttributeEditor [("size", "2in"); ("rating", "150")]%string
                              "size" "4in" in
  newAttrKey ed <> ""%string /\ newAttrKey ed <> "__proto__"%string
  /\ obj_get (savedAttributes (attributes (handleAddAttribute ed))) "size"
     = Some "4in"%string.
Proof.
  intro ed.
  assert (H1 : newAttrKey ed <> ""%string) by discriminate.
  assert (H2 : newAttrKey ed <> "__proto__"%string) by discriminate.
  split; [exact H1|]. split; [exact H2|].
  exact (proj1 (proj2 (added_row_wins_on_save ed) H1 H2)).
Defined.

Lemma filter_not_index_spec (A : Type) (l : list A) :
  forall from index : nat,
    filter_not_index from index l
    = if (index <? from)%nat then l
      else firstn (index - from) l ++ skipn (S (index - from)) l.
Proof.
  induction l as [|x l IH]; intros from index.
  - cbn [filter_not_index]. destruct (index <? from)%nat; [reflexivity|].
    rewrite firstn_nil, skipn_nil. reflexivity.
  - cbn [filter_not_index]. rewrite IH.
    destruct (Nat.eqb from index) eqn:E.
    + apply Nat.eqb_eq in E. subst index.
      replace (from <? S from)%nat with true
        by (symmetry; apply Nat.ltb_lt; lia).
      rewrite Nat.ltb_irrefl, Nat.sub_diag. reflexivity.
    + apply Nat.eqb_neq in E.
      destruct (index <? from)%nat eqn:L.
      * apply Nat.ltb_lt in L.
        replace (index <? S from)%nat with true
          by (symmetry; apply Nat.ltb_lt; lia).
        reflexivity.
      * apply Nat.ltb_ge in L.
        replace (index <? S from)%nat with false
          by (symmetry; apply Nat.ltb_ge; lia).
        replace (index - from)%nat with (S (index - S from)) by lia.
        reflexivity.
Qed.

(** X21.  Removing the row of an index keeps the rows before and after it
    in order; an index past the last row removes nothing; and removing the
    row just added (its index is the former number of rows) gives the former
    rows back. *)
Theorem removed_row_is_the_indexed_one :
  forall (ed : AttributeEditor) (index : nat),
    attributes (handleRemoveAttribute ed index)
    = firstn index (attributes ed) ++ skipn (S index) (attributes ed)
    /\ ((List.length (attributes ed) <= index)%nat ->
        handleRemoveAttribute ed index = ed)
    /\ ((index < List.length (attributes ed))%nat ->
        S (List.length (attributes (handleRemoveAttribute ed index)))
        = List.length (attributes ed))
    /\ (newAttrKey ed <> ""%string ->
        attributes (handleRemoveAttribute (handleAddAttribute ed)
                                          (List.length (attributes ed)))
        = attributes ed).
Proof.
  intros ed index.
  assert (E : attributes (handleRemoveAttribute ed index)
              = firstn index (attributes ed)
                ++ skipn (S index) (attributes ed)).
  { unfold handleRemoveAttribute. cbn [attributes].
    rewrite filter_not_index_spec. cbn. rewrite Nat.sub_0_r. reflexivity. }
  split; [exact E|]. split; [|split].
  - intro Hle. destruct ed as [rows k v].
    unfold handleRemoveAttribute in *. cbn [attributes newAttrKey
      newAttrValue] in *. f_equal. rewrite E.
    rewrite firstn_all2 by exact Hle.
    rewrite skipn_all2 by lia. apply app_nil_r.
  - intro Hlt. rewrite E, length_app, length_firstn, length_skipn. lia.
  - intro Hne. apply String.eqb_neq in Hne.
    unfold handleAddAttribute. rewrite Hne.
    unfold handleRemoveAttribute. cbn [attributes].
    rewrite filter_not_index_spec. cbn [Nat.ltb Nat.leb].
    rewrite Nat.sub_0_r.
    rewrite firstn_app, Nat.sub_diag, firstn_all. cbn [firstn].
    rewrite skipn_all2 by (rewrite length_app; cbn; lia).
    rewrite !app_nil_r. reflexivity.
Qed.

Lemma removed_row_is_the_indexed_one_witness :
  let ed := mkAttributeEditor [("size", "2in"); ("rating", "150")]%string
                              "" "" in
  (List.length (attributes ed) <= 5)%nat
  /\ handleRemoveAttribute ed 5 = ed
  /\ attributes (handleRemoveAttribute ed 0) = [("rating", "150")]%string.
Proof.
  intro ed.
  assert (H : (List.length (attributes ed) <= 5)%nat) by (cbn; lia).
  split; [exact H|].
  split.
  - exact (proj1 (proj2 (removed_row_is_the_indexed_one ed 5)) H).
  - exact (proj1 (removed_row_is_the_indexed_one ed 0)).
Defined.

(* ================================================================== *)
(** ** Grouping the symbols by category *)
(* ================================================================== *)

Lemma groupStep_failed (l : list Symbol) : fold_left groupStep l None = None.
Proof. induction l as [|s l IH]; [reflexivity|exact IH]. Qed.

(** The groups after more symbols, from an accumulator [o]. *)
Lemma groupedSymbols_from (l : list Symbol) :
  forall o : JsObject (list Symbol),
    (forall s, In s l -> inheritedName (categoryOf s) = false) ->
    NoDup (map fst o) ->
    exists g,
      fold_left groupStep l (Some o) = Some g
      /\ NoDup (map fst g)
      /\ forall cat,
          obj_get g cat
          = match obj_get o cat, symbolsOf cat l with
            | None, [] => None
            | None, syms => Some syms
            | Some before, syms => Some (before ++ syms)
            end.
Proof.
  induction l as [|s l IH]; intros o Hok Hnd.
  - exists o. split; [reflexivity|]. split; [exact Hnd|].
    intro cat. cbn. destruct (obj_get o cat); [rewrite app_nil_r|]; reflexivity.
  - assert (Hs : inheritedName (categoryOf s) = false)
      by (apply Hok; left; reflexivity).
    assert (Hok' : forall x, In x l -> inheritedName (categoryOf x) = false)
      by (intros x Hx; apply Hok; right; exact Hx).
    cbn [fold_left groupStep].
    destruct (obj_get o (categoryOf s)) as [before|] eqn:Eo.
    + destruct (IH (obj_put o (categoryOf s) (before ++ [s])) Hok'
                   (obj_put_NoDup _ _ _ _ Hnd)) as (g & Hg & Hn & Hget).
      exists g. split; [exact Hg|]. split; [exact Hn|].
      intro cat. rewrite Hget, obj_get_put. unfold symbolsOf.
      cbn [filter].
      destruct (String.eqb (categoryOf s) cat) eqn:E.
      * apply String.eqb_eq in E. subst cat. rewrite Eo, <- app_assoc.
        reflexivity.
      * reflexivity.
    + rewrite Hs.
      destruct (IH (obj_put o (categoryOf s) [s]) Hok'
                   (obj_put_NoDup _ _ _ _ Hnd)) as (g & Hg & Hn & Hget).
      exists g. split; [exact Hg|]. split; [exact Hn|].
      intro cat. rewrite Hget, obj_get_put. unfold symbolsOf.
      cbn [filter].
      destruct (String.eqb (categoryOf s) cat) eqn:E.
      * apply String.eqb_eq in E. subst cat. rewrite Eo. reflexivity.
      * reflexivity.
Qed.

Lemma groupedSymbols_throws_from (l : list Symbol) :
  forall o : JsObject (list Symbol),
    (forall k, In k (map fst o) -> inheritedName k = false) ->
    (exists s, In s l /\ inheritedName (categoryOf s) = true) ->
    fold_left groupStep l (Some o) = None.
Proof.
  induction l as [|s l IH]; intros o Hkeys (x & Hx & Hinh).
  - contradiction.
  - cbn [fold_left groupStep].
    destruct (inheritedName (categoryOf s)) eqn:Hs.
    + assert (Eo : obj_get o (categoryOf s) = None).
      { apply obj_get_none. intro Hin. apply Hkeys in Hin. congruence. }
      rewrite Eo. apply groupStep_failed.
    + destruct Hx as [->|Hx]; [congruence|].
      assert (Hkeys' : forall v k,
                 In k (map fst (obj_put o (categoryOf s) v)) ->
                 inheritedName k = false).
      { intros v k Hin. rewrite obj_put_keys in Hin.
        destruct (existsb (String.eqb (categoryOf s)) (map fst o));
          [auto|].
        apply in_app_or in Hin. destruct Hin as [Hin|[<-|[]]]; auto. }
      destruct (obj_get o (categoryOf s)); apply IH; eauto.
Qed.

(** X22.  Grouping the symbols by category ([category || 'Other']): when no
    category is a name that every object inherits, each category that
    occurs holds exactly the symbols of that category in the order of the
    catalogue, a category that does not occur is absent, a symbol with a
    missing or empty category is under ['Other'], and no category occurs
    twice; when some symbol's category is such a name (["constructor"],
    ["toString"], ...) the grouping throws. *)
Theorem symbols_are_grouped_by_category :
  forall symbols : list Symbol,
    ((forall s, In s symbols -> inheritedName (categoryOf s) = false) ->
     exists g,
       groupedSymbols symbols = Some g
       /\ NoDup (map fst g)
       /\ forall cat,
           obj_get g cat
           = match symbolsOf cat symbols with
             | [] => None
             | syms => Some syms
             end)
    /\ ((exists s, In s symbols /\ inheritedName (categoryOf s) = true) ->
        groupedSymbols symbols = None).
Proof.
  intro symbols. split.
  - intro Hok.
    destruct (groupedSymbols_from symbols [] Hok) as (g & Hg & Hn & Hget);
      [constructor|].
    exists g. split; [exact Hg|]. split; [exact Hn|].
    intro cat. rewrite Hget. reflexivity.
  - intro Hex. apply groupedSymbols_throws_from; [intros k []|exact Hex].
Qed.

Lemma symbols_are_grouped_by_category_witness :
  let valve := mkSymbol 1 (Some "Valves"%string) in
  let pump := mkSymbol 2 None in
  let gate := mkSymbol 3 (Some "Valves"%string) in
  let odd := mkSymbol 4 (Some "constructor"%string) in
  (forall s, In s [valve; pump; gate] ->
             inheritedName (categoryOf s) = false)
  /\ (exists g,
         groupedSymbols [valve; pump; gate] = Some g
         /\ obj_get g "Valves" = Some [valve; gate]
         /\ obj_get g "Other" = Some [pump]
         /\ obj_get g "Piping" = None)
  /\ groupedSymbols [valve; odd; pump] = None.
Proof.
  intros valve pump gate odd.
  assert (Hok : forall s, In s [valve; pump; gate] ->
                          inheritedName (categoryOf s) = false)
    by (intros s [<-|[<-|[<-|[]]]]; reflexivity).
  split; [exact Hok|]. split.
  - destruct (proj1 (symbols_are_grouped_by_category [valve; pump; gate]) Hok)
      as (g & Hg & _ & Hget).
    exists g. split; [exact Hg|].
    repeat split; rewrite Hget; reflexivity.
  - apply (proj2 (symbols_are_grouped_by_category [valve; odd; pump])).
    exists odd. split; [right; left; reflexivity|reflexivity].
Defined.

(* ================================================================== *)
(** ** Loading the annotations of a page *)
(* ================================================================== *)

(** X23.  Nothing ties an answer to the page that is shown.  After a click
    that changes the page, the lists of the previous page stay until the
    load of the new page is answered, and for good if it fails (the error
    goes to the console); and when the load issued for the previous page is
    answered after the one for the new page, its lists replace those of
    the new page while the new page stays current.  The selected annotation
    is never reset by a load. *)
Theorem page_load_answers_are_not_matched :
  forall (st : AnnotatorState) (c : PageClick) (p1 p2 : Page)
         (r1 r2 : list Annotation * list Connection) (err : string),
    find_page st = Some p1 ->
    find_page (pageClick st c) = Some p2 ->
    exists l1 l2 : PageLoad,
      loadPageAnnotations st = Some l1
      /\ loadPageAnnotations (pageClick st c) = Some l2
      /\ load_page l1 = page_id p1 /\ load_page l2 = page_id p2
      /\ annotations (load_pending l2) = annotations st
      /\ fst (load_settle l2 (Rejected err) (load_pending l2))
         = pageClick st c
      /\ annotations (fst (load_settle l2 (Rejected err) (load_pending l2)))
         = annotations st
      /\ existsb is_visible
           (snd (load_settle l2 (Rejected err) (load_pending l2))) = false
      /\ (let shown := fst (load_settle l2 (Resolved r2) (load_pending l2)) in
          let late := fst (load_settle l1 (Resolved r1) shown) in
          annotations shown = fst r2 /\ connections shown = snd r2
          /\ annotations late = fst r1 /\ connections late = snd r1
          /\ currentPage late = currentPage (pageClick st c)
          /\ selectedAnnotation late = selectedAnnotation st).
Proof.
  intros st c p1 p2 [a1 c1] [a2 c2] err H1 H2.
  unfold loadPageAnnotations. rewrite H1, H2.
  eexists. eexists. split; [reflexivity|]. split; [reflexivity|].
  cbn [load_page load_pending load_settle fst snd].
  assert (Ha : annotations (pageClick st c) = annotations st
               /\ selectedAnnotation (pageClick st c) = selectedAnnotation st).
  { destruct c; cbn [pageClick];
      unfold clickPreviousPage, clickNextPage;
      destruct (Z.of_nat (List.length (pages st)) >? 1)%Z; auto.
    - destruct (currentPage st <=? 1)%Z; auto.
    - destruct (currentPage st >=? Z.of_nat (List.length (pages st)))%Z; auto. }
  destruct Ha as [Ha Hs].
  repeat split; try reflexivity; try exact Ha.
  cbn. exact Hs.
Qed.

Lemma page_load_answers_are_not_matched_witness :
  let st := mkAnnotator [mkPage 5 1; mkPage 6 2] 1 twoAnnotations
                        twoConnections None None in
  find_page st = Some (mkPage 5 1)
  /\ find_page (pageClick st ClickNext) = Some (mkPage 6 2)
  /\ exists l1 l2 : PageLoad,
      loadPageAnnotations st = Some l1
      /\ loadPageAnnotations (pageClick st ClickNext) = Some l2
      /\ annotations
           (fst (load_settle l1 (Resolved (twoAnnotations, []))
                   (fst (load_settle l2 (Resolved ([], []))
                                     (load_pending l2)))))
         = twoAnnotations
      /\ currentPage
           (fst (load_settle l1 (Resolved (twoAnnotations, []))
                   (fst (load_settle l2 (Resolved ([], []))
                                     (load_pending l2)))))
         = 2%Z.
Proof.
  intro st.
  assert (H1 : find_page st = Some (mkPage 5 1)) by reflexivity.
  assert (H2 : find_page (pageClick st ClickNext) = Some (mkPage 6 2))
    by reflexivity.
  split; [exact H1|]. split; [exact H2|].
  destruct (page_load_answers_are_not_matched st ClickNext _ _
              (twoAnnotations, []) ([], []) "" H1 H2)
    as (l1 & l2 & E1 & E2 & _ & _ & _ & _ & _ & _ & _ & _ & A & _ & C & _).
  exists l1, l2. repeat split; assumption.
Defined.
